(** * Conversation thread store: storage providers and module-level API

    A shallow embedding of [src/thread_manager.py].  The cap
    [MAX_THREAD_HISTORY] is read from the configuration, which wants it to
    be at least one ([validate_config] in [src/config_loader.py]); the
    providers are written for any natural number, and the properties that
    need a cap of at least one say so.  The three storage providers are
    modelled the way the Python classes are written:

    - [JSONStorageProvider] works on a file system (a finite map from paths to
      file contents, plus the log of system calls made), and every operation
      is load-full, mutate, save-full;
    - [SQLiteStorageProvider] works on the rows of the single table
      [threads], kept in rowid order, with [ORDER BY timestamp], [LIMIT] and
      [DELETE ... WHERE id IN (...)] written out as list operations;
    - [MockStorageProvider] holds a Python dict in memory; a second,
      reference-level model ([MockHeap]) keeps the Python objects in a heap
      so that sharing between the store and its callers is visible.

    Python dicts used as maps are [gmap string _]; lists are Rocq lists;
    [str] values are held as their UTF-8 bytes, which compare
    ([String.compare]) the way Python compares strings and SQLite's BINARY
    collation compares text; a [float] is a binary64 value
    ([SpecFloat.spec_float]), divided and rounded as IEEE 754 and Python
    do.

    Around the store, the development also embeds what the store reads
    ([Config.get] and the properties of [src/config_loader.py] built on it)
    and the step of [main] in [src/main.py] that writes to it. *)

From Stdlib Require Import ZArith String Ascii.
From Stdlib Require SpecFloat.
From stdpp Require Import gmap strings list sorting pretty.

Local Open Scope string_scope.
Local Open Scope list_scope.
Local Open Scope nat_scope.

(** ** Python helpers *)

Module Py.

(** [l[-n:]] for a non-negative [n]: the last [n] elements, and the whole
    list when [n = 0] (since [-0 = 0], Python reads [l[0:]]). *)
Definition last_n {A} (n : nat) (l : list A) : list A :=
  if decide (n = 0) then l else drop (length l - n) l.

(** [str.lower()], the text being held as UTF-8.  The ASCII letters are
    lowered.  Of the other characters, the two whose lower-case form holds
    an ASCII letter are mapped as Python maps them: U+212A KELVIN SIGN
    (bytes E2 84 AA) to "k", and U+0130, the capital I with a dot above
    (bytes C4 B0), to "i" followed by U+0307 (bytes CC 87).  Every other
    character is kept as it is, where Python gives its lower-case form, which
    holds no ASCII character either: the two texts have the same ASCII
    characters between the same numbers of other characters, so they are
    equal to the same ASCII literals and contain the same ones, which is all
    the code asks of a lowered string ([==] and [in]). *)
Definition lower_ascii (c : ascii) : ascii :=
  let n := nat_of_ascii c in
  if (65 <=? n)%nat && (n <=? 90)%nat then ascii_of_nat (n + 32) else c.

Fixpoint lower (s : string) : string :=
  match s with
  | EmptyString => EmptyString
  | String c1 s1 =>
    match s1 with
    | String c2 s2 =>
      if (nat_of_ascii c1 =? 196) && (nat_of_ascii c2 =? 176) then
        (* U+0130 *)
        String "i" (String (ascii_of_nat 204) (String (ascii_of_nat 135) (lower s2)))
      else
        match s2 with
        | String c3 s3 =>
          if (nat_of_ascii c1 =? 226) && (nat_of_ascii c2 =? 132) && (nat_of_ascii c3 =? 170)
          then (* U+212A *) String "k" (lower s3)
          else String (lower_ascii c1) (lower s1)
        | EmptyString => String (lower_ascii c1) (lower s1)
        end
    | EmptyString => String (lower_ascii c1) EmptyString
    end
  end.

(** [sub in s] *)
Definition contains (sub s : string) : bool :=
  match String.index 0 sub s with
  | Some _ => true
  | None => false
  end.

(** [max(l, key=key)] on a non-empty list [x :: l]: the first element whose
    key is maximal (the running best is replaced only by a strictly greater
    key). *)
Fixpoint max_by {A} (key : A → string) (best : A) (l : list A) : A :=
  match l with
  | [] => best
  | x :: l' => if String.ltb (key best) (key x) then max_by key x l' else max_by key best l'
  end.

(** [sep.join(lines)] *)
Definition join (sep : string) (lines : list string) : string :=
  String.concat sep lines.

(** ["-" * n] *)
Fixpoint repeat_str (s : string) (n : nat) : string :=
  match n with
  | O => ""
  | S n' => s +:+ repeat_str s n'
  end.

(** A [float]: a binary64 value, the results of the operations below being
    in canonical form (two of them are the same float exactly when they are
    equal). *)
Definition float : Type := SpecFloat.spec_float.

(** An [int] as the operand of a division: the number itself, with the
    exponent 0. *)
Definition of_int (n : Z) : float :=
  match n with
  | Z0 => SpecFloat.S754_zero false
  | Zpos p => SpecFloat.S754_finite false p 0
  | Zneg p => SpecFloat.S754_finite true p 0
  end.

(** [a / b] on two [int]s, [b] not zero: the float nearest to the quotient,
    ties going to the even mantissa.  (Python raises [OverflowError] where
    the quotient is beyond the floats, from 2 ^ 1024 on; the quotients taken
    here are counts of stored records.) *)
Definition true_divide (a b : Z) : float :=
  SpecFloat.SFdiv 53 1024 (of_int a) (of_int b).

(** The integer nearest to [k * 2 ^ e], ties going to the even one. *)
Definition nearest_int (k e : Z) : Z :=
  if (0 <=? e)%Z then (k * 2 ^ e)%Z
  else
    let d := (2 ^ (- e))%Z in
    let q := (k / d)%Z in
    match (2 * (k mod d) ?= d)%Z with
    | Lt => q
    | Gt => (q + 1)%Z
    | Eq => if Z.even q then q else (q + 1)%Z
    end.

(** [round(x, 1)] on a [float]: the decimal number with one digit after the
    point nearest to [x], ties going to the even digit, and then the float
    nearest to that decimal number. *)
Definition round1_float (x : float) : float :=
  match x with
  | SpecFloat.S754_finite s m e =>
    match nearest_int (Zpos m * 10) e with
    | Zpos tenths => SpecFloat.SFdiv 53 1024 (SpecFloat.S754_finite s tenths 0) (of_int 10)
    | _ => SpecFloat.S754_zero s
    end
  | _ => x
  end.

(** A number as a dict of statistics holds it: an [int] or a [float]. *)
Inductive number :=
| PyInt (n : Z)
| PyFloat (x : float).

(** [round(v, 1)]: an [int] comes back as it is. *)
Definition round1 (v : number) : number :=
  match v with
  | PyInt n => PyInt n
  | PyFloat x => PyFloat (round1_float x)
  end.

(** [total_emails / total_threads if total_threads > 0 else 0] *)
Definition average (total_emails total_threads : nat) : number :=
  if decide (0 < total_threads)
  then PyFloat (true_divide (Z.of_nat total_emails) (Z.of_nat total_threads))
  else PyInt 0.

End Py.

(** ** The clock

    The store reads the clock in three ways: [int(time.time())] for the name
    of a backup file, [datetime.now().isoformat()] for the timestamp of a
    record, and [(datetime.now() - timedelta(days=d)).isoformat()] for the
    cutoff of a cleanup.  The providers below take these readings as
    parameters; this module and the next compute them from a date and a time
    of day (the proleptic Gregorian calendar of [datetime], local time taken
    as UTC). *)

Module Clock.

Record datetime := DateTime {
  day_number : Z;      (* days since 1970-01-01 *)
  second_of_day : Z;
  microsecond : Z
}.

Definition civil_from_days (days : Z) : Z * Z * Z :=
  let z := (days + 719468)%Z in
  let era := (z / 146097)%Z in
  let doe := (z - era * 146097)%Z in
  let yoe := ((doe - doe / 1460 + doe / 36524 - doe / 146096) / 365)%Z in
  let doy := (doe - (365 * yoe + yoe / 4 - yoe / 100))%Z in
  let mp := ((5 * doy + 2) / 153)%Z in
  let d := (doy - (153 * mp + 2) / 5 + 1)%Z in
  let m := (if (mp <? 10)%Z then mp + 3 else mp - 9)%Z in
  let y := (yoe + era * 400 + (if (m <=? 2)%Z then 1 else 0))%Z in
  (y, m, d).

Definition days_from_civil (y m d : Z) : Z :=
  let y' := (if (m <=? 2)%Z then y - 1 else y)%Z in
  let era := (y' / 400)%Z in
  let yoe := (y' - era * 400)%Z in
  let doy := ((153 * (if (2 <? m)%Z then m - 3 else m + 9) + 2) / 5 + d - 1)%Z in
  let doe := (yoe * 365 + yoe / 4 - yoe / 100 + doy)%Z in
  (era * 146097 + doe - 719468)%Z.

Fixpoint zeros (n : nat) : string :=
  match n with
  | O => ""
  | S n' => "0" +:+ zeros n'
  end.

(** [f"{n:0{width}d}"] *)
Definition padded (width : nat) (n : Z) : string :=
  let digits := pretty n in
  zeros (width - String.length digits) +:+ digits.

(** [dt.isoformat()]: the fraction is left out when it is zero. *)
Definition isoformat (dt : datetime) : string :=
  let '(y, m, d) := civil_from_days (day_number dt) in
  let s := second_of_day dt in
  padded 4 y +:+ "-" +:+ padded 2 m +:+ "-" +:+ padded 2 d +:+ "T" +:+
  padded 2 (s / 3600) +:+ ":" +:+ padded 2 (s / 60 mod 60) +:+ ":" +:+ padded 2 (s mod 60) +:+
  (if (microsecond dt =? 0)%Z then "" else "." +:+ padded 6 (microsecond dt)).

(** [dt - timedelta(days=days)] *)
Definition minus_days (dt : datetime) (days : Z) : datetime :=
  DateTime (day_number dt - days) (second_of_day dt) (microsecond dt).

(** [int(time.time())] *)
Definition epoch_seconds (dt : datetime) : Z :=
  (day_number dt * 86400 + second_of_day dt)%Z.

End Clock.

(** ** [datetime] objects: range and order

    A [datetime] lies in the years 1 to 9999; arithmetic that leaves them
    raises [OverflowError].  Two of them compare field by field.
    [cleanup_old_threads] compares timestamps as strings; the moments they
    were taken from compare as [datetime] objects do. *)

Module Datetime.

(** The fields of a [datetime] object: year, month, day, hour, minute,
    second, microsecond. *)
Definition fields (dt : Clock.datetime) : list Z :=
  let '(y, m, d) := Clock.civil_from_days (Clock.day_number dt) in
  let s := Clock.second_of_day dt in
  [y; m; d; s / 3600; s / 60 mod 60; s mod 60; Clock.microsecond dt]%Z.

(** The years 1 to 9999 of [datetime], and the fields within their
    ranges. *)
Definition valid (dt : Clock.datetime) : bool :=
  let '(y, m, d) := Clock.civil_from_days (Clock.day_number dt) in
  ((1 <=? y) && (y <=? 9999) && (1 <=? m) && (m <=? 12) && (1 <=? d) && (d <=? 31)
   && (0 <=? Clock.second_of_day dt) && (Clock.second_of_day dt <? 86400)
   && (0 <=? Clock.microsecond dt) && (Clock.microsecond dt <? 1000000))%Z.

(** The comparison of two [datetime] objects: field by field. *)
Fixpoint compare_fields (a b : list Z) : comparison :=
  match a, b with
  | x :: a', y :: b' =>
    match (x ?= y)%Z with
    | Eq => compare_fields a' b'
    | c => c
    end
  | [], [] => Eq
  | [], _ :: _ => Lt
  | _ :: _, [] => Gt
  end.

Definition compare (a b : Clock.datetime) : comparison := compare_fields (fields a) (fields b).


(** [(now - timedelta(days=days_old)).isoformat()], [now] being what
    [datetime.now()] returned; [None] stands for the [OverflowError] raised
    when the difference is no [datetime], that is when it leaves the years
    1 to 9999.  ([timedelta(days=days_old)] itself raises the same exception
    beyond 999999999 days, which from any date of these years leads out of
    them: Lemma [timedelta_within_limit].) *)
Definition iso_days_ago (now : Clock.datetime) (days_old : Z) : option string :=
  let cutoff_date := Clock.minus_days now days_old in
  if valid cutoff_date then Some (Clock.isoformat cutoff_date) else None.

End Datetime.

(** ** Records

    One message of a thread is a Python dict.  The module-level
    [add_email_to_thread] always fills the six keys, but every reader goes
    through [dict.get(key, default)], so a key may be missing: each field is
    an [option], [None] standing for an absent key (for [uid], also for the
    value [None]). *)

Record email := Email {
  uid : option Z;
  sender : option string;
  subject : option string;
  body : option string;
  timestamp : option string;
  is_bot_reply : option bool
}.

(** [email.get('timestamp', '')] and friends. *)
Definition get_timestamp (e : email) : string := default "" (timestamp e).
Definition get_is_bot_reply (e : email) : bool := default false (is_bot_reply e).


(** The keys of [get_storage_stats] shared by the three providers, in the
    order of the dict.  The provider-identifying keys ([provider_type],
    paths, sizes, [operation_count]) are left out. *)
Record stats := Stats {
  total_threads : nat;
  total_emails : nat;
  threads_with_history : nat;
  avg_emails_per_thread : Py.number;
  threads_at_limit : nat;
  bot_replies : nat;
  user_emails : nat
}.

(** The comprehensions of [get_storage_stats] over [threads.values()]:
    the emails satisfying [p], summed over the threads, and the threads whose
    history satisfies [p]. *)
Definition count_emails (p : email → bool) (threads : gmap string (list email)) : nat :=
  sum_list ((λ kv, length (filter (λ e, p e = true) kv.2)) <$> map_to_list threads).

Definition count_threads (p : list email → bool) (threads : gmap string (list email)) : nat :=
  length (filter (λ kv, p kv.2 = true) (map_to_list threads)).

(** The statements [JSONStorageProvider.add_email_to_thread] and
    [MockStorageProvider.add_email_to_thread] both run on their dict: create
    the thread if it is not there, append, and keep the last
    [MAX_THREAD_HISTORY] emails if there are now more than that. *)
Definition append_and_trim (MAX_THREAD_HISTORY : nat) (thread_id : string)
    (email_data : email) (threads : gmap string (list email))
  : gmap string (list email) :=
  (* if thread_id not in threads: threads[thread_id] = [] *)
  let threads1 :=
    match threads !! thread_id with
    | None => <[thread_id := []]> threads
    | Some _ => threads
    end in
  (* threads[thread_id].append(email_data) *)
  let threads2 := <[thread_id := default [] (threads1 !! thread_id) ++ [email_data]]> threads1 in
  let new_count := length (default [] (threads2 !! thread_id)) in
  (* threads[thread_id] = threads[thread_id][-MAX_THREAD_HISTORY:] *)
  if decide (MAX_THREAD_HISTORY < new_count)
  then <[thread_id := Py.last_n MAX_THREAD_HISTORY (default [] (threads2 !! thread_id))]> threads2
  else threads2.

(** ** File system *)

(** What a file holds, seen through [json.load].  [Doc threads] stands for
    the text that [json.dump] writes for [threads]; two files hold the same
    bytes when they hold the same value of this type (the order of the keys
    of the dict, which the text has and a [gmap] has not, is not tracked). *)
Inductive file_content :=
| Doc (threads : gmap string (list email))
  (** the text [json.dump] writes for [threads] *)
| Malformed (raw : string)
  (** text on which [json.load] raises [JSONDecodeError] *)
| Unreadable (raw : string).
  (** content on which [load_threads] raises another exception: bytes that
      are not UTF-8 ([UnicodeDecodeError] while reading), or JSON text that
      is no object of lists (a list, a number, an object with a number as a
      value: [len()] or [.values()] raises) *)

Inductive io_event :=
| EvExists (path : string)
| EvGetsize (path : string)
| EvRead (path : string)
| EvOpenW (path : string)
| EvWrite (path : string)
| EvReplace (src dst : string)
| EvRename (src dst : string)
| EvRemove (path : string).

Record fs_state := FS {
  files : gmap string file_content;
  io_log : list io_event
}.

Module OS.

Definition log (ev : io_event) (fs : fs_state) : fs_state :=
  FS (files fs) (io_log fs ++ [ev]).

(** [open(path, 'w')]: creates the file or truncates it. *)
Definition open_w (path : string) (fs : fs_state) : fs_state :=
  FS (<[path := Malformed ""]> (files fs)) (io_log fs ++ [EvOpenW path]).

(** Writing and closing: the file now holds [c]. *)
Definition write (path : string) (c : file_content) (fs : fs_state) : fs_state :=
  FS (<[path := c]> (files fs)) (io_log fs ++ [EvWrite path]).

(** [os.replace(src, dst)] and [os.rename(src, dst)] on an existing [src]:
    [dst] takes the content of [src], which disappears under its old name. *)
Definition move (src dst : string) (fs : fs_state) : gmap string file_content :=
  match files fs !! src with
  | Some c => <[dst := c]> (delete src (files fs))
  | None => files fs
  end.

Definition replace (src dst : string) (fs : fs_state) : fs_state :=
  FS (move src dst fs) (io_log fs ++ [EvReplace src dst]).

Definition rename (src dst : string) (fs : fs_state) : fs_state :=
  FS (move src dst fs) (io_log fs ++ [EvRename src dst]).

(** [os.remove(path)] *)
Definition remove (path : string) (fs : fs_state) : fs_state :=
  FS (delete path (files fs)) (io_log fs ++ [EvRemove path]).

End OS.

(** ** [class JSONStorageProvider] *)

(** Where an exception is raised inside [save_threads]. *)
Inductive fault :=
| NoFault
| OpenFails
  (** [open(temp_file, 'w')] raises *)
| DumpFails (partial : file_content)
  (** [json.dump] (or closing the file) raises, leaving [partial] behind *)
| ReplaceFails
  (** [os.replace] raises *)
| GetsizeFails.
  (** [os.path.getsize], after the replace, raises *)

(** The faults that hit the write itself: everything up to and including
    the rename over the target. *)
Definition during_write (f : fault) : bool :=
  match f with
  | OpenFails | DumpFails _ | ReplaceFails => true
  | NoFault | GetsizeFails => false
  end.

Module JSONStorageProvider.

Section Provider.

(** [self.file_path], the module global [MAX_THREAD_HISTORY], and the two
    clock readings the class makes: [int(time.time())] and
    [(datetime.now() - timedelta(days=d)).isoformat()], which is [None] when
    the subtraction raises [OverflowError] ([Datetime.iso_days_ago]). *)
Variable file_path : string.
Variable MAX_THREAD_HISTORY : nat.
Variable now : Z.
Variable iso_days_ago : Z → option string.

Definition temp_file : string := file_path +:+ ".tmp".
Definition backup_name : string := file_path +:+ ".backup_" +:+ pretty now.

(** [load_threads]; [rename_fails] says whether the [os.rename] of the
    recovery branch raises (the code catches it and only logs). *)
Definition load_threads_with (rename_fails : bool) (fs : fs_state)
  : gmap string (list email) * fs_state :=
  let fs1 := OS.log (EvExists file_path) fs in
  match files fs !! file_path with
  | None => (∅, fs1)
  | Some c =>
    let fs2 := OS.log (EvRead file_path) (OS.log (EvGetsize file_path) fs1) in
    match c with
    | Doc threads => (threads, fs2)
    | Malformed _ =>
      (* except json.JSONDecodeError *)
      if rename_fails then (∅, OS.log (EvRename file_path backup_name) fs2)
      else (∅, OS.rename file_path backup_name fs2)
    | Unreadable _ =>
      (* except Exception *)
      (∅, fs2)
    end
  end.

Definition load_threads : fs_state → gmap string (list email) * fs_state :=
  load_threads_with false.

(** The [except Exception] block of [save_threads]; [cleanup_fails] says
    whether its [os.remove] raises (caught, logged as a warning). *)
Definition save_failed (cleanup_fails : bool) (fs : fs_state) : bool * fs_state :=
  let fs1 := OS.log (EvExists temp_file) fs in
  match files fs !! temp_file with
  | Some _ =>
    if cleanup_fails then (false, OS.log (EvRemove temp_file) fs1)
    else (false, OS.remove temp_file fs1)
  | None => (false, fs1)
  end.

(** [save_threads] with an exception raised at [f]. *)
Definition save_threads_with (f : fault) (cleanup_fails : bool)
    (threads : gmap string (list email)) (fs : fs_state) : bool * fs_state :=
  let opened := OS.open_w temp_file fs in
  let dumped := OS.write temp_file (Doc threads) opened in
  let replaced := OS.replace temp_file file_path dumped in
  let sized := OS.log (EvGetsize file_path) replaced in
  match f with
  | OpenFails => save_failed cleanup_fails (OS.log (EvOpenW temp_file) fs)
  | DumpFails partial => save_failed cleanup_fails (OS.write temp_file partial opened)
  | ReplaceFails => save_failed cleanup_fails (OS.log (EvReplace temp_file file_path) dumped)
  | GetsizeFails => save_failed cleanup_fails sized
  | NoFault => (true, sized)
  end.

Definition save_threads : gmap string (list email) → fs_state → bool * fs_state :=
  save_threads_with NoFault false.

Definition get_thread_history (thread_id : string) (fs : fs_state)
  : list email * fs_state :=
  if decide (thread_id = "") then ([], fs)
  else
    let '(threads, fs1) := load_threads fs in
    (default [] (threads !! thread_id), fs1).

Definition add_email_to_thread (thread_id : string) (email_data : email)
    (fs : fs_state) : bool * fs_state :=
  if decide (thread_id = "") then (false, fs)
  else
    let '(threads, fs1) := load_threads fs in
    let threads3 := append_and_trim MAX_THREAD_HISTORY thread_id email_data threads in
    save_threads threads3 fs1.

(** The test of the cleanup loop on one thread: empty, or its newest email
    (by timestamp) is before the cutoff. *)
Definition to_remove (cutoff_iso : string) (history : list email) : bool :=
  match history with
  | [] => true
  | e :: rest =>
    let newest_email := Py.max_by get_timestamp e rest in
    String.ltb (get_timestamp newest_email) cutoff_iso
  end.

Definition cleanup_old_threads (days_old : Z) (fs : fs_state) : nat * fs_state :=
  let '(threads, fs1) := load_threads fs in
  if decide (threads = ∅) then (0, fs1)
  else
    match iso_days_ago days_old with
    | None => (* except Exception: return 0 *) (0, fs1)
    | Some cutoff_iso =>
      let threads_to_remove :=
        (map_to_list (filter (λ kv, to_remove cutoff_iso kv.2 = true) threads)).*1 in
      let threads' := foldl (λ m thread_id, delete thread_id m) threads threads_to_remove in
      let removed_count := length threads_to_remove in
      if decide (0 < removed_count) then
        let '(save_success, fs2) := save_threads threads' fs1 in
        if save_success then (removed_count, fs2) else (0, fs2)
      else (removed_count, fs1)
    end.

Definition get_storage_stats (fs : fs_state) : stats * fs_state :=
  let '(threads, fs1) := load_threads fs in
  if decide (threads = ∅) then
    (Stats 0 0 0 (Py.PyInt 0) 0 0 0, OS.log (EvExists file_path) fs1)
  else
    let total_threads := size threads in
    let total_emails := count_emails (λ _, true) threads in
    let avg_emails_per_thread := Py.average total_emails total_threads in
    ({| total_threads := total_threads;
        total_emails := total_emails;
        threads_with_history := count_threads (λ t, bool_decide (1 < length t)) threads;
        avg_emails_per_thread := Py.round1 avg_emails_per_thread;
        threads_at_limit := count_threads (λ t, bool_decide (MAX_THREAD_HISTORY ≤ length t)%nat) threads;
        bot_replies := count_emails get_is_bot_reply threads;
        user_emails := count_emails (λ e, negb (get_is_bot_reply e)) threads |},
     OS.log (EvExists file_path) (OS.log (EvGetsize file_path) (OS.log (EvExists file_path) fs1))).

(** [add_email_to_thread] and [cleanup_old_threads] when the [save_threads]
    they call is hit by an exception at [f]: both look at what it returns. *)
Definition add_email_to_thread_with (f : fault) (cleanup_fails : bool)
    (thread_id : string) (email_data : email) (fs : fs_state) : bool * fs_state :=
  if decide (thread_id = "") then (false, fs)
  else
    let '(threads, fs1) := load_threads fs in
    let threads3 := append_and_trim MAX_THREAD_HISTORY thread_id email_data threads in
    let '(save_success, fs2) := save_threads_with f cleanup_fails threads3 fs1 in
    (* if not save_success: return False *)
    if save_success then (true, fs2) else (false, fs2).

Definition cleanup_old_threads_with (f : fault) (cleanup_fails : bool)
    (days_old : Z) (fs : fs_state) : nat * fs_state :=
  let '(threads, fs1) := load_threads fs in
  if decide (threads = ∅) then (0, fs1)
  else
    match iso_days_ago days_old with
    | None => (0, fs1)
    | Some cutoff_iso =>
      let threads_to_remove :=
        (map_to_list (filter (λ kv, to_remove cutoff_iso kv.2 = true) threads)).*1 in
      let threads' := foldl (λ m thread_id, delete thread_id m) threads threads_to_remove in
      let removed_count := length threads_to_remove in
      if decide (0 < removed_count) then
        let '(save_success, fs2) := save_threads_with f cleanup_fails threads' fs1 in
        if save_success then (removed_count, fs2) else (0, fs2)
      else (removed_count, fs1)
    end.

End Provider.

End JSONStorageProvider.

(** ** [class SQLiteStorageProvider] *)

(** A row of the table [threads]; the column [created_at] is never read. *)
Record row := Row {
  row_id : nat;
  row_thread_id : string;
  row_uid : option Z;
  row_sender : string;
  row_subject : string;
  row_body : string;
  row_timestamp : string;
  row_is_bot_reply : bool
}.

(** The database: the rows in rowid order, the last value handed out by
    [AUTOINCREMENT], and the number of connections opened so far. *)
Record db_state := DB {
  rows : list row;
  last_rowid : nat;
  connections : nat
}.

Module SQL.

(** [ORDER BY]: a stable insertion sort.  Rows that compare equal stay in
    rowid order: SQL leaves their order open, SQLite reads them either off
    the table, in rowid order, into a sorter that keeps the order of equal
    keys, or off the index on [timestamp], whose entries are ordered by
    (timestamp, rowid). *)
Fixpoint insert_by (le : row → row → bool) (r : row) (l : list row) : list row :=
  match l with
  | [] => [r]
  | r' :: l' => if le r r' then r :: r' :: l' else r' :: insert_by le r l'
  end.

Definition order_by (le : row → row → bool) (l : list row) : list row :=
  foldr (insert_by le) [] l.

Definition by_timestamp (r1 r2 : row) : bool :=
  String.leb (row_timestamp r1) (row_timestamp r2).

Definition by_thread_id_timestamp (r1 r2 : row) : bool :=
  String.ltb (row_thread_id r1) (row_thread_id r2)
  || (String.eqb (row_thread_id r1) (row_thread_id r2) && by_timestamp r1 r2).

(** [WHERE thread_id = ?] *)
Definition where_thread (thread_id : string) (l : list row) : list row :=
  filter (λ r, row_thread_id r = thread_id) l.

(** [SELECT DISTINCT thread_id] *)
Definition distinct_thread_ids (l : list row) : list string :=
  remove_dups (row_thread_id <$> l).

(** [MAX(timestamp)] over a group. *)
Definition max_timestamp (group : list row) : string :=
  match group with
  | [] => ""
  | r :: rest => row_timestamp (Py.max_by row_timestamp r rest)
  end.

(** The dict built from a result row. *)
Definition email_of_row (r : row) : email :=
  {| uid := row_uid r;
     sender := Some (row_sender r);
     subject := Some (row_subject r);
     body := Some (row_body r);
     timestamp := Some (row_timestamp r);
     is_bot_reply := Some (row_is_bot_reply r) |}.

(** The tuple bound to an [INSERT], with the defaults of [email.get]. *)
Definition row_of_email (id : nat) (thread_id : string) (e : email) : row :=
  {| row_id := id;
     row_thread_id := thread_id;
     row_uid := uid e;
     row_sender := default "" (sender e);
     row_subject := default "" (subject e);
     row_body := default "" (body e);
     row_timestamp := default "" (timestamp e);
     row_is_bot_reply := default false (is_bot_reply e) |}.

(** A dict as the table gives it back once inserted: the keys it lacked
    come back with the defaults of the [INSERT]. *)
Definition stored_as (e : email) : email := email_of_row (row_of_email 0 "" e).

(** [sqlite3.connect(self.db_path)] *)
Definition connect (db : db_state) : db_state :=
  DB (rows db) (last_rowid db) (S (connections db)).

(** What [sqlite3] can bind to the [INSERT]: the column [uid] holds a signed
    integer of 64 bits, and an [int] outside them makes [execute] raise
    [OverflowError] before the statement runs. *)
Definition bindable (e : email) : bool :=
  match uid e with
  | Some n => ((- 2 ^ 63 <=? n) && (n <? 2 ^ 63))%Z
  | None => true
  end.

(** The row an [INSERT INTO threads (...) VALUES (...)] adds. *)
Definition insert (thread_id : string) (e : email) (db : db_state) : db_state :=
  DB (rows db ++ [row_of_email (S (last_rowid db)) thread_id e]) (S (last_rowid db)) (connections db).

(** [conn.execute('INSERT ...', (...))]: [None] stands for the
    [OverflowError]. *)
Definition execute_insert (thread_id : string) (e : email) (db : db_state) : option db_state :=
  if bindable e then Some (insert thread_id e db) else None.

End SQL.

Module SQLiteStorageProvider.

Section Provider.

Variable MAX_THREAD_HISTORY : nat.
Variable iso_days_ago : Z → option string.

(** The body of the loop of [load_threads] over the cursor. *)
Definition group_row (threads : gmap string (list email)) (r : row)
  : gmap string (list email) :=
  (* if thread_id not in threads: threads[thread_id] = [] *)
  let threads1 :=
    match threads !! row_thread_id r with
    | None => <[row_thread_id r := []]> threads
    | Some _ => threads
    end in
  (* threads[thread_id].append(email_data) *)
  <[row_thread_id r := default [] (threads1 !! row_thread_id r) ++ [SQL.email_of_row r]]> threads1.

(** [ORDER BY thread_id, timestamp], then grouped row by row. *)
Definition load_threads (db : db_state) : gmap string (list email) * db_state :=
  let cursor := SQL.order_by SQL.by_thread_id_timestamp (rows db) in
  (foldl group_row ∅ cursor, SQL.connect db).

(** [DELETE FROM threads], then one [INSERT] per email, thread by thread,
    all in one transaction: when an [INSERT] raises, leaving the [with]
    block rolls back what was done, the [DELETE] included, and the handler
    returns [False]. *)
Definition save_threads (threads : gmap string (list email)) (db : db_state)
  : bool * db_state :=
  let db1 := DB [] (last_rowid db) (S (connections db)) in
  match
    foldl (λ d kv, foldl (λ d' e, d' ≫= SQL.execute_insert kv.1 e) d kv.2)
          (Some db1) (map_to_list threads)
  with
  | Some db2 => (* conn.commit() *) (true, db2)
  | None => (* except Exception: return False *) (false, SQL.connect db)
  end.

Definition get_thread_history (thread_id : string) (db : db_state)
  : list email * db_state :=
  if decide (thread_id = "") then ([], db)
  else
    (SQL.email_of_row <$>
       take MAX_THREAD_HISTORY (SQL.order_by SQL.by_timestamp (SQL.where_thread thread_id (rows db))),
     SQL.connect db).

(** The bounded delete of [add_email_to_thread]. *)
Definition delete_oldest (thread_id : string) (emails_to_remove : nat) (l : list row) : list row :=
  let ids := row_id <$> take emails_to_remove (SQL.order_by SQL.by_timestamp (SQL.where_thread thread_id l)) in
  filter (λ r, ¬ (row_thread_id r = thread_id ∧ row_id r ∈ ids)) l.

Definition add_email_to_thread (thread_id : string) (email_data : email)
    (db : db_state) : bool * db_state :=
  if decide (thread_id = "") then (false, db)
  else
    match SQL.execute_insert thread_id email_data (SQL.connect db) with
    | None =>
      (* nothing was written; except Exception: return False *)
      (false, SQL.connect db)
    | Some db1 =>
      let count := length (SQL.where_thread thread_id (rows db1)) in
      if decide (MAX_THREAD_HISTORY < count) then
        let emails_to_remove := count - MAX_THREAD_HISTORY in
        (true, DB (delete_oldest thread_id emails_to_remove (rows db1)) (last_rowid db1) (connections db1))
      else (true, db1)
    end.

(** [HAVING MAX(timestamp) < ?] for the group of [thread_id]. *)
Definition stale (cutoff_iso : string) (l : list row) (thread_id : string) : bool :=
  String.ltb (SQL.max_timestamp (SQL.where_thread thread_id l)) cutoff_iso.

Definition cleanup_old_threads (days_old : Z) (db : db_state) : nat * db_state :=
  match iso_days_ago days_old with
  | None => (* raised before the connection; except Exception: return 0 *) (0, db)
  | Some cutoff_iso =>
    let db1 := SQL.connect db in
    let threads_to_remove :=
      SQL.distinct_thread_ids (filter (λ r, stale cutoff_iso (rows db) (row_thread_id r) = true) (rows db)) in
    match threads_to_remove with
    | [] => (0, db1)
    | _ =>
      (length threads_to_remove,
       DB (filter (λ r, row_thread_id r ∉ threads_to_remove) (rows db1)) (last_rowid db1) (connections db1))
    end
  end.

Definition count_groups (p : list row → bool) (l : list row) : nat :=
  length (filter (λ thread_id, p (SQL.where_thread thread_id l) = true) (SQL.distinct_thread_ids l)).

Definition get_storage_stats (db : db_state) : stats * db_state :=
  let total_threads := length (SQL.distinct_thread_ids (rows db)) in
  let total_emails := length (rows db) in
  let bot_replies := length (filter (λ r, row_is_bot_reply r = true) (rows db)) in
  let avg_emails_per_thread := Py.average total_emails total_threads in
  ({| total_threads := total_threads;
      total_emails := total_emails;
      threads_with_history := count_groups (λ g, bool_decide (1 < length g)) (rows db);
      avg_emails_per_thread := Py.round1 avg_emails_per_thread;
      threads_at_limit := count_groups (λ g, bool_decide (MAX_THREAD_HISTORY ≤ length g)%nat) (rows db);
      bot_replies := bot_replies;
      user_emails := total_emails - bot_replies |},
   SQL.connect db).

End Provider.

End SQLiteStorageProvider.

(** ** [class MockStorageProvider] *)

Record mock_state := Mock {
  threads : gmap string (list email);
  operation_count : nat
}.

Module MockStorageProvider.

Section Provider.

Variable MAX_THREAD_HISTORY : nat.

Definition tick (st : mock_state) : mock_state :=
  Mock (threads st) (S (operation_count st)).

Definition load_threads (st : mock_state) : gmap string (list email) * mock_state :=
  (threads st, tick st).

Definition save_threads (new_threads : gmap string (list email)) (st : mock_state)
  : bool * mock_state :=
  (true, Mock new_threads (S (operation_count st))).

Definition get_thread_history (thread_id : string) (st : mock_state)
  : list email * mock_state :=
  (default [] (threads st !! thread_id), tick st).

Definition add_email_to_thread (thread_id : string) (email_data : email)
    (st : mock_state) : bool * mock_state :=
  (* the dict appended is [email_data.copy()] *)
  let threads3 := append_and_trim MAX_THREAD_HISTORY thread_id email_data (threads st) in
  (true, Mock threads3 (S (operation_count st))).

(** "Mock cleanup - removes threads with 'old' in the name": [days_old] is
    not looked at. *)
Definition cleanup_old_threads (days_old : Z) (st : mock_state) : nat * mock_state :=
  let old_threads :=
    (map_to_list (filter (λ kv, Py.contains "old" (Py.lower kv.1) = true) (threads st))).*1 in
  (length old_threads,
   Mock (foldl (λ m tid, delete tid m) (threads st) old_threads) (S (operation_count st))).

Definition get_storage_stats (st : mock_state) : stats * mock_state :=
  let total_threads := size (threads st) in
  let total_emails := count_emails (λ _, true) (threads st) in
  ({| total_threads := total_threads;
      total_emails := total_emails;
      threads_with_history :=
        count_threads (λ t, bool_decide (1 < length t)) (threads st);
      (* not rounded *)
      avg_emails_per_thread := Py.average total_emails total_threads;
      threads_at_limit :=
        count_threads (λ t, bool_decide (MAX_THREAD_HISTORY ≤ length t)%nat) (threads st);
      bot_replies := count_emails get_is_bot_reply (threads st);
      user_emails := count_emails (λ e, negb (get_is_bot_reply e)) (threads st) |},
   st).

End Provider.

End MockStorageProvider.

(** ** The configuration ([src/config_loader.py])

    What [yaml.safe_load] returns: mappings, sequences and scalars (those
    of the tags for dates, binary data and sets are left out).  A mapping is
    kept by its string keys (a key path is made of strings, and a string
    equals no key of another type); a finite float is
    [mantissa * 2 ^ exponent]. *)

#[warnings="-register-all"]
Inductive yaml :=
| YMap (entries : gmap string yaml)
| YSeq (items : list yaml)
| YStr (s : string)
| YInt (n : Z)
| YFloat (mantissa exponent : Z)
| YBool (b : bool)
| YNull.

Module Config.

(** [s.split(sep)] for a separator of one character. *)
Fixpoint split (sep : ascii) (s : string) : list string :=
  match s with
  | EmptyString => [""]
  | String c s' =>
    if Ascii.eqb c sep then "" :: split sep s'
    else
      match split sep s' with
      | piece :: pieces => String c piece :: pieces
      | [] => [String c ""]
      end
  end.

(** [value[key]]: [None] stands for the [KeyError] of a mapping without the
    key and for the [TypeError] of a value that is no mapping. *)
Definition subscript (value : yaml) (key : string) : option yaml :=
  match value with
  | YMap entries => entries !! key
  | _ => None
  end.

(** The loop of [get] under its [try]. *)
Definition find (config_data : yaml) (key_path : string) : option yaml :=
  let keys := split "."%char key_path in
  foldl (λ value key, value ≫= (λ v, subscript v key)) (Some config_data) keys.

Definition get (config_data : yaml) (key_path : string) (default : yaml) : yaml :=
  match find config_data key_path with
  | Some value => value
  | None => (* except (KeyError, TypeError) *) default
  end.

(** The truth value of a loaded document. *)
Definition truthy (value : yaml) : bool :=
  match value with
  | YMap entries => negb (bool_decide (entries = ∅))
  | YSeq items => negb (bool_decide (items = []))
  | YStr s => negb (bool_decide (s = ""))
  | YInt n => negb (n =? 0)%Z
  | YFloat mantissa _ => negb (mantissa =? 0)%Z
  | YBool b => b
  | YNull => false
  end.

(** What [_load_config] finds at [config_path], and the exceptions it
    raises. *)
Inductive config_file :=
| NoConfigFile
  (** [os.path.exists] is false *)
| InvalidYaml
  (** [yaml.safe_load] raises [YAMLError] *)
| CannotRead
  (** opening or reading raises another exception *)
| ConfigYaml (loaded : yaml).
  (** [yaml.safe_load] returns [loaded] *)

Inductive config_error := ValueError | RuntimeError.

(** [_load_config]: the value of [self._config_data], or the exception. *)
Definition _load_config (file : config_file) : config_error + yaml :=
  match file with
  | NoConfigFile => inl RuntimeError
  | InvalidYaml => inl ValueError
  | CannotRead => inl RuntimeError
  | ConfigYaml loaded =>
    (* yaml.safe_load(f) or {} *)
    inr (if truthy loaded then loaded else YMap ∅)
  end.

(** The properties the thread manager reads. *)
Definition max_thread_history (config_data : yaml) : yaml :=
  get config_data "threading.max_history" (YInt 5).

Definition threads_file (config_data : yaml) : yaml :=
  get config_data "threading.storage_file" (YStr "email_threads.json").

(** [Config.get_env]: [os.getenv(key, default)], and [ValueError] ([None]
    here) when that is [None]. *)
Definition get_env (environ : gmap string string) (key : string) (default : option string)
  : option string :=
  match environ !! key with
  | Some value => Some value
  | None => default
  end.

(** The property [Config.email_address]. *)
Definition email_address (environ : gmap string string) : option string :=
  get_env environ "EMAIL_ADDRESS" None.

End Config.

(** ** Module level: provider selection and the public functions *)

Inductive provider_class :=
| JSONStorageProviderClass
| SQLiteStorageProviderClass
| MockStorageProviderClass.

(** The exception [get_storage_provider] lets through: the value found
    under [storage.provider] has no method [lower]. *)
Inductive factory_error := AttributeError.

(** [get_storage_provider], [config_data] being the loaded configuration:
    the class of the provider it returns, or the exception it raises (which
    the module then logs and raises again). *)
Definition get_storage_provider (config_data : yaml) : factory_error + provider_class :=
  match Config.get config_data "storage.provider" (YStr "json") with
  | YStr configured =>
    let provider_type := Py.lower configured in
    if decide (provider_type = "json") then inr JSONStorageProviderClass
    else if decide (provider_type = "sqlite") then inr SQLiteStorageProviderClass
    else if decide (provider_type = "mock") then inr MockStorageProviderClass
    else
      (* "Unknown storage provider type", "Falling back to JSON storage provider" *)
      inr JSONStorageProviderClass
  | YMap _ | YSeq _ | YInt _ | YFloat _ _ | YBool _ | YNull =>
    (* a dict, a list, an int, a float, a bool, None: no attribute 'lower' *)
    inl AttributeError
  end.

(** The module global [storage_provider] together with what it stores. *)
Inductive storage :=
| JSONStorage (file_path : string) (fs : fs_state)
| SQLiteStorage (db : db_state)
| MockStorage (st : mock_state).

Definition provider_of (s : storage) : provider_class :=
  match s with
  | JSONStorage _ _ => JSONStorageProviderClass
  | SQLiteStorage _ => SQLiteStorageProviderClass
  | MockStorage _ => MockStorageProviderClass
  end.

Definition nl : string := String (ascii_of_nat 10) "".

Module ThreadManager.

Section API.

Variable MAX_THREAD_HISTORY : nat.
Variable now : Z.
Variable iso_days_ago : Z → option string.

Definition load_threads (s : storage) : gmap string (list email) * storage :=
  match s with
  | JSONStorage p fs =>
    let '(r, fs') := JSONStorageProvider.load_threads p now fs in (r, JSONStorage p fs')
  | SQLiteStorage db =>
    let '(r, db') := SQLiteStorageProvider.load_threads db in (r, SQLiteStorage db')
  | MockStorage st =>
    let '(r, st') := MockStorageProvider.load_threads st in (r, MockStorage st')
  end.

Definition save_threads (new_threads : gmap string (list email)) (s : storage)
  : bool * storage :=
  match s with
  | JSONStorage p fs =>
    let '(r, fs') := JSONStorageProvider.save_threads p new_threads fs in (r, JSONStorage p fs')
  | SQLiteStorage db =>
    let '(r, db') := SQLiteStorageProvider.save_threads new_threads db in (r, SQLiteStorage db')
  | MockStorage st =>
    let '(r, st') := MockStorageProvider.save_threads new_threads st in (r, MockStorage st')
  end.

Definition get_thread_history (thread_id : string) (s : storage)
  : list email * storage :=
  match s with
  | JSONStorage p fs =>
    let '(r, fs') := JSONStorageProvider.get_thread_history p now thread_id fs in
    (r, JSONStorage p fs')
  | SQLiteStorage db =>
    let '(r, db') := SQLiteStorageProvider.get_thread_history MAX_THREAD_HISTORY thread_id db in
    (r, SQLiteStorage db')
  | MockStorage st =>
    let '(r, st') := MockStorageProvider.get_thread_history thread_id st in
    (r, MockStorage st')
  end.

(** The dict literal of [add_email_to_thread]; [now_iso] is
    [datetime.now().isoformat()] read during the call. *)
Definition email_data (now_iso sender subject body : string) (uid : option Z)
    (is_bot_reply : bool) : email :=
  {| uid := uid;
     sender := Some sender;
     subject := Some subject;
     body := Some body;
     timestamp := Some now_iso;
     is_bot_reply := Some is_bot_reply |}.

Definition add_email_to_thread (now_iso : string) (thread_id sender subject body : string)
    (uid : option Z) (is_bot_reply : bool) (s : storage) : bool * storage :=
  let email_data := email_data now_iso sender subject body uid is_bot_reply in
  match s with
  | JSONStorage p fs =>
    let '(r, fs') :=
      JSONStorageProvider.add_email_to_thread p MAX_THREAD_HISTORY now thread_id email_data fs in
    (r, JSONStorage p fs')
  | SQLiteStorage db =>
    let '(r, db') := SQLiteStorageProvider.add_email_to_thread MAX_THREAD_HISTORY thread_id email_data db in
    (r, SQLiteStorage db')
  | MockStorage st =>
    let '(r, st') := MockStorageProvider.add_email_to_thread MAX_THREAD_HISTORY thread_id email_data st in
    (r, MockStorage st')
  end.

Definition get_thread_stats (s : storage) : stats * storage :=
  match s with
  | JSONStorage p fs =>
    let '(r, fs') := JSONStorageProvider.get_storage_stats p MAX_THREAD_HISTORY now fs in
    (r, JSONStorage p fs')
  | SQLiteStorage db =>
    let '(r, db') := SQLiteStorageProvider.get_storage_stats MAX_THREAD_HISTORY db in
    (r, SQLiteStorage db')
  | MockStorage st =>
    let '(r, st') := MockStorageProvider.get_storage_stats MAX_THREAD_HISTORY st in
    (r, MockStorage st')
  end.

Definition cleanup_old_threads (days_old : Z) (s : storage) : nat * storage :=
  match s with
  | JSONStorage p fs =>
    let '(r, fs') := JSONStorageProvider.cleanup_old_threads p now iso_days_ago days_old fs in
    (r, JSONStorage p fs')
  | SQLiteStorage db =>
    let '(r, db') := SQLiteStorageProvider.cleanup_old_threads iso_days_ago days_old db in
    (r, SQLiteStorage db')
  | MockStorage st =>
    let '(r, st') := MockStorageProvider.cleanup_old_threads days_old st in
    (r, MockStorage st')
  end.

End API.

(** The four lines [format_thread_context] appends for one email. *)
Definition sender_label (e : email) : string :=
  if get_is_bot_reply e then "Bot" else default "Unknown" (sender e).

Definition email_lines (e : email) : list string :=
  [ nl +:+ "From: " +:+ sender_label e;
    "Subject: " +:+ default "No subject" (subject e);
    "Message: " +:+ default "No content" (body e);
    Py.repeat_str "-" 40 ].

Definition context_lines (thread_history : list email) : list string :=
  foldl (λ lines e, lines ++ email_lines e) ["Here is the conversation history:"] thread_history
  ++ [nl +:+ "Now please reply to the latest email below:"].

Definition format_thread_context (thread_history : list email) : string :=
  match thread_history with
  | [] => ""
  | _ => Py.join nl (context_lines thread_history)
  end.

End ThreadManager.

(** ** [MockStorageProvider] at the level of Python objects

    [MockStorageProvider] above treats the dict of threads as a value, which
    is exact as long as only the methods of the class touch it.  What a
    caller can do to the objects it is handed needs the objects themselves:
    here every list and every record dict lives in a heap and is named by a
    reference, [self.threads] maps a thread id to the reference of its list,
    and [copy()] makes a new object with the same references inside. *)

Module MockHeap.

Record state := State {
  list_objects : gmap nat (list nat);
  dict_objects : gmap nat email;
  next_ref : nat;
  self_threads : gmap string nat;
  self_operation_count : nat
}.

Definition init : state := State ∅ ∅ 0 ∅ 0.

Definition tick (st : state) : state :=
  State (list_objects st) (dict_objects st) (next_ref st) (self_threads st)
        (S (self_operation_count st)).

(** A new list object holding [elems]. *)
Definition new_list (elems : list nat) (st : state) : nat * state :=
  (next_ref st,
   State (<[next_ref st := elems]> (list_objects st)) (dict_objects st) (S (next_ref st))
         (self_threads st) (self_operation_count st)).

(** A new dict object holding [e]. *)
Definition new_dict (e : email) (st : state) : nat * state :=
  (next_ref st,
   State (list_objects st) (<[next_ref st := e]> (dict_objects st)) (S (next_ref st))
         (self_threads st) (self_operation_count st)).

(** [self.threads[thread_id] = l] *)
Definition bind_thread (thread_id : string) (l : nat) (st : state) : state :=
  State (list_objects st) (dict_objects st) (next_ref st) (<[thread_id := l]> (self_threads st))
        (self_operation_count st).

(** [l.append(d)] on the list object [l]; also what a caller does to a list
    it holds. *)
Definition list_append (l d : nat) (st : state) : state :=
  State (alter (λ elems, elems ++ [d]) l (list_objects st)) (dict_objects st) (next_ref st)
        (self_threads st) (self_operation_count st).

(** [d[key] = value] on the dict object [d], [f] being the change of
    content. *)
Definition dict_update (d : nat) (f : email → email) (st : state) : state :=
  State (list_objects st) (alter f d (dict_objects st)) (next_ref st)
        (self_threads st) (self_operation_count st).

(** The records a list object holds, read through its references. *)
Definition read_list (l : nat) (st : state) : list email :=
  omap (λ d, dict_objects st !! d) (default [] (list_objects st !! l)).

(** What the store holds for a thread. *)
Definition stored_history (thread_id : string) (st : state) : list email :=
  match self_threads st !! thread_id with
  | Some l => read_list l st
  | None => []
  end.

Section Provider.

Variable MAX_THREAD_HISTORY : nat.

(** [return self.threads.copy()]: a new dict whose values are the very list
    objects of the store. *)
Definition load_threads (st : state) : gmap string nat * state :=
  (self_threads st, tick st).

(** [self.threads = threads.copy()] *)
Definition save_threads (new_threads : gmap string nat) (st : state) : bool * state :=
  (true,
   State (list_objects st) (dict_objects st) (next_ref st) new_threads
         (S (self_operation_count st))).

(** [return self.threads.get(thread_id, []).copy()]: a new list holding the
    very dict objects of the store. *)
Definition get_thread_history (thread_id : string) (st : state) : nat * state :=
  let elems :=
    match self_threads st !! thread_id with
    | Some l => default [] (list_objects st !! l)
    | None => []
    end in
  new_list elems (tick st).

Definition add_email_to_thread (thread_id : string) (email_data : email) (st : state)
  : bool * state :=
  let st0 := tick st in
  let '(l, st1) :=
    match self_threads st0 !! thread_id with
    | Some l => (l, st0)
    | None => let '(l, st') := new_list [] st0 in (l, bind_thread thread_id l st')
    end in
  (* self.threads[thread_id].append(email_data.copy()) *)
  let '(d, st2) := new_dict email_data st1 in
  let st3 := list_append l d st2 in
  let elems := default [] (list_objects st3 !! l) in
  if decide (MAX_THREAD_HISTORY < length elems) then
    (* the slice is a new list object *)
    let '(l', st4) := new_list (Py.last_n MAX_THREAD_HISTORY elems) st3 in
    (true, bind_thread thread_id l' st4)
  else (true, st3).

End Provider.

End MockHeap.

(** ** Observations and runs *)

(** What the JSON file holds, as [load_threads] reads it. *)
Definition file_threads (file_path : string) (fs : fs_state) : gmap string (list email) :=
  match files fs !! file_path with
  | Some (Doc threads) => threads
  | _ => ∅
  end.

(** The records of a thread of the table, in rowid order. *)
Definition thread_emails (thread_id : string) (l : list row) : list email :=
  SQL.email_of_row <$> SQL.where_thread thread_id l.

(** [e1] is not newer than [e2], by timestamp; the same on rows. *)
Definition ts_le (e1 e2 : email) : Prop :=
  String.leb (get_timestamp e1) (get_timestamp e2) = true.

Definition row_ts_le (r1 r2 : row) : Prop := SQL.by_timestamp r1 r2 = true.

(** The ids of the table are distinct and none is above the last one
    handed out. *)
Definition db_ok (db : db_state) : Prop :=
  NoDup (row_id <$> rows db) ∧ Forall (λ r, row_id r ≤ last_rowid db) (rows db).

(** The tests of the two cleanups, [cutoff] being what the clock gave:
    when there is no cutoff, the cleanup has stopped before it tested
    anything. *)
Definition to_remove_at (cutoff : option string) (history : list email) : bool :=
  match cutoff with
  | Some cutoff_iso => JSONStorageProvider.to_remove cutoff_iso history
  | None => false
  end.

Definition stale_at (cutoff : option string) (l : list row) (thread_id : string) : bool :=
  match cutoff with
  | Some cutoff_iso => SQLiteStorageProvider.stale cutoff_iso l thread_id
  | None => false
  end.



(** The dict [m] and the rows [l] hold the same threads: thread by thread
    the same records in the same order, and the dict has no empty thread
    (the table cannot have one). *)
Definition same_threads (m : gmap string (list email)) (l : list row) : Prop :=
  (∀ t, default [] (m !! t) = thread_emails t l) ∧ (∀ t h, m !! t = Some h → h ≠ []).


(** A sequence of calls of a provider's [add_email_to_thread], each given
    as the thread id and the record. *)
Module Appends.



Definition json (file_path : string) (MAX_THREAD_HISTORY : nat) (now : Z)
    (ops : list (string * email)) (fs : fs_state) : fs_state :=
  foldl (λ fs' op,
           (JSONStorageProvider.add_email_to_thread file_path MAX_THREAD_HISTORY now op.1 op.2 fs').2)
        fs ops.

Definition sqlite (MAX_THREAD_HISTORY : nat) (ops : list (string * email)) (db : db_state)
  : db_state :=
  foldl (λ db' op, (SQLiteStorageProvider.add_email_to_thread MAX_THREAD_HISTORY op.1 op.2 db').2)
        db ops.

Definition mock (MAX_THREAD_HISTORY : nat) (ops : list (string * email)) (st : mock_state)
  : mock_state :=
  foldl (λ st' op, (MockStorageProvider.add_email_to_thread MAX_THREAD_HISTORY op.1 op.2 st').2)
        st ops.

End Appends.

(** A sequence of calls of the module-level functions, and what each call
    returns. *)
Inductive call :=
| CallAdd (now_iso thread_id sender subject body : string) (uid : option Z) (is_bot_reply : bool)
| CallHistory (thread_id : string)
| CallStats
| CallCleanup (days_old : Z)
| CallLoad.

Inductive answer :=
| Saved (ok : bool)
| History (emails : list email)
| Statistics (counters : stats)
| Removed (count : nat)
| Loaded (all_threads : gmap string (list email)).

Module Calls.

Section Run.

Variable MAX_THREAD_HISTORY : nat.
Variable now : Z.
Variable iso_days_ago : Z → option string.

Definition perform (c : call) (s : storage) : answer * storage :=
  match c with
  | CallAdd now_iso thread_id sender subject body uid is_bot_reply =>
    let '(ok, s') :=
      ThreadManager.add_email_to_thread MAX_THREAD_HISTORY now now_iso thread_id
        sender subject body uid is_bot_reply s in
    (Saved ok, s')
  | CallHistory thread_id =>
    let '(h, s') := ThreadManager.get_thread_history MAX_THREAD_HISTORY now thread_id s in
    (History h, s')
  | CallStats =>
    let '(st, s') := ThreadManager.get_thread_stats MAX_THREAD_HISTORY now s in
    (Statistics st, s')
  | CallCleanup days_old =>
    let '(n, s') := ThreadManager.cleanup_old_threads now iso_days_ago days_old s in
    (Removed n, s')
  | CallLoad =>
    let '(m, s') := ThreadManager.load_threads now s in
    (Loaded m, s')
  end.

Fixpoint run (cs : list call) (s : storage) : list answer :=
  match cs with
  | [] => []
  | c :: cs' => let '(a, s') := perform c s in a :: run cs' s'
  end.

End Run.




(** The record an append hands to the provider can be bound to an
    [INSERT]. *)
Definition bindable (c : call) : bool :=
  match c with
  | CallAdd now_iso _ sender subject body uid is_bot_reply =>
    SQL.bindable (ThreadManager.email_data now_iso sender subject body uid is_bot_reply)
  | _ => true
  end.

(** An answer with the average of its statistics rounded to one decimal. *)
Definition rounded (a : answer) : answer :=
  match a with
  | Statistics counters =>
    Statistics
      {| total_threads := total_threads counters;
         total_emails := total_emails counters;
         threads_with_history := threads_with_history counters;
         avg_emails_per_thread := Py.round1 (avg_emails_per_thread counters);
         threads_at_limit := threads_at_limit counters;
         bot_replies := bot_replies counters;
         user_emails := user_emails counters |}
  | _ => a
  end.

End Calls.

(** ** Sample data

    The messages of the module's own self-test, with the timestamps of four
    successive calls, and the clock of the cleanup scenario, which stands at
    noon on the first of March 2024. *)

Module Sample.

Definition now : Clock.datetime :=
  Clock.DateTime (Clock.days_from_civil 2024 3 1) 43200 0.

Definition A : email :=
  Email (Some 101%Z) (Some "customer@test.com") (Some "Product Question")
        (Some "What are your specs?") (Some "2024-03-01T12:00:00") (Some false).

Definition B : email :=
  Email None (Some "bot@company.com") (Some "Re: Product Question")
        (Some "Here are our specifications...") (Some "2024-03-01T12:00:05") (Some true).

Definition C : email :=
  Email (Some 102%Z) (Some "customer@test.com") (Some "Re: Product Question")
        (Some "Thanks! What about pricing?") (Some "2024-03-01T12:07:30") (Some false).

Definition D : email :=
  Email None (Some "bot@company.com") (Some "Re: Product Question")
        (Some "Our price list is attached.") (Some "2024-03-01T12:07:41") (Some true).


(** A message written forty days before "now" and one written the day
    before. *)
Definition forty_days_old : email :=
  Email (Some 7%Z) (Some "a@example.com") (Some "Hello") (Some "Long ago")
        (Some "2024-01-21T12:00:00") (Some false).

Definition one_day_old : email :=
  Email (Some 8%Z) (Some "b@example.com") (Some "Hi") (Some "Yesterday")
        (Some "2024-02-29T12:00:00") (Some false).

(** [A] with a uid that is no signed 64-bit integer. *)
Definition large_uid : email :=
  Email (Some (2 ^ 63)%Z) (Some "customer@test.com") (Some "Product Question")
        (Some "What are your specs?") (Some "2024-03-01T12:00:00") (Some false).

Definition iso_days_ago : Z → option string := Datetime.iso_days_ago now.

(** U+212A KELVIN SIGN, and two bytes that are no UTF-8 text. *)
Definition kelvin_sign : string :=
  String (ascii_of_nat 226) (String (ascii_of_nat 132) (String (ascii_of_nat 170) "")).


Definition empty_fs : fs_state := FS ∅ [].
Definition empty_db : db_state := DB [] 0 0.
Definition empty_mock : mock_state := Mock ∅ 0.

End Sample.

(** ** Dicts the table can take *)

(** Every record of the dict can be bound to an [INSERT]. *)
Definition bindable_threads (m : gmap string (list email)) : Prop :=
  ∀ t h, m !! t = Some h → Forall (λ e, SQL.bindable e = true) h.

(** ** The stores within the cap *)

(** Every thread of the dict holds at least one record and at most
    [MAX_THREAD_HISTORY]. *)
Definition within_cap (MAX_THREAD_HISTORY : nat) (m : gmap string (list email)) : Prop :=
  ∀ t h, m !! t = Some h → 1 ≤ length h ∧ length h ≤ MAX_THREAD_HISTORY.

(** The same for what a provider stores; the groups of the table have at
    least one row by themselves. *)
Definition capped (MAX_THREAD_HISTORY : nat) (s : storage) : Prop :=
  match s with
  | JSONStorage file_path fs => within_cap MAX_THREAD_HISTORY (file_threads file_path fs)
  | SQLiteStorage db =>
    db_ok db ∧ ∀ t, length (SQL.where_thread t (rows db)) ≤ MAX_THREAD_HISTORY
  | MockStorage st => within_cap MAX_THREAD_HISTORY (threads st)
  end.

(** What the cap means for one answer of the module-level functions. *)
Definition respects_cap (MAX_THREAD_HISTORY : nat) (a : answer) : Prop :=
  match a with
  | History emails => length emails ≤ MAX_THREAD_HISTORY
  | Loaded all_threads => within_cap MAX_THREAD_HISTORY all_threads
  | Statistics counters =>
    total_threads counters ≤ total_emails counters ∧
    total_emails counters ≤ MAX_THREAD_HISTORY * total_threads counters
  | Saved _ | Removed _ => True
  end.

(** ** Stores that hold the same *)

(** Two states of a provider hold the same when the threads read from the
    file are the same, or the table has the same rows and has handed out the
    same ids, or the dict in memory is the same; the log of system calls,
    the number of connections and the operation count may differ. *)
Definition same_contents (s s' : storage) : Prop :=
  match s, s' with
  | JSONStorage file_path fs, JSONStorage file_path' fs' =>
    file_path = file_path' ∧ file_threads file_path fs = file_threads file_path' fs'
  | SQLiteStorage db, SQLiteStorage db' =>
    rows db = rows db' ∧ last_rowid db = last_rowid db'
  | MockStorage st, MockStorage st' => threads st = threads st'
  | _, _ => False
  end.

(** ** The heap of the in-memory provider *)

(** The lists of the store have been allocated: their references are
    below the next one to be handed out. *)
Definition heap_ok (st : MockHeap.state) : Prop :=
  ∀ t l, MockHeap.self_threads st !! t = Some l → l < MockHeap.next_ref st.

(** ** [str.strip()]

    Text is held as UTF-8.  The characters that [strip] removes from both
    ends are those of [str.isspace]: U+0009 to U+000D, U+001C to U+0020,
    U+0085, U+00A0, U+1680, U+2000 to U+200A, U+2028, U+2029, U+202F, U+205F
    and U+3000, of one, two or three bytes. *)

Module Strip.

Definition space1 (c1 : ascii) : bool :=
  let n := nat_of_ascii c1 in
  (9 <=? n) && (n <=? 13) || (28 <=? n) && (n <=? 32).

Definition space2 (c1 c2 : ascii) : bool :=
  let n1 := nat_of_ascii c1 in
  let n2 := nat_of_ascii c2 in
  (n1 =? 194) && ((n2 =? 133) || (n2 =? 160)).

Definition space3 (c1 c2 c3 : ascii) : bool :=
  let n1 := nat_of_ascii c1 in
  let n2 := nat_of_ascii c2 in
  let n3 := nat_of_ascii c3 in
  (n1 =? 225) && (n2 =? 154) && (n3 =? 128)
  || (n1 =? 226) && (n2 =? 128)
     && ((128 <=? n3) && (n3 <=? 138) || (n3 =? 168) || (n3 =? 169) || (n3 =? 175))
  || (n1 =? 226) && (n2 =? 129) && (n3 =? 159)
  || (n1 =? 227) && (n2 =? 128) && (n3 =? 128).

(** Dropping the leading characters that [sp1], [sp2], [sp3] accept. *)
Fixpoint drop_leading (sp1 : ascii → bool) (sp2 : ascii → ascii → bool)
    (sp3 : ascii → ascii → ascii → bool) (s : string) : string :=
  match s with
  | String c1 s1 =>
    if sp1 c1 then drop_leading sp1 sp2 sp3 s1
    else
      match s1 with
      | String c2 s2 =>
        if sp2 c1 c2 then drop_leading sp1 sp2 sp3 s2
        else
          match s2 with
          | String c3 s3 => if sp3 c1 c2 c3 then drop_leading sp1 sp2 sp3 s3 else s
          | EmptyString => s
          end
      | EmptyString => s
      end
  | EmptyString => s
  end.

Definition lstrip (s : string) : string := drop_leading space1 space2 space3 s.

(** From the end: the same on the reversed text, the bytes of a character
    read backwards. *)
Definition rstrip (s : string) : string :=
  String.rev
    (drop_leading space1 (λ c2 c1, space2 c1 c2) (λ c3 c2 c1, space3 c1 c2 c3)
       (String.rev s)).

Definition strip (s : string) : string := rstrip (lstrip s).

End Strip.

(** ** The pipeline ([src/main.py]): saving to thread storage

    Step 5 of [main] walks through [enhanced_results] and stores, for each,
    the email received and, when a reply was written and sent, the reply. *)

Module Main.

(** One entry of [enhanced_results], as step 5 reads it: the tuple under
    ['email_data'] and the text under ['reply']. *)
Record enhanced_result := EnhancedResult {
  result_sender : string;
  result_subject : string;
  result_body : string;
  result_uid : Z;
  result_thread_id : string;
  result_reply : string
}.

(** [{uid: success for uid, success in results}]: of two pairs with the
    same uid the later one stays. *)
Definition result_dict (results : list (Z * bool)) : gmap Z bool :=
  foldl (λ d r, <[r.1 := r.2]> d) ∅ results.

(** The counters of the loop, the number of calls of [add_email_to_thread]
    made so far with what each of them returned (the latest last), and the
    provider. *)
Record storage_loop := StorageLoop {
  storage_successes : nat;
  storage_failures : nat;
  calls_made : nat;
  answers : list bool;
  storage_provider : storage
}.

Section Step5.

Variable MAX_THREAD_HISTORY : nat.
Variable now : Z.
(** [datetime.now().isoformat()] as read by the n-th call of
    [add_email_to_thread], and the environment of the process. *)
Variable clock : nat → string.
Variable environ : gmap string string.
Variable results : list (Z * bool).

(** The body of the loop. *)
Definition save_result (st : storage_loop) (result : enhanced_result) : storage_loop :=
  let sender := result_sender result in
  let subject := result_subject result in
  let body := result_body result in
  let uid := result_uid result in
  let thread_id := result_thread_id result in
  let reply := result_reply result in
  let '(original_saved, s1) :=
    ThreadManager.add_email_to_thread MAX_THREAD_HISTORY now (clock (calls_made st))
      thread_id sender subject body (Some uid) false (storage_provider st) in
  let answers1 := answers st ++ [original_saved] in
  if negb original_saved then
    (* storage_failures += 1; continue *)
    StorageLoop (storage_successes st) (S (storage_failures st)) (S (calls_made st)) answers1 s1
  else if negb (bool_decide (reply = ""))
          && negb (bool_decide (Strip.strip reply = ""))
          && default false (result_dict results !! uid) then
    match Config.email_address environ with
    | None =>
      (* config.email_address raises; except Exception: storage_failures += 1 *)
      StorageLoop (storage_successes st) (S (storage_failures st)) (S (calls_made st)) answers1 s1
    | Some bot_email =>
      let reply_subject := "Re: " +:+ Strip.strip subject in
      let '(reply_saved, s2) :=
        ThreadManager.add_email_to_thread MAX_THREAD_HISTORY now (clock (S (calls_made st)))
          thread_id bot_email reply_subject reply None true s1 in
      let answers2 := answers1 ++ [reply_saved] in
      if reply_saved then
        StorageLoop (S (storage_successes st)) (storage_failures st) (S (S (calls_made st)))
                    answers2 s2
      else
        StorageLoop (storage_successes st) (S (storage_failures st)) (S (S (calls_made st)))
                    answers2 s2
    end
  else
    StorageLoop (S (storage_successes st)) (storage_failures st) (S (calls_made st)) answers1 s1.

Definition save_to_thread_storage (enhanced_results : list enhanced_result) (s : storage)
  : storage_loop :=
  foldl save_result (StorageLoop 0 0 0 [] s) enhanced_results.

End Step5.

End Main.

(** The calls of the loop that returned [False]. *)
Definition refusals (answers : list bool) : nat :=
  length (filter (λ a, a = false) answers).

(** Two results of a run of the pipeline: a question that was answered and
    whose answer was sent, and a message for which no reply was written.
    The clock gives one second to every call. *)

Module PipelineSample.

Definition answered : Main.enhanced_result :=
  Main.EnhancedResult "customer@test.com" " Product Question " "What are your specs?" 101
    "t1" "Here are our specifications...".

Definition unanswered : Main.enhanced_result :=
  Main.EnhancedResult "student@university.edu" "General information request"
    "Can you send me some basic information?" 102 "t2" "  ".

Definition results : list (Z * bool) := [(101%Z, true); (102%Z, false)].

Definition environ : gmap string string := {["EMAIL_ADDRESS" := "bot@company.com"]}.

Definition clock (n : nat) : string :=
  Clock.isoformat (Clock.DateTime (Clock.days_from_civil 2024 3 1) (43200 + Z.of_nat n) 0).

End PipelineSample.

(** ** Timestamps and the moments they stand for *)


(** The decimal digits of a number, the most significant first, in a fixed
    width. *)
Fixpoint digits (width : nat) (x : N) : string :=
  match width with
  | O => ""
  | S width' => digits width' (x `div` 10)%N +:+ String (pretty_N_char (x `mod` 10)%N) ""
  end.

(** * Properties *)

(** ** Strings and slices *)

Lemma append_length (s t : string) :
  String.length (s +:+ t) = String.length s + String.length t.
Proof. induction s as [|c s IH]; simpl; [done | by rewrite IH]. Qed.

Lemma append_suffix_ne (s t : string) : t ≠ "" → s +:+ t ≠ s.
Proof.
  intros Ht Heq. apply (f_equal String.length) in Heq.
  rewrite append_length in Heq. destruct t; [done | simpl in Heq; lia].
Qed.

Lemma ltb_negb_leb (a b : string) : String.ltb a b = negb (String.leb b a).
Proof.
  unfold String.ltb, String.leb. rewrite (String.compare_antisym b a).
  by destruct (String.compare a b).
Qed.

Lemma leb_refl (a : string) : String.leb a a = true.
Proof. by destruct (String.leb_total a a). Qed.

Lemma leb_trans (a b c : string) :
  String.leb a b = true → String.leb b c = true → String.leb a c = true.
Proof.
  intros Hab Hbc. apply Is_true_true. apply Is_true_true in Hab, Hbc.
  change (String.le a c). by trans b.
Qed.

Section Slices.

Context {A : Type}.
Implicit Types l : list A.

Lemma last_n_length n l : 1 ≤ n → length (Py.last_n n l) = length l `min` n.
Proof.
  intros Hn. unfold Py.last_n. destruct (decide (n = 0)) as [->|_]; [lia |].
  rewrite length_drop. lia.
Qed.

Lemma last_n_all n l : length l ≤ n → Py.last_n n l = l.
Proof.
  intros Hn. unfold Py.last_n. destruct (decide (n = 0)); [done |].
  by replace (length l - n) with 0 by lia.
Qed.

(** The guarded trim of the providers is the slice alone. *)
Lemma trim_last_n n l :
  (if decide (n < length l) then Py.last_n n l else l) = Py.last_n n l.
Proof. destruct (decide (n < length l)); [done |]. symmetry. apply last_n_all. lia. Qed.



End Slices.

(** ** The sample clock *)

Example sample_clock :
  Clock.isoformat Sample.now = "2024-03-01T12:00:00" ∧
  Clock.epoch_seconds Sample.now = 1709294400%Z ∧
  Sample.iso_days_ago 30 = Some "2024-01-31T12:00:00" ∧
  timestamp Sample.A = Some (Clock.isoformat Sample.now) ∧
  timestamp Sample.forty_days_old = Sample.iso_days_ago 40 ∧
  timestamp Sample.one_day_old = Sample.iso_days_ago 1.
Proof. split_and!; by vm_compute. Qed.

(** ** Provider selection (C10) *)




(** The three recognised names select their own class, in any letter case
    -- "moc" followed by the Kelvin sign lowers to "mock" --, and a missing
    key selects the JSON provider by default. *)
Example get_storage_provider_known :
  get_storage_provider (YMap ∅) = inr JSONStorageProviderClass ∧
  get_storage_provider (YMap {["storage" := YMap {["provider" := YStr "JSON"]}]})
  = inr JSONStorageProviderClass ∧
  get_storage_provider (YMap {["storage" := YMap {["provider" := YStr "SQLite"]}]})
  = inr SQLiteStorageProviderClass ∧
  get_storage_provider (YMap {["storage" := YMap {["provider" := YStr "mock"]}]})
  = inr MockStorageProviderClass ∧
  get_storage_provider
    (YMap {["storage" := YMap {["provider" := YStr ("moc" +:+ Sample.kelvin_sign)]}]})
  = inr MockStorageProviderClass.
Proof. split_and!; by vm_compute. Qed.

(** ** The transcript of a thread (C8) *)

Lemma context_lines_concat (thread_history : list email) :
  ThreadManager.context_lines thread_history =
  ["Here is the conversation history:"]
  ++ concat (ThreadManager.email_lines <$> thread_history)
  ++ [nl +:+ "Now please reply to the latest email below:"].
Proof.
  unfold ThreadManager.context_lines.
  generalize ["Here is the conversation history:"] as acc.
  induction thread_history as [|e h IH]; intros acc; simpl.
  - done.
  - rewrite IH. by rewrite <- !app_assoc.
Qed.

Lemma email_lines_length (e : email) : length (ThreadManager.email_lines e) = 4.
Proof. done. Qed.

Lemma concat_email_lines_length (h : list email) :
  length (concat (ThreadManager.email_lines <$> h)) = 4 * length h.
Proof.
  induction h as [|e h IH]; [done |].
  rewrite fmap_cons, concat_cons, length_app, IH, email_lines_length. simpl. lia.
Qed.

Lemma concat_email_lines_lookup (h : list email) (i k : nat) (e : email) :
  h !! i = Some e → k < 4 →
  concat (ThreadManager.email_lines <$> h) !! (4 * i + k) = ThreadManager.email_lines e !! k.
Proof.
  revert i. induction h as [|e0 h IH]; intros i Hi Hk; [done |].
  rewrite fmap_cons, concat_cons. destruct i as [|i]; simpl in Hi.
  - injection Hi as ->. replace (4 * 0 + k) with k by lia.
    by rewrite lookup_app_l by (rewrite email_lines_length; lia).
  - rewrite lookup_app_r by (rewrite email_lines_length; lia).
    rewrite email_lines_length. rewrite <- (IH i Hi Hk).
    by replace (4 * S i + k - 4) with (4 * i + k) by lia.
Qed.

(** C8 (amended).  The transcript of the empty history is the empty string.
    Otherwise it is the lines below joined by newlines: a heading, then for
    every record, in stored order, a block of four lines -- a "From:" line
    carrying "Bot" when the reply flag is set and the sender otherwise, a
    "Subject:" line, a "Message:" line with the body, a rule of forty
    dashes -- and, after the last block, the instruction marker. *)
Theorem format_thread_context_blocks (thread_history : list email) :
  ThreadManager.format_thread_context [] = "" ∧
  (thread_history ≠ [] →
   ThreadManager.format_thread_context thread_history =
   Py.join nl (ThreadManager.context_lines thread_history)) ∧
  length (ThreadManager.context_lines thread_history) = 4 * length thread_history + 2 ∧
  ThreadManager.context_lines thread_history !! 0 = Some "Here is the conversation history:" ∧
  (∀ i e, thread_history !! i = Some e →
     ThreadManager.context_lines thread_history !! (4 * i + 1) =
       Some (nl +:+ "From: " +:+
             (if get_is_bot_reply e then "Bot" else default "Unknown" (sender e))) ∧
     ThreadManager.context_lines thread_history !! (4 * i + 2) =
       Some ("Subject: " +:+ default "No subject" (subject e)) ∧
     ThreadManager.context_lines thread_history !! (4 * i + 3) =
       Some ("Message: " +:+ default "No content" (body e)) ∧
     ThreadManager.context_lines thread_history !! (4 * i + 4) =
       Some "----------------------------------------") ∧
  ThreadManager.context_lines thread_history !! (4 * length thread_history + 1) =
    Some (nl +:+ "Now please reply to the latest email below:").
Proof.
  split; [done |]. split; [by destruct thread_history |].
  rewrite context_lines_concat. split; [| split; [done | split]].
  - rewrite !length_app, concat_email_lines_length. simpl. lia.
  - intros i e Hi.
    assert (Hblock : ∀ k, k < 4 →
      (["Here is the conversation history:"]
       ++ concat (ThreadManager.email_lines <$> thread_history)
       ++ [nl +:+ "Now please reply to the latest email below:"]) !! (4 * i + S k)
      = ThreadManager.email_lines e !! k).
    { intros k Hk. replace (4 * i + S k) with (S (4 * i + k)) by lia.
      simpl. apply lookup_lt_Some in Hi as Hlt.
      rewrite lookup_app_l by (rewrite concat_email_lines_length; lia).
      by apply concat_email_lines_lookup. }
    rewrite (Hblock 0), (Hblock 1), (Hblock 2), (Hblock 3) by lia. done.
  - replace (4 * length thread_history + 1) with (S (4 * length thread_history)) by lia.
    simpl. rewrite lookup_app_r by (rewrite concat_email_lines_length; lia).
    rewrite concat_email_lines_length. by rewrite Nat.sub_diag.
Qed.

Lemma format_thread_context_blocks_witness :
  [Sample.A] ≠ [] ∧
  ThreadManager.format_thread_context [Sample.A] =
    Py.join nl (ThreadManager.context_lines [Sample.A]) ∧
  ThreadManager.context_lines [Sample.A] !! 1 = Some (nl +:+ "From: customer@test.com").
Proof.
  split; [done |].
  destruct (format_thread_context_blocks [Sample.A]) as (_ & Hfmt & _ & _ & Hblocks & _).
  split; [by apply Hfmt |].
  by destruct (Hblocks 0 Sample.A eq_refl) as (Hfrom & _).
Defined.

(** C8, as stated, fails: a record whose reply flag is set is labelled "Bot";
    the word "system" occurs nowhere in its transcript. *)
Lemma format_thread_context_reply_label :
  get_is_bot_reply Sample.B = true ∧
  ThreadManager.context_lines [Sample.B] !! 1 = Some (nl +:+ "From: Bot") ∧
  ThreadManager.context_lines [Sample.B] !! 1 ≠ Some (nl +:+ "From: system") ∧
  Py.contains "system" (ThreadManager.format_thread_context [Sample.B]) = false.
Proof. split; [done |]. split; [done |]. split; [discriminate |]. by vm_compute. Qed.

(** ** The JSON file: atomic save (C3) and recovery on load (C7) *)

Lemma temp_file_ne (file_path : string) :
  JSONStorageProvider.temp_file file_path ≠ file_path.
Proof. by apply append_suffix_ne. Qed.

Lemma backup_name_ne (file_path : string) (now : Z) :
  JSONStorageProvider.backup_name file_path now ≠ file_path.
Proof. by apply append_suffix_ne. Qed.

(** The exception handler of [save_threads] touches the temporary file
    only. *)
Lemma save_failed_files (file_path : string) (cleanup_fails : bool) (fs : fs_state) (p : string) :
  let r := JSONStorageProvider.save_failed file_path cleanup_fails fs in
  r.1 = false ∧
  (p ≠ JSONStorageProvider.temp_file file_path → files r.2 !! p = files fs !! p) ∧
  (cleanup_fails = false → files r.2 !! JSONStorageProvider.temp_file file_path = None).
Proof.
  unfold JSONStorageProvider.save_failed.
  destruct (files fs !! JSONStorageProvider.temp_file file_path) eqn:Htmp;
    destruct cleanup_fails; simpl; split_and!; try done.
  - intros Hp. by rewrite lookup_delete_ne.
  - intros _. by rewrite lookup_delete_eq.
Qed.

(** C3.  When [save_threads] is hit by an exception at any point of the
    write -- opening the temporary file, dumping into it, renaming it over
    the target -- it returns [False], the target file holds exactly what it
    held before (as does every file other than the temporary one), and the
    handler removes the temporary file (unless that removal raises too,
    which the code only logs).  Without a fault it returns [True], the
    target holds the dumped mapping, no temporary file is left, and the
    system calls made are: open the temporary file, write it, rename it
    over the target, stat the target. *)
Theorem save_threads_atomic (file_path : string) (threads : gmap string (list email))
    (fs : fs_state) :
  (∀ f cleanup_fails,
     during_write f = true →
     let r := JSONStorageProvider.save_threads_with file_path f cleanup_fails threads fs in
     r.1 = false ∧
     files r.2 !! file_path = files fs !! file_path ∧
     (∀ p, p ≠ JSONStorageProvider.temp_file file_path → files r.2 !! p = files fs !! p) ∧
     (cleanup_fails = false → files r.2 !! JSONStorageProvider.temp_file file_path = None)) ∧
  (let r := JSONStorageProvider.save_threads file_path threads fs in
   r.1 = true ∧
   files r.2 = <[file_path := Doc threads]> (delete (JSONStorageProvider.temp_file file_path) (files fs)) ∧
   io_log r.2 = io_log fs ++
     [EvOpenW (JSONStorageProvider.temp_file file_path);
      EvWrite (JSONStorageProvider.temp_file file_path);
      EvReplace (JSONStorageProvider.temp_file file_path) file_path;
      EvGetsize file_path]).
Proof.
  pose proof (temp_file_ne file_path) as Hne.
  split.
  - intros f cleanup_fails Hf r.
    assert (Hgen : ∀ fs0, (∀ p, p ≠ JSONStorageProvider.temp_file file_path →
                             files fs0 !! p = files fs !! p) →
              r = JSONStorageProvider.save_failed file_path cleanup_fails fs0 →
              r.1 = false ∧
              files r.2 !! file_path = files fs !! file_path ∧
              (∀ p, p ≠ JSONStorageProvider.temp_file file_path → files r.2 !! p = files fs !! p) ∧
              (cleanup_fails = false →
               files r.2 !! JSONStorageProvider.temp_file file_path = None)).
    { intros fs0 Hfs0 ->.
      split; [apply (save_failed_files file_path cleanup_fails fs0 file_path) |].
      assert (Hother : ∀ p, p ≠ JSONStorageProvider.temp_file file_path →
                files (JSONStorageProvider.save_failed file_path cleanup_fails fs0).2 !! p
                = files fs !! p).
      { intros p Hp. rewrite <- (Hfs0 p Hp).
        by apply (save_failed_files file_path cleanup_fails fs0 p). }
      split; [by apply Hother |]. split; [done |].
      apply (save_failed_files file_path cleanup_fails fs0 file_path). }
    destruct f as [| |partial| |]; try discriminate Hf;
      (eapply Hgen; [| subst r; reflexivity]);
      intros p Hp; simpl; by rewrite ?lookup_insert_ne.
  - simpl. split; [done |]. split.
    + unfold OS.move. simpl. rewrite lookup_insert_eq.
      rewrite insert_insert_eq. by rewrite delete_insert_eq.
    + by rewrite <- !app_assoc.
Qed.

Lemma save_threads_atomic_witness :
  during_write (DumpFails (Malformed "{ t1: [")) = true ∧
  (JSONStorageProvider.save_threads_with "email_threads.json"
     (DumpFails (Malformed "{ t1: [")) false {["t1" := [Sample.A; Sample.B]]}
     (FS {["email_threads.json" := Doc {["t1" := [Sample.A]]}]} [])).1 = false ∧
  files (JSONStorageProvider.save_threads_with "email_threads.json"
     (DumpFails (Malformed "{ t1: [")) false {["t1" := [Sample.A; Sample.B]]}
     (FS {["email_threads.json" := Doc {["t1" := [Sample.A]]}]} [])).2 !! "email_threads.json"
  = Some (Doc {["t1" := [Sample.A]]}).
Proof.
  split; [reflexivity |].
  destruct (save_threads_atomic "email_threads.json" {["t1" := [Sample.A; Sample.B]]}
              (FS {["email_threads.json" := Doc {["t1" := [Sample.A]]}]} [])) as [Hfail _].
  destruct (Hfail (DumpFails (Malformed "{ t1: [")) false eq_refl) as (Hr & Hfile & _).
  split; [exact Hr |]. rewrite Hfile. reflexivity.
Defined.

(** A failure after the rename (the stat of the new file) is reported as
    [False] although the target has been replaced: it is no failure of the
    write. *)
Lemma save_threads_getsize_fault (file_path : string) (threads : gmap string (list email))
    (fs : fs_state) :
  let r := JSONStorageProvider.save_threads_with file_path GetsizeFails false threads fs in
  r.1 = false ∧ files r.2 !! file_path = Some (Doc threads).
Proof.
  pose proof (temp_file_ne file_path) as Hne.
  intros r. subst r. unfold JSONStorageProvider.save_threads_with.
  destruct (save_failed_files file_path false
              (OS.log (EvGetsize file_path)
                 (OS.replace (JSONStorageProvider.temp_file file_path) file_path
                    (OS.write (JSONStorageProvider.temp_file file_path) (Doc threads)
                       (OS.open_w (JSONStorageProvider.temp_file file_path) fs)))) file_path)
    as (Hfalse & Hother & _).
  split; [exact Hfalse |]. rewrite Hother by done.
  simpl. unfold OS.move. simpl. rewrite lookup_insert_eq. by rewrite lookup_insert_eq.
Qed.




(** A missing file, and a file that cannot be read at all, also load as the
    empty mapping; they are left as they are. *)
Lemma load_threads_missing_or_unreadable (file_path : string) (now : Z) (fs : fs_state) :
  (files fs !! file_path = None ∨ ∃ raw, files fs !! file_path = Some (Unreadable raw)) →
  let r := JSONStorageProvider.load_threads file_path now fs in
  r.1 = ∅ ∧ files r.2 = files fs.
Proof.
  unfold JSONStorageProvider.load_threads, JSONStorageProvider.load_threads_with.
  by intros [-> | [raw ->]].
Qed.

(** ** Empty thread ids (C6) *)

(** C6 (amended).  The module-level functions make no check of their own:
    they hand the call to the provider.  With the JSON or the SQLite
    provider, the provider's first statement rejects an empty thread id --
    [False] for an append, the empty list for a history -- and nothing has
    been done by then: no system call is logged, no connection is opened,
    the stored state is the one before the call. *)
Theorem empty_thread_id_rejected (MAX_THREAD_HISTORY : nat) (now : Z) :
  (∀ now_iso sender subject body uid is_bot_reply file_path fs,
     ThreadManager.add_email_to_thread MAX_THREAD_HISTORY now now_iso ""
       sender subject body uid is_bot_reply (JSONStorage file_path fs)
     = (false, JSONStorage file_path fs)) ∧
  (∀ now_iso sender subject body uid is_bot_reply db,
     ThreadManager.add_email_to_thread MAX_THREAD_HISTORY now now_iso ""
       sender subject body uid is_bot_reply (SQLiteStorage db)
     = (false, SQLiteStorage db)) ∧
  (∀ file_path fs,
     ThreadManager.get_thread_history MAX_THREAD_HISTORY now "" (JSONStorage file_path fs)
     = ([], JSONStorage file_path fs)) ∧
  (∀ db,
     ThreadManager.get_thread_history MAX_THREAD_HISTORY now "" (SQLiteStorage db)
     = ([], SQLiteStorage db)).
Proof. done. Qed.

(** C6, as stated, fails: through the same functions the in-memory provider
    is called and takes the empty thread id like any other -- the append
    answers [True] and files the message under [""], which the next history
    call returns; and every call, this one included, moves its operation
    counter. *)
Lemma empty_thread_id_reaches_mock :
  (ThreadManager.add_email_to_thread 5 0 "2024-03-01T12:00:00" ""
     "customer@test.com" "Product Question" "What are your specs?" (Some 101%Z) false
     (MockStorage Sample.empty_mock)).1 = true ∧
  (ThreadManager.add_email_to_thread 5 0 "2024-03-01T12:00:00" ""
     "customer@test.com" "Product Question" "What are your specs?" (Some 101%Z) false
     (MockStorage Sample.empty_mock)).2
  = MockStorage (Mock {["" := [Sample.A]]} 1) ∧
  ThreadManager.get_thread_history 5 0 "" (MockStorage (Mock {["" := [Sample.A]]} 1))
  = ([Sample.A], MockStorage (Mock {["" := [Sample.A]]} 2)).
Proof. split; [done |]. split; by vm_compute. Qed.

(** ** Appending to a dict of threads *)

Lemma append_and_trim_insert (MAX_THREAD_HISTORY : nat) (thread_id : string) (e : email)
    (m : gmap string (list email)) :
  append_and_trim MAX_THREAD_HISTORY thread_id e m =
  <[thread_id := Py.last_n MAX_THREAD_HISTORY (default [] (m !! thread_id) ++ [e])]> m.
Proof.
  unfold append_and_trim.
  assert (Hdef : default [] ((match m !! thread_id with
                              | Some _ => m
                              | None => <[thread_id := []]> m
                              end) !! thread_id) = default [] (m !! thread_id)).
  { destruct (m !! thread_id) eqn:Hm; [by rewrite Hm | by rewrite lookup_insert_eq]. }
  assert (Hins : ∀ v, <[thread_id := v]> (match m !! thread_id with
                                           | Some _ => m
                                           | None => <[thread_id := []]> m
                                           end) = <[thread_id := v]> m).
  { intros v. destruct (m !! thread_id); [done | by rewrite insert_insert_eq]. }
  rewrite Hdef, !Hins, lookup_insert_eq. simpl.
  rewrite <- (trim_last_n MAX_THREAD_HISTORY (default [] (m !! thread_id) ++ [e])).
  case_decide; [by rewrite insert_insert_eq | done].
Qed.

Lemma append_and_trim_lookup (MAX_THREAD_HISTORY : nat) (thread_id t : string) (e : email)
    (m : gmap string (list email)) :
  default [] (append_and_trim MAX_THREAD_HISTORY thread_id e m !! t) =
  if decide (thread_id = t)
  then Py.last_n MAX_THREAD_HISTORY (default [] (m !! t) ++ [e])
  else default [] (m !! t).
Proof.
  rewrite append_and_trim_insert. case_decide as Ht.
  - subst. by rewrite lookup_insert_eq.
  - by rewrite lookup_insert_ne.
Qed.

(** ** The JSON file as a store *)

Lemma load_threads_file_threads (file_path : string) (now : Z) (fs : fs_state) :
  (JSONStorageProvider.load_threads file_path now fs).1 = file_threads file_path fs ∧
  file_threads file_path (JSONStorageProvider.load_threads file_path now fs).2
  = file_threads file_path fs.
Proof.
  pose proof (backup_name_ne file_path now) as Hne.
  unfold JSONStorageProvider.load_threads, JSONStorageProvider.load_threads_with, file_threads.
  destruct (files fs !! file_path) as [[m|raw|raw]|] eqn:Hfile; simpl; rewrite ?Hfile; try done.
  unfold OS.move. simpl. rewrite Hfile.
  rewrite lookup_insert_ne by done. by rewrite lookup_delete_eq.
Qed.

Lemma save_threads_files (file_path : string) (m : gmap string (list email)) (fs : fs_state) :
  files (JSONStorageProvider.save_threads file_path m fs).2 =
  <[file_path := Doc m]> (delete (JSONStorageProvider.temp_file file_path) (files fs)).
Proof.
  simpl. unfold OS.move. simpl. rewrite lookup_insert_eq.
  rewrite insert_insert_eq. by rewrite delete_insert_eq.
Qed.

Lemma save_threads_file_threads (file_path : string) (m : gmap string (list email))
    (fs : fs_state) :
  (JSONStorageProvider.save_threads file_path m fs).1 = true ∧
  file_threads file_path (JSONStorageProvider.save_threads file_path m fs).2 = m.
Proof.
  split; [done |]. unfold file_threads.
  by rewrite save_threads_files, lookup_insert_eq.
Qed.

Lemma json_add_email_to_thread_step (file_path : string) (MAX_THREAD_HISTORY : nat) (now : Z)
    (thread_id : string) (e : email) (fs : fs_state) :
  thread_id ≠ "" →
  let r := JSONStorageProvider.add_email_to_thread file_path MAX_THREAD_HISTORY now thread_id e fs in
  r.1 = true ∧
  file_threads file_path r.2 =
    append_and_trim MAX_THREAD_HISTORY thread_id e (file_threads file_path fs).
Proof.
  intros Hid r. subst r. unfold JSONStorageProvider.add_email_to_thread.
  destruct (decide (thread_id = "")) as [|_]; [done |].
  destruct (load_threads_file_threads file_path now fs) as [Hload Hview].
  destruct (JSONStorageProvider.load_threads file_path now fs) as [m fs1].
  simpl in Hload, Hview. subst m.
  destruct (save_threads_file_threads file_path
              (append_and_trim MAX_THREAD_HISTORY thread_id e (file_threads file_path fs)) fs1)
    as [Hok Hsaved].
  by split.
Qed.

Lemma json_get_thread_history_file_threads (file_path : string) (now : Z) (t : string)
    (fs : fs_state) :
  (JSONStorageProvider.get_thread_history file_path now t fs).1 =
  if decide (t = "") then [] else default [] (file_threads file_path fs !! t).
Proof.
  unfold JSONStorageProvider.get_thread_history. case_decide; [done |].
  destruct (load_threads_file_threads file_path now fs) as [Hload _].
  destruct (JSONStorageProvider.load_threads file_path now fs) as [m fs1]. simpl in *. by subst.
Qed.



(** ** The in-memory dict as a store *)

Lemma mock_add_email_to_thread_step (MAX_THREAD_HISTORY : nat) (thread_id : string) (e : email)
    (st : mock_state) :
  let r := MockStorageProvider.add_email_to_thread MAX_THREAD_HISTORY thread_id e st in
  r.1 = true ∧ threads r.2 = append_and_trim MAX_THREAD_HISTORY thread_id e (threads st).
Proof. done. Qed.


(** ** [ORDER BY], [LIMIT] and the bounded delete *)


Lemma insert_by_perm (le : row → row → bool) (r : row) (l : list row) :
  SQL.insert_by le r l ≡ₚ r :: l.
Proof.
  induction l as [|r' l IH]; simpl; [done |].
  destruct (le r r'); [done |]. rewrite IH. apply Permutation_swap.
Qed.

Lemma order_by_perm (le : row → row → bool) (l : list row) : SQL.order_by le l ≡ₚ l.
Proof.
  unfold SQL.order_by. induction l as [|r l IH]; simpl; [done |].
  rewrite insert_by_perm. by rewrite IH.
Qed.

(** Rows already in ascending order come out of [ORDER BY] as they are. *)
Lemma order_by_sorted_id (le : row → row → bool) (l : list row) :
  StronglySorted (λ r1 r2, le r1 r2 = true) l → SQL.order_by le l = l.
Proof.
  unfold SQL.order_by. induction 1 as [|r l Hsorted IH Hall]; simpl; [done |].
  rewrite IH. destruct Hall as [|r' l Hr _]; simpl; [done | by rewrite Hr].
Qed.

Lemma insert_by_timestamp_sorted (r : row) (l : list row) :
  StronglySorted row_ts_le l → StronglySorted row_ts_le (SQL.insert_by SQL.by_timestamp r l).
Proof.
  induction 1 as [|r' l Hsorted IH Hall]; simpl.
  - repeat constructor.
  - destruct (SQL.by_timestamp r r') eqn:Hle.
    + constructor; [by constructor |]. constructor; [done |].
      eapply Forall_impl; [exact Hall |]. intros x Hx.
      unfold row_ts_le, SQL.by_timestamp in *. by eapply leb_trans.
    + constructor; [done |].
      rewrite insert_by_perm. constructor; [| done].
      unfold row_ts_le, SQL.by_timestamp in *.
      destruct (String.leb_total (row_timestamp r) (row_timestamp r')); congruence.
Qed.

Lemma order_by_timestamp_sorted (l : list row) :
  StronglySorted row_ts_le (SQL.order_by SQL.by_timestamp l).
Proof.
  unfold SQL.order_by.
  induction l as [|r l IH]; simpl; [constructor | by apply insert_by_timestamp_sorted].
Qed.

Lemma filter_none {A} (P : A → Prop) `{∀ x, Decision (P x)} (l : list A) :
  Forall (λ x, ¬ P x) l → filter P l = [].
Proof. induction 1; [done |]. by rewrite filter_cons_False. Qed.

Lemma filter_all {A} (P : A → Prop) `{∀ x, Decision (P x)} (l : list A) :
  Forall P l → filter P l = l.
Proof. induction 1; [done |]. rewrite filter_cons_True by done. by f_equal. Qed.

(** Deleting by id the first [k] rows of a group whose ids are distinct
    leaves the rows after them. *)
Lemma filter_out_ids (l1 l2 : list row) :
  NoDup (row_id <$> (l1 ++ l2)) →
  filter (λ r, row_id r ∉ row_id <$> l1) (l1 ++ l2) = l2.
Proof.
  rewrite fmap_app. intros (_ & Hdisj & _)%NoDup_app.
  rewrite filter_app, filter_none, filter_all; [done | |].
  - apply Forall_forall. intros r Hr Hin. eapply Hdisj; [exact Hin |].
    by apply list_elem_of_fmap_2.
  - apply Forall_forall. intros r Hr Hnot. apply Hnot. by apply list_elem_of_fmap_2.
Qed.

Lemma filter_out_prefix (k : nat) (g : list row) :
  NoDup (row_id <$> g) →
  filter (λ r, row_id r ∉ row_id <$> take k g) g = drop k g.
Proof.
  intros Hnodup. rewrite <- (take_drop k g) in Hnodup.
  pose proof (filter_out_ids _ _ Hnodup) as Hf. by rewrite take_drop in Hf.
Qed.

Lemma where_thread_app (t : string) (l1 l2 : list row) :
  SQL.where_thread t (l1 ++ l2) = SQL.where_thread t l1 ++ SQL.where_thread t l2.
Proof. apply filter_app. Qed.

Lemma where_thread_thread_id (t : string) (l : list row) :
  Forall (λ r, row_thread_id r = t) (SQL.where_thread t l).
Proof. apply Forall_forall. intros r Hr. by apply list_elem_of_filter in Hr as [? _]. Qed.

Lemma where_thread_nodup (t : string) (l : list row) :
  NoDup (row_id <$> l) → NoDup (row_id <$> SQL.where_thread t l).
Proof.
  intros Hnodup. eapply sublist_NoDup; [exact Hnodup |].
  apply fmap_sublist. unfold SQL.where_thread. apply sublist_filter.
Qed.

Lemma where_thread_delete_same (t : string) (ids : list nat) (l : list row) :
  SQL.where_thread t (filter (λ r, ¬ (row_thread_id r = t ∧ row_id r ∈ ids)) l)
  = filter (λ r, row_id r ∉ ids) (SQL.where_thread t l).
Proof.
  unfold SQL.where_thread. induction l as [|r l IH]; [done |].
  rewrite (filter_cons (λ r, ¬ _)), (filter_cons (λ r, row_thread_id r = t) r l).
  destruct (decide (row_thread_id r = t)) as [Ht|Ht].
  - rewrite (filter_cons (λ r, row_id r ∉ ids)).
    destruct (decide (row_id r ∈ ids)) as [Hin|Hin].
    + rewrite decide_False by tauto. rewrite decide_False by tauto. done.
    + rewrite decide_True by tauto. rewrite decide_True by done.
      rewrite filter_cons_True by done. by rewrite IH.
  - rewrite decide_True by tauto. by rewrite filter_cons_False.
Qed.

Lemma where_thread_delete_other (t t' : string) (ids : list nat) (l : list row) :
  t' ≠ t →
  SQL.where_thread t' (filter (λ r, ¬ (row_thread_id r = t ∧ row_id r ∈ ids)) l)
  = SQL.where_thread t' l.
Proof.
  intros Hne. unfold SQL.where_thread. induction l as [|r l IH]; [done |].
  rewrite (filter_cons (λ r, ¬ _)), (filter_cons (λ r, row_thread_id r = t') r l).
  destruct (decide (row_thread_id r = t')) as [Ht|Ht].
  - rewrite decide_True by (intros [? _]; congruence).
    rewrite filter_cons_True by done. by rewrite IH.
  - destruct (decide (¬ (row_thread_id r = t ∧ row_id r ∈ ids))); [| done].
    by rewrite filter_cons_False.
Qed.


Lemma delete_oldest_other (t t' : string) (k : nat) (l : list row) :
  t' ≠ t →
  SQL.where_thread t' (SQLiteStorageProvider.delete_oldest t k l) = SQL.where_thread t' l.
Proof. intros Hne. by apply where_thread_delete_other. Qed.

Lemma delete_oldest_sublist (t : string) (k : nat) (l : list row) :
  SQLiteStorageProvider.delete_oldest t k l `sublist_of` l.
Proof. apply sublist_filter. Qed.

(** ** The table as a store *)




Lemma strongly_sorted_fmap_inv {A B} (f : A → B) (R : relation B) (l : list A) :
  StronglySorted R (f <$> l) → StronglySorted (λ x y, R (f x) (f y)) l.
Proof.
  induction l as [|x l IH]; [constructor |].
  rewrite fmap_cons. intros [Hall Hsorted]%StronglySorted_cons.
  constructor; [by apply IH |]. rewrite Forall_fmap in Hall. exact Hall.
Qed.

Lemma forall_sublist {A} (P : A → Prop) (l k : list A) :
  k `sublist_of` l → Forall P l → Forall P k.
Proof. rewrite !Forall_forall. eauto using elem_of_sublist. Qed.


Lemma stored_as_timestamp (e : email) : get_timestamp (SQL.stored_as e) = get_timestamp e.
Proof. done. Qed.



Lemma thread_emails_sorted (t : string) (l : list row) :
  StronglySorted ts_le (thread_emails t l) → StronglySorted row_ts_le (SQL.where_thread t l).
Proof. apply (strongly_sorted_fmap_inv SQL.email_of_row ts_le). Qed.



(** A record that cannot be bound is refused, and nothing is written. *)
Lemma sql_add_email_to_thread_refused (MAX_THREAD_HISTORY : nat) (thread_id : string)
    (e : email) (db : db_state) :
  thread_id ≠ "" → SQL.bindable e = false →
  SQLiteStorageProvider.add_email_to_thread MAX_THREAD_HISTORY thread_id e db
  = (false, SQL.connect db).
Proof.
  intros Hid Hbind. unfold SQLiteStorageProvider.add_email_to_thread, SQL.execute_insert.
  by rewrite decide_False, Hbind.
Qed.


Lemma last_n_bound {A} (n : nat) (l : list A) : 1 ≤ n → length (Py.last_n n l) ≤ n.
Proof. intros Hn. rewrite last_n_length by done. lia. Qed.

(** ** The retention cap (C1) *)



Example cap_scenario_fourth_append :
  (JSONStorageProvider.get_thread_history "email_threads.json" 0 "t1"
     (Appends.json "email_threads.json" 2 0
        [("t1", Sample.A); ("t1", Sample.B); ("t1", Sample.C); ("t1", Sample.D)]
        Sample.empty_fs)).1
  = [Sample.C; Sample.D] ∧
  (MockStorageProvider.get_thread_history "t1"
     (Appends.mock 2 [("t1", Sample.A); ("t1", Sample.B); ("t1", Sample.C); ("t1", Sample.D)]
        Sample.empty_mock)).1
  = [Sample.C; Sample.D] ∧
  (SQLiteStorageProvider.get_thread_history 2 "t1"
     (Appends.sqlite 2 [("t1", Sample.A); ("t1", Sample.B); ("t1", Sample.C); ("t1", Sample.D)]
        Sample.empty_db)).1
  = [Sample.C; Sample.D].
Proof. split_and!; by vm_compute. Qed.


(** ** Reading a thread back (C2) *)

Lemma strongly_sorted_prefix {A} (R : relation A) (l k : list A) :
  k `prefix_of` l → StronglySorted R l → StronglySorted R k.
Proof. intros [l' ->]. apply StronglySorted_app_1_l. Qed.




(** On the same stored thread the SQLite provider does return two records,
    but [ORDER BY timestamp LIMIT 2] picks the two oldest. *)
Example sqlite_history_limit :
  (SQLiteStorageProvider.get_thread_history 2 "t1"
     (SQLiteStorageProvider.save_threads {["t1" := [Sample.A; Sample.B; Sample.C]]}
        Sample.empty_db).2).1
  = [Sample.A; Sample.B].
Proof. by vm_compute. Qed.

(** ** Cleanup by age (C4) *)

Lemma ltb_leb (a b : string) : String.ltb a b = true → String.leb a b = true.
Proof.
  rewrite ltb_negb_leb. intros Hlt.
  destruct (String.leb_total a b) as [Hab|Hba]; [done |]. by rewrite Hba in Hlt.
Qed.

Lemma leb_ltb_trans (a b c : string) :
  String.leb a b = true → String.ltb b c = true → String.ltb a c = true.
Proof.
  rewrite !ltb_negb_leb. intros Hab Hbc.
  destruct (String.leb c a) eqn:Hca; [| done].
  by rewrite (leb_trans c a b Hca Hab) in Hbc.
Qed.




Lemma foldl_delete_lookup {V} (ks : list string) (m : gmap string V) (t : string) :
  foldl (λ m' k, delete k m') m ks !! t = if decide (t ∈ ks) then None else m !! t.
Proof.
  revert m. induction ks as [|k ks IH]; intros m; cbn [foldl].
  - destruct (decide (t ∈ [])) as [Hin|_]; [by apply elem_of_nil in Hin | done].
  - rewrite IH. destruct (decide (t ∈ ks)) as [Hin|Hnot].
    + rewrite decide_True; [done | by constructor].
    + destruct (decide (t = k)) as [->|Hne].
      * rewrite decide_True by constructor. apply lookup_delete_eq.
      * rewrite decide_False by (rewrite elem_of_cons; tauto). by apply lookup_delete_ne.
Qed.

Lemma foldl_delete_filter {V} (P : string * V → Prop) `{∀ kv, Decision (P kv)}
    (m : gmap string V) :
  foldl (λ m' k, delete k m') m (map_to_list (filter P m)).*1 = filter (λ kv, ¬ P kv) m.
Proof.
  apply map_eq. intros t. rewrite foldl_delete_lookup.
  destruct (m !! t) as [v|] eqn:Hm.
  - destruct (decide (P (t, v))) as [HP|HP].
    + rewrite decide_True.
      * symmetry. apply map_lookup_filter_None. right. intros v' Hv'. naive_solver.
      * apply list_elem_of_fmap. exists (t, v). split; [done |].
        apply elem_of_map_to_list. by apply map_lookup_filter_Some.
    + rewrite decide_False.
      * symmetry. by apply map_lookup_filter_Some.
      * intros ([t' v'] & ? & Hin)%list_elem_of_fmap. simpl in *. subst t'.
        apply elem_of_map_to_list, map_lookup_filter_Some in Hin as [Hv' HP'].
        simpl in *. congruence.
  - assert (filter (λ kv, ¬ P kv) m !! t = None) as ->
      by (apply map_lookup_filter_None; by left).
    by case_decide.
Qed.


Lemma map_filter_none {V} (P : string * V → Prop) `{∀ kv, Decision (P kv)}
    (m : gmap string V) :
  (∀ t v, m !! t = Some v → ¬ P (t, v)) → filter P m = ∅.
Proof.
  intros Hnone. apply map_empty. intros t. apply map_lookup_filter_None. right.
  intros v Hv. by apply Hnone.
Qed.

(** What [cleanup_old_threads] of the JSON provider leaves in the file and
    what it returns. *)
Lemma json_cleanup_old_threads_spec (file_path : string) (now : Z)
    (iso_days_ago : Z → option string) (days_old : Z) (fs : fs_state) :
  let r := JSONStorageProvider.cleanup_old_threads file_path now iso_days_ago days_old fs in
  let remove := λ kv : string * list email,
    to_remove_at (iso_days_ago days_old) kv.2 = true in
  file_threads file_path r.2 = filter (λ kv, ¬ remove kv) (file_threads file_path fs) ∧
  r.1 = size (filter remove (file_threads file_path fs)).
Proof.
  intros r remove. subst r. unfold JSONStorageProvider.cleanup_old_threads.
  destruct (load_threads_file_threads file_path now fs) as [Hload Hview].
  destruct (JSONStorageProvider.load_threads file_path now fs) as [m fs1].
  simpl in Hload, Hview. subst m. set (m := file_threads file_path fs) in *.
  destruct (decide (m = ∅)) as [Hempty|Hne]; cbn [fst snd].
  - rewrite Hview, Hempty. by rewrite !map_filter_empty.
  - subst remove. destruct (iso_days_ago days_old) as [cutoff_iso|]; cbn [fst snd to_remove_at].
    2: { rewrite Hview, map_filter_id by done.
         by rewrite map_filter_none, map_size_empty by done. }
    set (remove := λ kv : string * list email,
           JSONStorageProvider.to_remove cutoff_iso kv.2 = true).
    rewrite length_fmap, length_map_to_list.
    destruct (decide (0 < size (filter remove m))) as [Hpos|Hzero].
    + destruct (save_threads_file_threads file_path
                  (foldl (λ m' k, delete k m') m (map_to_list (filter remove m)).*1) fs1)
        as [Hok Hsaved].
      destruct (JSONStorageProvider.save_threads file_path _ fs1) as [ok fs2].
      simpl in Hok, Hsaved. subst ok. cbn [fst snd].
      split; [| done]. by rewrite Hsaved, foldl_delete_filter.
    + cbn [fst snd]. split; [| done]. rewrite Hview.
      assert (Hnone : filter remove m = ∅) by (apply map_size_empty_iff; lia).
      pose proof (map_filter_union_complement remove m) as Hunion.
      rewrite Hnone, (left_id_L ∅ (∪)) in Hunion. done.
Qed.

Lemma filter_ext_in {A} (P Q : A → Prop) `{∀ x, Decision (P x)} `{∀ x, Decision (Q x)}
    (l : list A) :
  (∀ x, x ∈ l → (P x ↔ Q x)) → filter P l = filter Q l.
Proof.
  induction l as [|x l IH]; intros Hext; [done |].
  rewrite !filter_cons. rewrite IH by (intros y Hy; apply Hext; by constructor).
  destruct (decide (P x)) as [HP|HP], (decide (Q x)) as [HQ|HQ]; try done;
    exfalso; apply (Hext x (list_elem_of_here _ _)) in HP || apply (Hext x (list_elem_of_here _ _)) in HQ;
    done.
Qed.

Lemma fmap_filter_key {A B} (f : A → B) (P : B → Prop)
    {HPf : ∀ x, Decision (P (f x))} {HP : ∀ y, Decision (P y)} (l : list A) :
  f <$> filter (λ x, P (f x)) l = filter P (f <$> l).
Proof.
  induction l as [|x l IH]; [done |].
  rewrite fmap_cons, !filter_cons. unfold decide.
  destruct (HPf x), (HP (f x)); try done. by rewrite fmap_cons, IH.
Qed.

Lemma remove_dups_filter {A} `{EqDecision A} (P : A → Prop) `{∀ x, Decision (P x)}
    (l : list A) :
  remove_dups (filter P l) = filter P (remove_dups l).
Proof.
  induction l as [|x l IH]; [done |].
  rewrite filter_cons. simpl. destruct (decide (P x)) as [HP|HP].
  - simpl. destruct (decide_rel (∈) x l) as [Hin|Hnot],
      (decide_rel (∈) x (filter P l)) as [Hin'|Hnot'].
    + done.
    + exfalso. apply Hnot'. by apply list_elem_of_filter.
    + exfalso. apply Hnot. by apply list_elem_of_filter in Hin' as [_ ?].
    + rewrite filter_cons_True by done. by rewrite IH.
  - destruct (decide_rel (∈) x l); [done |]. by rewrite filter_cons_False.
Qed.

Lemma length_filter_complement {A} (P : A → Prop) `{∀ x, Decision (P x)} (l : list A) :
  length (filter (λ x, ¬ P x) l) + length (filter P l) = length l.
Proof.
  induction l as [|x l IH]; [done |].
  rewrite !filter_cons. destruct (decide (P x)).
  - rewrite decide_False by tauto. simpl. lia.
  - rewrite decide_True by done. simpl. lia.
Qed.

Lemma where_thread_filter_by_thread (Q : string → Prop)
    {HQr : ∀ r, Decision (Q (row_thread_id r))} {HQt : ∀ t, Decision (Q t)}
    (t : string) (l : list row) :
  SQL.where_thread t (filter (λ r, Q (row_thread_id r)) l)
  = if decide (Q t) then SQL.where_thread t l else [].
Proof.
  unfold SQL.where_thread. induction l as [|r l IH]; [by case_decide |].
  rewrite (filter_cons (λ r, Q _)), (filter_cons (λ r, row_thread_id r = t) r l).
  unfold decide at 1. destruct (HQr r) as [HQ|HQ].
  - rewrite filter_cons, IH. destruct (decide (row_thread_id r = t)) as [<-|Hne]; [| done].
    unfold decide. destruct (HQt (row_thread_id r)); done.
  - rewrite IH. destruct (decide (row_thread_id r = t)) as [<-|Hne]; [| done].
    unfold decide. destruct (HQt (row_thread_id r)); done.
Qed.


(** What [cleanup_old_threads] of the SQLite provider leaves in the table
    and what it returns. *)
Lemma sql_cleanup_old_threads_spec (iso_days_ago : Z → option string) (days_old : Z)
    (db : db_state) :
  let r := SQLiteStorageProvider.cleanup_old_threads iso_days_ago days_old db in
  rows r.2 =
    filter (λ r, ¬ stale_at (iso_days_ago days_old) (rows db) (row_thread_id r) = true)
           (rows db) ∧
  r.1 = length (filter (λ t, stale_at (iso_days_ago days_old) (rows db) t = true)
                       (SQL.distinct_thread_ids (rows db))).
Proof.
  intros r. subst r. unfold SQLiteStorageProvider.cleanup_old_threads.
  destruct (iso_days_ago days_old) as [cutoff_iso|]; cbn [stale_at fst snd].
  2: { split.
       - symmetry. apply filter_all, Forall_forall. by intros r _.
       - symmetry. apply length_zero_iff_nil, filter_none, Forall_forall. by intros t _. }
  set (R := SQL.distinct_thread_ids _).
  assert (HR : R = filter (λ t, SQLiteStorageProvider.stale cutoff_iso (rows db) t = true)
                          (SQL.distinct_thread_ids (rows db))).
  { unfold R, SQL.distinct_thread_ids.
    rewrite <- remove_dups_filter. f_equal.
    apply (fmap_filter_key row_thread_id
             (λ t, SQLiteStorageProvider.stale cutoff_iso (rows db) t = true)). }
  assert (Hrows : filter (λ r, row_thread_id r ∉ R) (rows db)
                  = filter (λ r, ¬ SQLiteStorageProvider.stale cutoff_iso (rows db)
                                     (row_thread_id r) = true) (rows db)).
  { apply filter_ext_in. intros r Hr. rewrite HR, list_elem_of_filter.
    assert (row_thread_id r ∈ SQL.distinct_thread_ids (rows db)).
    { apply elem_of_remove_dups. by apply list_elem_of_fmap_2. }
    tauto. }
  destruct R as [|t R'] eqn:HReq; cbn [fst snd rows SQL.connect].
  - split; [| by rewrite <- HR].
    rewrite <- Hrows. symmetry. apply filter_all, Forall_forall. intros r _. apply not_elem_of_nil.
  - split; [exact Hrows | by rewrite <- HR].
Qed.



(** What [cleanup_old_threads] of the in-memory provider leaves and what it
    returns. *)
Lemma mock_cleanup_old_threads_spec (days_old : Z) (st : mock_state) :
  let r := MockStorageProvider.cleanup_old_threads days_old st in
  threads r.2 = filter (λ kv, ¬ Py.contains "old" (Py.lower kv.1) = true) (threads st) ∧
  r.1 = size (filter (λ kv, Py.contains "old" (Py.lower kv.1) = true) (threads st)).
Proof.
  unfold MockStorageProvider.cleanup_old_threads. cbn [fst snd threads]. split.
  - apply (foldl_delete_filter (λ kv, Py.contains "old" (Py.lower kv.1) = true)).
  - by rewrite length_fmap, length_map_to_list.
Qed.



(** A cutoff that cannot be computed: four million days before the sample
    clock there is no date, and the cleanup of the JSON provider leaves even
    a thread without records where it is. *)
Example cleanup_without_cutoff :
  Sample.iso_days_ago 4000000 = None ∧
  (JSONStorageProvider.cleanup_old_threads "email_threads.json" 0 Sample.iso_days_ago 4000000
     (FS {["email_threads.json" := Doc {["old" := [Sample.forty_days_old]; "none" := []]}]} [])).1
  = 0 ∧
  file_threads "email_threads.json"
    (JSONStorageProvider.cleanup_old_threads "email_threads.json" 0 Sample.iso_days_ago 4000000
       (FS {["email_threads.json" := Doc {["old" := [Sample.forty_days_old]; "none" := []]}]} [])).2
  = {["old" := [Sample.forty_days_old]; "none" := []]}.
Proof. split_and!; by vm_compute. Qed.

(** The same scenario run on the three providers: each removes "old", keeps
    "new" and returns 1 (the in-memory one because of the name of the
    thread). *)
Example cleanup_scenario :
  (JSONStorageProvider.cleanup_old_threads "email_threads.json" 0 Sample.iso_days_ago 30
     (FS {["email_threads.json" :=
             Doc {["old" := [Sample.forty_days_old]; "new" := [Sample.one_day_old]]}]} [])).1 = 1 ∧
  (SQLiteStorageProvider.cleanup_old_threads Sample.iso_days_ago 30
     (Appends.sqlite 5 [("old", Sample.forty_days_old); ("new", Sample.one_day_old)]
        Sample.empty_db)).1 = 1 ∧
  thread_emails "old"
    (rows (SQLiteStorageProvider.cleanup_old_threads Sample.iso_days_ago 30
       (Appends.sqlite 5 [("old", Sample.forty_days_old); ("new", Sample.one_day_old)]
          Sample.empty_db)).2) = [] ∧
  thread_emails "new"
    (rows (SQLiteStorageProvider.cleanup_old_threads Sample.iso_days_ago 30
       (Appends.sqlite 5 [("old", Sample.forty_days_old); ("new", Sample.one_day_old)]
          Sample.empty_db)).2) = [Sample.one_day_old] ∧
  MockStorageProvider.cleanup_old_threads 30
    (Mock {["old" := [Sample.forty_days_old]; "new" := [Sample.one_day_old]]} 0)
  = (1, Mock {["new" := [Sample.one_day_old]]} 1).
Proof. split_and!; by vm_compute. Qed.


(** ** A dict and a table holding the same threads *)

Lemma thread_emails_nil (t : string) (l : list row) :
  thread_emails t l = [] ↔ SQL.where_thread t l = [].
Proof. unfold thread_emails. split; [apply fmap_nil_inv | by intros ->]. Qed.



Lemma sum_indicator (x : string) (ids : list string) :
  NoDup ids →
  sum_list ((λ t, if decide (x = t) then 1 else 0) <$> ids) = if decide (x ∈ ids) then 1 else 0.
Proof.
  induction 1 as [|t ids Hnot Hnodup IH]; [done |].
  rewrite fmap_cons. simpl. rewrite IH.
  destruct (decide (x = t)) as [->|Hne].
  - rewrite decide_False by done. by rewrite decide_True by constructor.
  - destruct (decide (x ∈ ids)) as [Hin|Hout].
    + by rewrite decide_True by (by constructor).
    + by rewrite decide_False by (rewrite elem_of_cons; tauto).
Qed.

(** Counting the rows that satisfy [Q] group by group counts them all. *)
Lemma sum_over_groups (Q : row → Prop) `{∀ r, Decision (Q r)} (ids : list string)
    (l : list row) :
  NoDup ids →
  sum_list ((λ t, length (filter Q (SQL.where_thread t l))) <$> ids)
  = length (filter (λ r, Q r ∧ row_thread_id r ∈ ids) l).
Proof.
  intros Hnodup. induction l as [|r l IH].
  - simpl. induction ids as [|t ids IHids]; [done |].
    rewrite fmap_cons. simpl. apply IHids. by apply NoDup_cons in Hnodup as [_ ?].
  - assert (Hstep : ∀ t, length (filter Q (SQL.where_thread t (r :: l)))
        = (if decide (Q r) then if decide (row_thread_id r = t) then 1 else 0 else 0)
          + length (filter Q (SQL.where_thread t l))).
    { intros t. unfold SQL.where_thread. rewrite (filter_cons _ r l).
      destruct (decide (row_thread_id r = t)).
      - rewrite filter_cons. destruct (decide (Q r)); simpl; lia.
      - destruct (decide (Q r)); simpl; lia. }
    assert (Hmap : (λ t, length (filter Q (SQL.where_thread t (r :: l)))) <$> ids
                   = (λ t, (if decide (Q r)
                            then if decide (row_thread_id r = t) then 1 else 0 else 0)
                           + length (filter Q (SQL.where_thread t l))) <$> ids)
      by (apply list_fmap_ext; intros; apply Hstep).
    rewrite Hmap, filter_cons.
    assert (Hsplit : ∀ (f g : string → nat) (k : list string),
              sum_list ((λ t, f t + g t) <$> k) = sum_list (f <$> k) + sum_list (g <$> k)).
    { intros f g k. induction k as [|t k IHk]; [done |]. rewrite !fmap_cons. simpl. lia. }
    rewrite Hsplit, IH. destruct (decide (Q r)) as [HQ|HQ].
    + rewrite (sum_indicator (row_thread_id r) ids Hnodup).
      destruct (decide (row_thread_id r ∈ ids)).
      * rewrite decide_True by done. simpl. lia.
      * rewrite decide_False by tauto. simpl. lia.
    + rewrite decide_False by tauto.
      assert (Hzero : sum_list ((λ _ : string, 0) <$> ids) = 0)
        by (clear; induction ids; [done | by rewrite fmap_cons]).
      rewrite Hzero. lia.
Qed.

Lemma sum_over_distinct_groups (Q : row → Prop) `{∀ r, Decision (Q r)} (l : list row) :
  sum_list ((λ t, length (filter Q (SQL.where_thread t l))) <$> SQL.distinct_thread_ids l)
  = length (filter Q l).
Proof.
  rewrite sum_over_groups by apply NoDup_remove_dups. f_equal.
  apply filter_ext_in. intros r Hr. split; [by intros [? _] |]. intros HQ. split; [done |].
  apply elem_of_remove_dups. by apply list_elem_of_fmap_2.
Qed.






Lemma length_filter_negb {A} (b : A → bool) (l : list A) :
  length (filter (λ x, negb (b x) = true) l) = length l - length (filter (λ x, b x = true) l).
Proof.
  rewrite <- (length_filter_complement (λ x, b x = true) l).
  rewrite (list_filter_iff (λ x, negb (b x) = true) (λ x, ¬ b x = true)); [lia |].
  intros x. destruct (b x); naive_solver.
Qed.


(** The statistics of the JSON provider are those of the in-memory provider
    on the same dict, once the average is rounded. *)
Lemma stats_same_dict (file_path : string) (MAX_THREAD_HISTORY : nat) (now : Z)
    (fs : fs_state) (st : mock_state) :
  threads st = file_threads file_path fs →
  Statistics (JSONStorageProvider.get_storage_stats file_path MAX_THREAD_HISTORY now fs).1
  = Calls.rounded (Statistics (MockStorageProvider.get_storage_stats MAX_THREAD_HISTORY st).1).
Proof.
  intros Hsame. unfold JSONStorageProvider.get_storage_stats.
  destruct (load_threads_file_threads file_path now fs) as [Hload _].
  destruct (JSONStorageProvider.load_threads file_path now fs) as [m fs1].
  simpl in Hload. subst m. unfold MockStorageProvider.get_storage_stats. rewrite Hsame.
  destruct (decide (file_threads file_path fs = ∅)) as [->|Hne]; cbn [fst]; [| done].
  unfold count_emails, count_threads. by rewrite map_size_empty, map_to_list_empty.
Qed.

(** ** [ORDER BY] is a stable sort *)

Section OrderBy.

Variable le : row → row → bool.
Hypothesis le_total : ∀ r1 r2, le r1 r2 = true ∨ le r2 r1 = true.
Hypothesis le_trans : ∀ r1 r2 r3, le r1 r2 = true → le r2 r3 = true → le r1 r3 = true.

Lemma insert_by_sorted (r : row) (l : list row) :
  StronglySorted (λ r1 r2, le r1 r2 = true) l →
  StronglySorted (λ r1 r2, le r1 r2 = true) (SQL.insert_by le r l).
Proof.
  induction 1 as [|r' l Hsorted IH Hall]; simpl.
  - repeat constructor.
  - destruct (le r r') eqn:Hle.
    + constructor; [by constructor |]. constructor; [done |].
      eapply Forall_impl; [exact Hall |]. intros x Hx. by eapply le_trans.
    + constructor; [done |]. rewrite insert_by_perm. constructor; [| done].
      destruct (le_total r r'); congruence.
Qed.

Lemma order_by_sorted (l : list row) :
  StronglySorted (λ r1 r2, le r1 r2 = true) (SQL.order_by le l).
Proof.
  unfold SQL.order_by.
  induction l as [|r l IH]; simpl; [constructor | by apply insert_by_sorted].
Qed.

Lemma insert_by_least (r : row) (l : list row) :
  Forall (λ r', le r r' = true) l → SQL.insert_by le r l = r :: l.
Proof. destruct 1 as [|r' l Hle _]; simpl; [done | by rewrite Hle]. Qed.

(** Selecting rows commutes with sorting them: the rows selected keep the
    order the sort gave them. *)
Lemma filter_insert_by (P : row → Prop) `{∀ r, Decision (P r)} (r : row) (l : list row) :
  StronglySorted (λ r1 r2, le r1 r2 = true) l →
  filter P (SQL.insert_by le r l)
  = if decide (P r) then SQL.insert_by le r (filter P l) else filter P l.
Proof.
  induction 1 as [|r' l Hsorted IH Hall]; simpl.
  - rewrite filter_cons, filter_nil. by case_decide.
  - destruct (le r r') eqn:Hle.
    + rewrite (filter_cons P r). destruct (decide (P r)) as [HP|HP]; [| done].
      rewrite insert_by_least; [done |]. apply Forall_forall.
      intros x [_ Hx]%list_elem_of_filter. apply elem_of_cons in Hx as [->|Hx]; [done |].
      eapply le_trans; [exact Hle |]. by eapply Forall_forall in Hall.
    + rewrite (filter_cons P r'), IH, (filter_cons P r' l).
      destruct (decide (P r')) as [HP'|HP'], (decide (P r)) as [HP|HP]; try done.
      simpl. by rewrite Hle.
Qed.

Lemma filter_order_by (P : row → Prop) `{∀ r, Decision (P r)} (l : list row) :
  filter P (SQL.order_by le l) = SQL.order_by le (filter P l).
Proof.
  induction l as [|r l IH]; [done |].
  change (SQL.order_by le (r :: l)) with (SQL.insert_by le r (SQL.order_by le l)).
  rewrite filter_insert_by by apply order_by_sorted.
  rewrite IH, filter_cons. by destruct (decide (P r)).
Qed.

End OrderBy.

Lemma insert_by_ext (le le' : row → row → bool) (r : row) (l : list row) :
  (∀ r', r' ∈ l → le r r' = le' r r') → SQL.insert_by le r l = SQL.insert_by le' r l.
Proof.
  induction l as [|r' l IH]; intros Hext; simpl; [done |].
  rewrite <- (Hext r') by constructor. destruct (le r r'); [done |].
  f_equal. apply IH. intros x Hx. apply Hext. by constructor.
Qed.

Lemma order_by_ext (le le' : row → row → bool) (l : list row) :
  (∀ r1 r2, r1 ∈ l → r2 ∈ l → le r1 r2 = le' r1 r2) →
  SQL.order_by le l = SQL.order_by le' l.
Proof.
  induction l as [|r l IH]; intros Hext; [done |].
  change (SQL.insert_by le r (SQL.order_by le l) = SQL.insert_by le' r (SQL.order_by le' l)).
  rewrite IH by (intros; apply Hext; by constructor).
  apply insert_by_ext. intros r' Hr'. rewrite order_by_perm in Hr'.
  apply Hext; by constructor.
Qed.

Lemma ltb_irrefl (a : string) : String.ltb a a = false.
Proof. by rewrite ltb_negb_leb, leb_refl. Qed.

Lemma ltb_trans (a b c : string) :
  String.ltb a b = true → String.ltb b c = true → String.ltb a c = true.
Proof. intros Hab Hbc. eapply leb_ltb_trans; [by apply ltb_leb | done]. Qed.

Lemma by_thread_id_timestamp_total (r1 r2 : row) :
  SQL.by_thread_id_timestamp r1 r2 = true ∨ SQL.by_thread_id_timestamp r2 r1 = true.
Proof.
  unfold SQL.by_thread_id_timestamp, SQL.by_timestamp.
  destruct (String.eqb_spec (row_thread_id r1) (row_thread_id r2)) as [Heq|Hne].
  - rewrite Heq, String.eqb_refl, ltb_irrefl. simpl.
    apply String.leb_total.
  - rewrite (String.eqb_sym (row_thread_id r2)).
    rewrite (proj2 (String.eqb_neq _ _) Hne). rewrite !andb_false_l, !orb_false_r.
    rewrite (ltb_negb_leb (row_thread_id r2)).
    destruct (String.ltb (row_thread_id r1) (row_thread_id r2)) eqn:Hlt; [by left |].
    right. apply negb_true_iff. destruct (String.leb _ _) eqn:Hle; [| done].
    exfalso. apply Hne. apply String.leb_antisym; [done |].
    rewrite ltb_negb_leb in Hlt. by apply negb_false_iff in Hlt.
Qed.

Lemma by_thread_id_timestamp_trans (r1 r2 r3 : row) :
  SQL.by_thread_id_timestamp r1 r2 = true → SQL.by_thread_id_timestamp r2 r3 = true →
  SQL.by_thread_id_timestamp r1 r3 = true.
Proof.
  unfold SQL.by_thread_id_timestamp, SQL.by_timestamp.
  intros [H12 | [Heq12 Hle12]%andb_true_iff]%orb_true_iff
         [H23 | [Heq23 Hle23]%andb_true_iff]%orb_true_iff; apply orb_true_iff.
  - left. by eapply ltb_trans.
  - apply String.eqb_eq in Heq23. left. by rewrite <- Heq23.
  - apply String.eqb_eq in Heq12. left. by rewrite Heq12.
  - apply String.eqb_eq in Heq12, Heq23. right. rewrite Heq12, Heq23, String.eqb_refl.
    simpl. by eapply leb_trans.
Qed.

(** Within one thread, [ORDER BY thread_id, timestamp] is
    [ORDER BY timestamp]. *)
Lemma where_thread_order_by (t : string) (l : list row) :
  SQL.where_thread t (SQL.order_by SQL.by_thread_id_timestamp l)
  = SQL.order_by SQL.by_timestamp (SQL.where_thread t l).
Proof.
  unfold SQL.where_thread.
  rewrite (filter_order_by _ by_thread_id_timestamp_total by_thread_id_timestamp_trans).
  apply order_by_ext. intros r1 r2 [H1 _]%list_elem_of_filter [H2 _]%list_elem_of_filter.
  unfold SQL.by_thread_id_timestamp. by rewrite H1, H2, ltb_irrefl, String.eqb_refl.
Qed.

Lemma group_row_insert (m : gmap string (list email)) (r : row) :
  SQLiteStorageProvider.group_row m r
  = <[row_thread_id r := default [] (m !! row_thread_id r) ++ [SQL.email_of_row r]]> m.
Proof.
  unfold SQLiteStorageProvider.group_row.
  destruct (m !! row_thread_id r) eqn:Hm; [by rewrite Hm |].
  by rewrite lookup_insert_eq, insert_insert_eq.
Qed.

(** The dict that [load_threads] groups the cursor into holds the threads of
    the cursor. *)
Lemma group_rows_same_threads (cursor : list row) :
  same_threads (foldl SQLiteStorageProvider.group_row ∅ cursor) cursor.
Proof.
  induction cursor as [|r cursor IH] using rev_ind.
  - cbn [foldl]. split; [intros t; by rewrite lookup_empty | intros t h; by rewrite lookup_empty].
  - rewrite foldl_app. cbn [foldl]. destruct IH as [Hsame Hne].
    rewrite group_row_insert. unfold same_threads, thread_emails, SQL.where_thread. split.
    + intros t. rewrite filter_app, fmap_app, filter_cons, filter_nil.
      destruct (decide (row_thread_id r = t)) as [<-|Hne'].
      * rewrite lookup_insert_eq. simpl. by rewrite Hsame.
      * rewrite lookup_insert_ne by done. rewrite app_nil_r. apply Hsame.
    + intros t h. destruct (decide (row_thread_id r = t)) as [<-|Hne'].
      * rewrite lookup_insert_eq. intros [= <-]. by destruct (default [] _).
      * rewrite lookup_insert_ne by done. apply Hne.
Qed.




(** ** The file and the table, call after call *)

Lemma last_n_snoc_nonempty {A} (n : nat) (l : list A) (x : A) :
  1 ≤ n → Py.last_n n (l ++ [x]) ≠ [].
Proof.
  intros Hn Hnil. apply (f_equal length) in Hnil.
  rewrite last_n_length, length_app in Hnil by done. simpl in Hnil. lia.
Qed.





Section Parity.

Variable MAX_THREAD_HISTORY : nat.
Variable now : Z.
Variable iso_days_ago : Z → option string.
Variable file_path : string.

Lemma perform_json (c : call) (fs : fs_state) :
  Calls.perform MAX_THREAD_HISTORY now iso_days_ago c (JSONStorage file_path fs) =
  match c with
  | CallAdd now_iso t sender subject body uid is_bot_reply =>
    let r := JSONStorageProvider.add_email_to_thread file_path MAX_THREAD_HISTORY now t
               (ThreadManager.email_data now_iso sender subject body uid is_bot_reply) fs in
    (Saved r.1, JSONStorage file_path r.2)
  | CallHistory t =>
    let r := JSONStorageProvider.get_thread_history file_path now t fs in
    (History r.1, JSONStorage file_path r.2)
  | CallStats =>
    let r := JSONStorageProvider.get_storage_stats file_path MAX_THREAD_HISTORY now fs in
    (Statistics r.1, JSONStorage file_path r.2)
  | CallCleanup days_old =>
    let r := JSONStorageProvider.cleanup_old_threads file_path now iso_days_ago days_old fs in
    (Removed r.1, JSONStorage file_path r.2)
  | CallLoad =>
    let r := JSONStorageProvider.load_threads file_path now fs in
    (Loaded r.1, JSONStorage file_path r.2)
  end.
Proof.
  destruct c; unfold Calls.perform; cbn -[JSONStorageProvider.add_email_to_thread
    JSONStorageProvider.get_thread_history JSONStorageProvider.get_storage_stats
    JSONStorageProvider.cleanup_old_threads JSONStorageProvider.load_threads].
  - by destruct (JSONStorageProvider.add_email_to_thread _ _ _ _ _ _).
  - by destruct (JSONStorageProvider.get_thread_history _ _ _ _).
  - by destruct (JSONStorageProvider.get_storage_stats _ _ _ _).
  - by destruct (JSONStorageProvider.cleanup_old_threads _ _ _ _ _).
  - by destruct (JSONStorageProvider.load_threads _ _ _).
Qed.

Lemma perform_sqlite (c : call) (db : db_state) :
  Calls.perform MAX_THREAD_HISTORY now iso_days_ago c (SQLiteStorage db) =
  match c with
  | CallAdd now_iso t sender subject body uid is_bot_reply =>
    let r := SQLiteStorageProvider.add_email_to_thread MAX_THREAD_HISTORY t
               (ThreadManager.email_data now_iso sender subject body uid is_bot_reply) db in
    (Saved r.1, SQLiteStorage r.2)
  | CallHistory t =>
    let r := SQLiteStorageProvider.get_thread_history MAX_THREAD_HISTORY t db in
    (History r.1, SQLiteStorage r.2)
  | CallStats =>
    let r := SQLiteStorageProvider.get_storage_stats MAX_THREAD_HISTORY db in
    (Statistics r.1, SQLiteStorage r.2)
  | CallCleanup days_old =>
    let r := SQLiteStorageProvider.cleanup_old_threads iso_days_ago days_old db in
    (Removed r.1, SQLiteStorage r.2)
  | CallLoad =>
    let r := SQLiteStorageProvider.load_threads db in
    (Loaded r.1, SQLiteStorage r.2)
  end.
Proof.
  destruct c; unfold Calls.perform; cbn -[SQLiteStorageProvider.add_email_to_thread
    SQLiteStorageProvider.get_thread_history SQLiteStorageProvider.get_storage_stats
    SQLiteStorageProvider.cleanup_old_threads SQLiteStorageProvider.load_threads].
  - by destruct (SQLiteStorageProvider.add_email_to_thread _ _ _ _).
  - by destruct (SQLiteStorageProvider.get_thread_history _ _ _).
  - by destruct (SQLiteStorageProvider.get_storage_stats _ _).
  - by destruct (SQLiteStorageProvider.cleanup_old_threads _ _ _).
  - by destruct (SQLiteStorageProvider.load_threads _).
Qed.

Lemma perform_mock (c : call) (st : mock_state) :
  Calls.perform MAX_THREAD_HISTORY now iso_days_ago c (MockStorage st) =
  match c with
  | CallAdd now_iso t sender subject body uid is_bot_reply =>
    let r := MockStorageProvider.add_email_to_thread MAX_THREAD_HISTORY t
               (ThreadManager.email_data now_iso sender subject body uid is_bot_reply) st in
    (Saved r.1, MockStorage r.2)
  | CallHistory t =>
    let r := MockStorageProvider.get_thread_history t st in
    (History r.1, MockStorage r.2)
  | CallStats =>
    let r := MockStorageProvider.get_storage_stats MAX_THREAD_HISTORY st in
    (Statistics r.1, MockStorage r.2)
  | CallCleanup days_old =>
    let r := MockStorageProvider.cleanup_old_threads days_old st in
    (Removed r.1, MockStorage r.2)
  | CallLoad =>
    let r := MockStorageProvider.load_threads st in
    (Loaded r.1, MockStorage r.2)
  end.
Proof. by destruct c. Qed.




End Parity.

(** ** Backend parity (C5) *)



(** The answers of that run on the in-memory provider; the average, two
    records in one thread, is the float 2.0. *)
Example backend_parity_answers :
  Calls.run 2 0 Sample.iso_days_ago
    [CallAdd "2024-03-01T12:00:00" "t1" "customer@test.com" "Product Question"
       "What are your specs?" (Some 101%Z) false;
     CallAdd "2024-03-01T12:00:05" "t1" "bot@company.com" "Re: Product Question"
       "Here are our specifications..." None true;
     CallAdd "2024-03-01T12:07:30" "t1" "customer@test.com" "Re: Product Question"
       "Thanks! What about pricing?" (Some 102%Z) false;
     CallHistory "t1"; CallStats; CallLoad]
    (MockStorage Sample.empty_mock)
  = [Saved true; Saved true; Saved true; History [Sample.B; Sample.C];
     Statistics
       (Stats 1 2 1 (Py.PyFloat (SpecFloat.S754_finite false 4503599627370496 (-51))) 1 1 1);
     Loaded {["t1" := [Sample.B; Sample.C]]}].
Proof. by vm_compute. Qed.


(** The statistics differ as well: with four records in three threads the
    JSON and the SQLite provider report the average 1.3, the in-memory
    provider 1.3333333333333333 (the floats [5854679515581645 * 2 ^ -52] and
    [6004799503160661 * 2 ^ -52]). *)
Example mock_average_not_rounded :
  avg_emails_per_thread
    (JSONStorageProvider.get_storage_stats "email_threads.json" 5 0
       (FS {["email_threads.json" :=
               Doc {["t1" := [Sample.A; Sample.B]; "t2" := [Sample.C]; "t3" := [Sample.D]]}]} [])).1
  = Py.PyFloat (SpecFloat.S754_finite false 5854679515581645 (-52)) ∧
  avg_emails_per_thread
    (SQLiteStorageProvider.get_storage_stats 5
       (SQLiteStorageProvider.save_threads
          {["t1" := [Sample.A; Sample.B]; "t2" := [Sample.C]; "t3" := [Sample.D]]}
          Sample.empty_db).2).1
  = Py.PyFloat (SpecFloat.S754_finite false 5854679515581645 (-52)) ∧
  avg_emails_per_thread
    (MockStorageProvider.get_storage_stats 5
       (Mock {["t1" := [Sample.A; Sample.B]; "t2" := [Sample.C]; "t3" := [Sample.D]]} 0)).1
  = Py.PyFloat (SpecFloat.S754_finite false 6004799503160661 (-52)).
Proof. split_and!; by vm_compute. Qed.

(** And an append whose uid is 2 ^ 63 is stored by the JSON and the
    in-memory provider and refused by the SQLite provider. *)
Example sqlite_refuses_large_uid :
  Calls.run 5 0 Sample.iso_days_ago
    [CallAdd "2024-03-01T12:00:00" "t1" "customer@test.com" "Product Question"
       "What are your specs?" (Some (2 ^ 63)%Z) false;
     CallStats]
    (JSONStorage "email_threads.json" Sample.empty_fs)
  = [Saved true;
     Statistics
       (Stats 1 1 0 (Py.PyFloat (SpecFloat.S754_finite false 4503599627370496 (-52))) 0 0 1)] ∧
  Calls.run 5 0 Sample.iso_days_ago
    [CallAdd "2024-03-01T12:00:00" "t1" "customer@test.com" "Product Question"
       "What are your specs?" (Some (2 ^ 63)%Z) false;
     CallStats]
    (SQLiteStorage Sample.empty_db)
  = [Saved false; Statistics (Stats 0 0 0 (Py.PyInt 0) 0 0 0)] ∧
  Calls.run 5 0 Sample.iso_days_ago
    [CallAdd "2024-03-01T12:00:00" "t1" "customer@test.com" "Product Question"
       "What are your specs?" (Some (2 ^ 63)%Z) false;
     CallStats]
    (MockStorage Sample.empty_mock)
  = [Saved true;
     Statistics
       (Stats 1 1 0 (Py.PyFloat (SpecFloat.S754_finite false 4503599627370496 (-52))) 0 0 1)].
Proof. split_and!; by vm_compute. Qed.

(** ** What a caller can do to the in-memory store (C9) *)

(** C9, on the code: the copies handed out by the in-memory provider are
    shallow.  Append [A] to thread "t1" of a new store (cap 5).
    - [get_thread_history] returns a new list holding the very dict of the
      store: once the caller has changed that dict with [f], the store holds
      [f A].
    - [load_threads] returns a new dict holding the very list of the store:
      once the caller has appended a dict of its own to that list, the store
      holds two records, though no method of the store has been called.
    Only the outer object is the caller's own: appending to the list that
    [get_thread_history] returned leaves the store as it was. *)
Theorem mock_reads_share_objects (f : email → email) (e' : email) :
  MockHeap.stored_history "t1"
    (MockHeap.add_email_to_thread 5 "t1" Sample.A MockHeap.init).2 = [Sample.A] ∧
  (∃ d st,
     MockHeap.get_thread_history "t1"
       (MockHeap.add_email_to_thread 5 "t1" Sample.A MockHeap.init).2 = (2, st) ∧
     MockHeap.list_objects st !! 2 = Some [d] ∧
     MockHeap.stored_history "t1" (MockHeap.dict_update d f st) = [f Sample.A] ∧
     MockHeap.read_list
       (MockHeap.get_thread_history "t1" (MockHeap.dict_update d f st)).1
       (MockHeap.get_thread_history "t1" (MockHeap.dict_update d f st)).2 = [f Sample.A] ∧
     MockHeap.stored_history "t1" (MockHeap.list_append 2 d st) = [Sample.A]) ∧
  (∃ l st,
     MockHeap.load_threads (MockHeap.add_email_to_thread 5 "t1" Sample.A MockHeap.init).2
     = ({["t1" := l]}, st) ∧
     MockHeap.stored_history "t1"
       (MockHeap.list_append l (MockHeap.new_dict e' st).1 (MockHeap.new_dict e' st).2)
     = [Sample.A; e']).
Proof.
  split; [by vm_compute |]. split.
  - eexists 1, _. split; [by vm_compute |]. split; [by vm_compute |].
    split_and!; by vm_compute.
  - eexists 0, _. split; [by vm_compute |]. by vm_compute.
Qed.

(** * The providers call by call, the configuration, the pipeline *)

(** ** Saving and loading back *)


(** ** [SQLiteStorageProvider]: saving and loading back *)

Lemma thread_emails_app (t : string) (l1 l2 : list row) :
  thread_emails t (l1 ++ l2) = thread_emails t l1 ++ thread_emails t l2.
Proof. unfold thread_emails. by rewrite where_thread_app, fmap_app. Qed.

Lemma insert_thread_emails (k : string) (e : email) (d : db_state) (t : string) :
  thread_emails t (rows (SQL.insert k e d))
  = thread_emails t (rows d) ++ (if decide (k = t) then [SQL.stored_as e] else []).
Proof.
  unfold SQL.insert. cbn [rows]. rewrite thread_emails_app. f_equal.
  unfold thread_emails, SQL.where_thread. rewrite filter_cons, filter_nil. simpl.
  by repeat case_decide.
Qed.

Lemma insert_history_thread_emails (k : string) (h : list email) (d : db_state) (t : string) :
  thread_emails t (rows (foldl (λ d' e, SQL.insert k e d') d h))
  = thread_emails t (rows d) ++ (if decide (k = t) then SQL.stored_as <$> h else []).
Proof.
  revert d. induction h as [|e h IH]; intros d; cbn [foldl].
  - case_decide; by rewrite app_nil_r.
  - rewrite IH, insert_thread_emails. rewrite <- app_assoc. f_equal.
    by case_decide.
Qed.

Lemma insert_threads_thread_emails (kvs : list (string * list email)) (d : db_state)
    (t : string) :
  NoDup kvs.*1 →
  thread_emails t
    (rows (foldl (λ d kv, foldl (λ d' e, SQL.insert kv.1 e d') d kv.2) d kvs))
  = thread_emails t (rows d)
    ++ (SQL.stored_as <$> default [] ((list_to_map kvs : gmap string (list email)) !! t)).
Proof.
  revert d. induction kvs as [|[k h] kvs IH]; intros d Hnodup; cbn [foldl].
  - replace ((list_to_map [] : gmap string (list email)) !! t) with (@None (list email));
      [by rewrite app_nil_r | done].
  - rewrite fmap_cons in Hnodup. apply NoDup_cons in Hnodup as [Hk Hnodup].
    rewrite (IH _ Hnodup), insert_history_thread_emails. rewrite <- app_assoc. f_equal.
    cbn [list_to_map foldr fst snd]. destruct (decide (k = t)) as [->|Hne].
    + rewrite lookup_insert_eq. simpl.
      by rewrite (not_elem_of_list_to_map_1 kvs t Hk), app_nil_r.
    + by rewrite lookup_insert_ne.
Qed.

(** The loops of [save_threads] run to their end when every record can be
    bound, and stop with the exception otherwise. *)
Lemma execute_inserts_history (k : string) (h : list email) (d : option db_state) :
  foldl (λ d' e, d' ≫= SQL.execute_insert k e) d h
  = if decide (Forall (λ e, SQL.bindable e = true) h)
    then (λ d0, foldl (λ d' e, SQL.insert k e d') d0 h) <$> d
    else None.
Proof.
  revert d. induction h as [|e h IH]; intros d; cbn [foldl].
  - rewrite decide_True by constructor. by destruct d.
  - rewrite IH. destruct (SQL.bindable e) eqn:He.
    + destruct (decide (Forall (λ e, SQL.bindable e = true) h)) as [Hh|Hh].
      * rewrite decide_True by (by constructor). destruct d as [d|]; [| done].
        simpl. unfold SQL.execute_insert. by rewrite He.
      * rewrite decide_False; [done |]. by intros [_ ?]%Forall_cons.
    + rewrite (decide_False (P := Forall _ (e :: h))).
      2: { intros [? _]%Forall_cons. congruence. }
      case_decide; [| done]. destruct d as [d|]; [| done].
      simpl. unfold SQL.execute_insert. by rewrite He.
Qed.

Lemma execute_inserts_threads (kvs : list (string * list email)) (d : option db_state) :
  foldl (λ d kv, foldl (λ d' e, d' ≫= SQL.execute_insert kv.1 e) d kv.2) d kvs
  = if decide (Forall (λ kv, Forall (λ e, SQL.bindable e = true) kv.2) kvs)
    then (λ d0, foldl (λ d kv, foldl (λ d' e, SQL.insert kv.1 e d') d kv.2) d0 kvs) <$> d
    else None.
Proof.
  revert d. induction kvs as [|[k h] kvs IH]; intros d; cbn [foldl].
  - rewrite decide_True by constructor. by destruct d.
  - rewrite IH, execute_inserts_history. cbn [fst snd].
    destruct (decide (Forall (λ e, SQL.bindable e = true) h)) as [Hh|Hh].
    + destruct (decide (Forall (λ kv, Forall (λ e, SQL.bindable e = true) kv.2) kvs))
        as [Hkvs|Hkvs].
      * rewrite decide_True by (by constructor). by destruct d.
      * rewrite decide_False; [done |]. by intros [_ ?]%Forall_cons.
    + rewrite (decide_False (P := Forall _ ((k, h) :: kvs))).
      2: { by intros [? _]%Forall_cons. }
      by case_decide.
Qed.

Lemma bindable_threads_to_list (m : gmap string (list email)) :
  bindable_threads m
  ↔ Forall (λ kv, Forall (λ e, SQL.bindable e = true) kv.2) (map_to_list m).
Proof.
  unfold bindable_threads. rewrite Forall_forall. split.
  - intros Hm [t h] Hin%elem_of_map_to_list. by eapply Hm.
  - intros Hl t h Hin. by apply (Hl (t, h)), elem_of_map_to_list.
Qed.

Lemma bindable_threads_singleton (t : string) (h : list email) :
  Forall (λ e, SQL.bindable e = true) h → bindable_threads {[t := h]}.
Proof. intros Hh t' h' [_ <-]%lookup_singleton_Some. exact Hh. Qed.

Lemma bindable_threads_insert (t : string) (h : list email) (m : gmap string (list email)) :
  Forall (λ e, SQL.bindable e = true) h → bindable_threads m →
  bindable_threads (<[t := h]> m).
Proof.
  intros Hh Hm t' h' [[_ <-]|[_ Hin]]%lookup_insert_Some; [exact Hh | by eapply Hm].
Qed.

(** [save_threads] on a dict whose records can all be bound, and on
    another. *)
Lemma sql_save_threads_bindable (m : gmap string (list email)) (db : db_state) :
  bindable_threads m →
  SQLiteStorageProvider.save_threads m db
  = (true,
     foldl (λ d kv, foldl (λ d' e, SQL.insert kv.1 e d') d kv.2)
           (DB [] (last_rowid db) (S (connections db))) (map_to_list m)).
Proof.
  intros Hm%bindable_threads_to_list. unfold SQLiteStorageProvider.save_threads.
  by rewrite execute_inserts_threads, decide_True.
Qed.

Lemma sql_save_threads_refused (m : gmap string (list email)) (db : db_state) :
  ¬ bindable_threads m →
  SQLiteStorageProvider.save_threads m db = (false, SQL.connect db).
Proof.
  rewrite bindable_threads_to_list. intros Hm. unfold SQLiteStorageProvider.save_threads.
  by rewrite execute_inserts_threads, decide_False.
Qed.

(** The table after [save_threads]: every thread holds the records given
    for it, in the order given, as the columns keep them. *)
Lemma sql_save_threads_thread_emails (m : gmap string (list email)) (db : db_state)
    (t : string) :
  bindable_threads m →
  thread_emails t (rows (SQLiteStorageProvider.save_threads m db).2)
  = SQL.stored_as <$> default [] (m !! t).
Proof.
  intros Hm. rewrite (sql_save_threads_bindable m db Hm). cbn [snd].
  rewrite insert_threads_thread_emails by apply NoDup_fst_map_to_list.
  by rewrite list_to_map_to_list.
Qed.

Lemma email_of_row_sorted (l : list row) :
  StronglySorted row_ts_le l → StronglySorted ts_le (SQL.email_of_row <$> l).
Proof. apply StronglySorted_fmap. by intros r1 r2. Qed.

Lemma stored_as_sorted (h : list email) :
  StronglySorted ts_le h → StronglySorted ts_le (SQL.stored_as <$> h).
Proof.
  apply StronglySorted_fmap. intros x y. unfold ts_le. by rewrite !stored_as_timestamp.
Qed.

(** What [load_threads] answers for a thread, in terms of the table. *)
Lemma sql_load_threads_lookup (db : db_state) (t : string) :
  default [] ((SQLiteStorageProvider.load_threads db).1 !! t)
  = SQL.email_of_row <$> SQL.order_by SQL.by_timestamp (SQL.where_thread t (rows db)) ∧
  ((SQLiteStorageProvider.load_threads db).1 !! t = None ↔ SQL.where_thread t (rows db) = []).
Proof.
  unfold SQLiteStorageProvider.load_threads. cbn [fst].
  pose proof (group_rows_same_threads
                (SQL.order_by SQL.by_thread_id_timestamp (rows db))) as Hsame.
  set (loaded := foldl SQLiteStorageProvider.group_row ∅ _) in *.
  assert (Hgroup : thread_emails t (SQL.order_by SQL.by_thread_id_timestamp (rows db))
                   = SQL.email_of_row <$>
                       SQL.order_by SQL.by_timestamp (SQL.where_thread t (rows db))).
  { unfold thread_emails. by rewrite where_thread_order_by. }
  split; [by rewrite (proj1 Hsame t) |].
  assert (Hnil : SQL.order_by SQL.by_timestamp (SQL.where_thread t (rows db)) = []
                 ↔ SQL.where_thread t (rows db) = []).
  { split; intros Hn.
    - apply Permutation_nil_r. rewrite <- Hn. symmetry. apply order_by_perm.
    - by rewrite Hn. }
  rewrite <- Hnil. split.
  - intros Hnone. pose proof (proj1 Hsame t) as Heq. rewrite Hnone, Hgroup in Heq.
    simpl in Heq. symmetry in Heq. by apply fmap_nil_inv in Heq.
  - intros Hempty. destruct (loaded !! t) as [h|] eqn:Hl; [| done].
    pose proof (proj1 Hsame t) as Heq. rewrite Hl, Hgroup, Hempty in Heq. simpl in Heq.
    subst h. by destruct (proj2 Hsame t [] Hl).
Qed.

(** X2.  Let every record of the dict carry a uid that [sqlite3] can
    bind (a signed integer of 64 bits, or none).  Then [save_threads]
    followed by [load_threads] on the SQLite provider gives the saved dict
    back up to three changes: a thread saved with no record is gone, every
    record comes back with all the keys of a row (a key it lacked holds the
    default of the [INSERT]), and each thread comes back in ascending order
    of timestamp -- in the order saved when that was ascending already.
    [get_thread_history] then answers the first [MAX_THREAD_HISTORY] records
    of that order.  With a record that cannot be bound, [save_threads]
    answers [False] and the table holds the rows it held before. *)
Theorem sqlite_save_threads_load_threads (MAX_THREAD_HISTORY : nat)
    (m : gmap string (list email)) (db : db_state) (t : string) :
  let saved := SQLiteStorageProvider.save_threads m db in
  let loaded := (SQLiteStorageProvider.load_threads saved.2).1 in
  (bindable_threads m →
   saved.1 = true ∧
   default [] (loaded !! t) ≡ₚ SQL.stored_as <$> default [] (m !! t) ∧
   StronglySorted ts_le (default [] (loaded !! t)) ∧
   (loaded !! t = None ↔ default [] (m !! t) = []) ∧
   (StronglySorted ts_le (default [] (m !! t)) →
    default [] (loaded !! t) = SQL.stored_as <$> default [] (m !! t) ∧
    (SQLiteStorageProvider.get_thread_history MAX_THREAD_HISTORY t saved.2).1
    = if decide (t = "") then []
      else take MAX_THREAD_HISTORY (SQL.stored_as <$> default [] (m !! t)))) ∧
  (¬ bindable_threads m → saved.1 = false ∧ rows saved.2 = rows db).
Proof.
  intros saved loaded. split.
  2: { intros Hm. subst saved. by rewrite (sql_save_threads_refused m db Hm). }
  intros Hm. split; [subst saved; by rewrite (sql_save_threads_bindable m db Hm) |].
  destruct (sql_load_threads_lookup saved.2 t) as [Hlookup Hnone].
  pose proof (sql_save_threads_thread_emails m db t Hm) as Hrows.
  fold saved in Hrows. fold loaded in Hlookup, Hnone.
  assert (Hperm : SQL.email_of_row <$>
                    SQL.order_by SQL.by_timestamp (SQL.where_thread t (rows saved.2))
                  ≡ₚ SQL.stored_as <$> default [] (m !! t)).
  { rewrite <- Hrows. unfold thread_emails. apply fmap_Permutation, order_by_perm. }
  split; [by rewrite Hlookup |]. split.
  { rewrite Hlookup. apply email_of_row_sorted, order_by_timestamp_sorted. }
  split.
  { rewrite Hnone, <- thread_emails_nil, Hrows. split.
    - apply fmap_nil_inv.
    - by intros ->. }
  intros Hsorted.
  assert (Hid : SQL.order_by SQL.by_timestamp (SQL.where_thread t (rows saved.2))
                = SQL.where_thread t (rows saved.2)).
  { apply order_by_sorted_id, thread_emails_sorted. rewrite Hrows.
    by apply stored_as_sorted. }
  split.
  - rewrite Hlookup, Hid. exact Hrows.
  - unfold SQLiteStorageProvider.get_thread_history. case_decide; [done |]. cbn [fst].
    rewrite Hid, fmap_take. by fold (thread_emails t (rows saved.2)); rewrite Hrows.
Qed.

Lemma sqlite_save_threads_load_threads_witness :
  bindable_threads {["t1" := [Sample.A; Sample.B; Sample.C]; "t2" := []]} ∧
  StronglySorted ts_le [Sample.A; Sample.B; Sample.C] ∧
  (SQLiteStorageProvider.load_threads
     (SQLiteStorageProvider.save_threads
        {["t1" := [Sample.A; Sample.B; Sample.C]; "t2" := []]} Sample.empty_db).2).1 !! "t1"
  = Some [Sample.A; Sample.B; Sample.C] ∧
  (SQLiteStorageProvider.load_threads
     (SQLiteStorageProvider.save_threads
        {["t1" := [Sample.A; Sample.B; Sample.C]; "t2" := []]} Sample.empty_db).2).1 !! "t2"
  = None ∧
  (SQLiteStorageProvider.get_thread_history 2 "t1"
     (SQLiteStorageProvider.save_threads
        {["t1" := [Sample.A; Sample.B; Sample.C]; "t2" := []]} Sample.empty_db).2).1
  = [Sample.A; Sample.B].
Proof.
  assert (Hbind : bindable_threads {["t1" := [Sample.A; Sample.B; Sample.C]; "t2" := []]}).
  { apply bindable_threads_insert; [by repeat constructor |].
    by apply bindable_threads_singleton. }
  assert (Hsorted : StronglySorted ts_le [Sample.A; Sample.B; Sample.C]).
  { repeat constructor. }
  split; [exact Hbind |]. split; [exact Hsorted |].
  destruct (sqlite_save_threads_load_threads 2
              {["t1" := [Sample.A; Sample.B; Sample.C]; "t2" := []]}
              Sample.empty_db "t1") as [Hsaved1 _].
  destruct (Hsaved1 Hbind) as (_ & _ & _ & _ & H1).
  destruct (sqlite_save_threads_load_threads 2
              {["t1" := [Sample.A; Sample.B; Sample.C]; "t2" := []]}
              Sample.empty_db "t2") as [Hsaved2 _].
  destruct (Hsaved2 Hbind) as (_ & _ & _ & H2 & _).
  split; [by vm_compute | split; [by apply H2 |]].
  by destruct (H1 Hsorted) as [_ ->].
Defined.

(** ** One call of [add_email_to_thread], from any stored state *)

Lemma sql_add_email_to_thread_other (MAX_THREAD_HISTORY : nat) (thread_id t : string)
    (e : email) (db : db_state) :
  t ≠ thread_id →
  SQL.where_thread t (rows (SQLiteStorageProvider.add_email_to_thread
                              MAX_THREAD_HISTORY thread_id e db).2)
  = SQL.where_thread t (rows db).
Proof.
  intros Hne. unfold SQLiteStorageProvider.add_email_to_thread, SQL.execute_insert.
  case_decide; [done |]. destruct (SQL.bindable e); [| done].
  assert (Hins : SQL.where_thread t (rows (SQL.insert thread_id e (SQL.connect db)))
                 = SQL.where_thread t (rows db)).
  { unfold SQL.insert, SQL.connect. cbn [rows]. rewrite where_thread_app.
    unfold SQL.where_thread at 2. rewrite filter_cons, filter_nil. simpl.
    rewrite decide_False by congruence. by rewrite app_nil_r. }
  case_decide; cbn [snd rows]; [| exact Hins].
  by rewrite delete_oldest_other.
Qed.

(** X3.  Appending to one thread leaves every other thread as it was: on
    each provider, what [get_thread_history] answers for another thread id
    is the same before and after the call. *)
Theorem add_email_to_thread_other_threads (MAX_THREAD_HISTORY : nat) (file_path : string)
    (now : Z) (thread_id t : string) (e : email) :
  t ≠ thread_id →
  (∀ fs,
     (JSONStorageProvider.get_thread_history file_path now t
        (JSONStorageProvider.add_email_to_thread
           file_path MAX_THREAD_HISTORY now thread_id e fs).2).1
     = (JSONStorageProvider.get_thread_history file_path now t fs).1) ∧
  (∀ db,
     (SQLiteStorageProvider.get_thread_history MAX_THREAD_HISTORY t
        (SQLiteStorageProvider.add_email_to_thread MAX_THREAD_HISTORY thread_id e db).2).1
     = (SQLiteStorageProvider.get_thread_history MAX_THREAD_HISTORY t db).1) ∧
  (∀ st,
     (MockStorageProvider.get_thread_history t
        (MockStorageProvider.add_email_to_thread MAX_THREAD_HISTORY thread_id e st).2).1
     = (MockStorageProvider.get_thread_history t st).1).
Proof.
  intros Hne. split_and!.
  - intros fs. rewrite !json_get_thread_history_file_threads.
    case_decide; [done |].
    destruct (decide (thread_id = "")) as [->|Hid].
    + unfold JSONStorageProvider.add_email_to_thread. by rewrite decide_True.
    + rewrite (proj2 (json_add_email_to_thread_step file_path MAX_THREAD_HISTORY now
                        thread_id e fs Hid)).
      rewrite append_and_trim_lookup. by rewrite decide_False by congruence.
  - intros db. unfold SQLiteStorageProvider.get_thread_history.
    case_decide; [done |]. cbn [fst].
    by rewrite sql_add_email_to_thread_other.
  - intros st. unfold MockStorageProvider.get_thread_history. cbn [fst].
    rewrite (proj2 (mock_add_email_to_thread_step MAX_THREAD_HISTORY thread_id e st)).
    unfold MockStorageProvider.tick. cbn [threads].
    rewrite append_and_trim_lookup. by rewrite decide_False by congruence.
Qed.

Lemma add_email_to_thread_other_threads_witness :
  "t1" ≠ "t2" ∧
  (SQLiteStorageProvider.get_thread_history 2 "t1"
     (SQLiteStorageProvider.add_email_to_thread 2 "t2" Sample.C
        (Appends.sqlite 2 [("t1", Sample.A); ("t1", Sample.B)] Sample.empty_db)).2).1
  = [Sample.A; Sample.B].
Proof.
  assert (Hne : "t1" ≠ "t2") by discriminate.
  split; [exact Hne |].
  destruct (add_email_to_thread_other_threads 2 "email_threads.json" 0 "t2" "t1"
              Sample.C Hne) as (_ & Hsql & _).
  rewrite Hsql. reflexivity.
Defined.







(** ** The JSON file: damaged files and failed saves *)

Lemma append_inj_l (s a b : string) : s +:+ a = s +:+ b → a = b.
Proof. induction s as [|c s IH]; simpl; [done |]. intros [= Heq]. by apply IH. Qed.

Lemma backup_name_ne_temp_file (file_path : string) (now : Z) :
  JSONStorageProvider.backup_name file_path now ≠ JSONStorageProvider.temp_file file_path.
Proof.
  unfold JSONStorageProvider.backup_name, JSONStorageProvider.temp_file.
  intros Heq%append_inj_l. simpl in Heq. discriminate Heq.
Qed.

Lemma last_n_singleton {A} (n : nat) (x : A) : Py.last_n n [x] = [x].
Proof.
  unfold Py.last_n. case_decide; [done |]. simpl.
  by replace (1 - n) with 0 by lia.
Qed.

(** The files after an append, in terms of the files [load_threads]
    leaves. *)
Lemma json_add_email_to_thread_files (file_path : string) (MAX_THREAD_HISTORY : nat)
    (now : Z) (thread_id : string) (e : email) (fs : fs_state) :
  thread_id ≠ "" →
  files (JSONStorageProvider.add_email_to_thread
           file_path MAX_THREAD_HISTORY now thread_id e fs).2
  = <[file_path := Doc (append_and_trim MAX_THREAD_HISTORY thread_id e
                          (file_threads file_path fs))]>
      (delete (JSONStorageProvider.temp_file file_path)
         (files (JSONStorageProvider.load_threads file_path now fs).2)).
Proof.
  intros Hid. unfold JSONStorageProvider.add_email_to_thread.
  rewrite decide_False by done.
  pose proof (proj1 (load_threads_file_threads file_path now fs)) as Hload.
  destruct (JSONStorageProvider.load_threads file_path now fs) as [m fs1].
  simpl in Hload. subst m. cbn [snd]. apply save_threads_files.
Qed.

(** X6.  An append on a damaged thread file.  When the file holds text
    that [json.load] rejects, the append succeeds: the file is first renamed
    to its backup name, and a new file is written that holds the appended
    record and nothing else.  When reading the file fails for another
    reason, the append succeeds as well and the new file, with that one
    record, takes the place of the old one: no other file is created or
    changed, so nothing keeps the former content. *)
Theorem add_email_to_thread_on_damaged_file (MAX_THREAD_HISTORY : nat) (file_path : string)
    (now : Z) (thread_id : string) (e : email) (fs : fs_state) (raw : string) :
  thread_id ≠ "" →
  let r := JSONStorageProvider.add_email_to_thread
             file_path MAX_THREAD_HISTORY now thread_id e fs in
  (files fs !! file_path = Some (Malformed raw) →
   r.1 = true ∧
   files r.2 !! file_path = Some (Doc {[thread_id := [e]]}) ∧
   files r.2 !! (file_path +:+ ".backup_" +:+ pretty now) = Some (Malformed raw)) ∧
  (files fs !! file_path = Some (Unreadable raw) →
   r.1 = true ∧
   files r.2 !! file_path = Some (Doc {[thread_id := [e]]}) ∧
   ∀ p, p ≠ file_path → p ≠ file_path +:+ ".tmp" → files r.2 !! p = files fs !! p).
Proof.
  intros Hid r.
  pose proof (json_add_email_to_thread_step file_path MAX_THREAD_HISTORY now
                thread_id e fs Hid) as [Hok _]. fold r in Hok.
  pose proof (json_add_email_to_thread_files file_path MAX_THREAD_HISTORY now
                thread_id e fs Hid) as Hfiles. fold r in Hfiles.
  assert (Hnew : ∀ c, files fs !! file_path = Some c → (∀ m, c ≠ Doc m) →
            append_and_trim MAX_THREAD_HISTORY thread_id e (file_threads file_path fs)
            = {[thread_id := [e]]}).
  { intros c Hc Hnodoc. rewrite append_and_trim_insert. unfold file_threads. rewrite Hc.
    destruct c as [m| |]; [by destruct (Hnodoc m) | |];
      by rewrite lookup_empty, app_nil_l, last_n_singleton. }
  split; intros Hfile.
  - split; [exact Hok |]. rewrite Hfiles, (Hnew _ Hfile) by done.
    split; [by rewrite lookup_insert_eq |].
    pose proof (backup_name_ne file_path now) as Hb.
    pose proof (backup_name_ne_temp_file file_path now) as Hbt.
    unfold JSONStorageProvider.backup_name, JSONStorageProvider.temp_file in *.
    rewrite lookup_insert_ne by done. rewrite lookup_delete_ne by done.
    unfold JSONStorageProvider.load_threads, JSONStorageProvider.load_threads_with.
    rewrite Hfile. cbn [snd]. unfold OS.rename, OS.move. cbn [files OS.log].
    rewrite Hfile. by rewrite lookup_insert_eq.
  - split; [exact Hok |]. rewrite Hfiles, (Hnew _ Hfile) by done.
    split; [by rewrite lookup_insert_eq |].
    intros p Hp Htmp. rewrite lookup_insert_ne by done.
    unfold JSONStorageProvider.temp_file. rewrite lookup_delete_ne by done.
    unfold JSONStorageProvider.load_threads, JSONStorageProvider.load_threads_with.
    by rewrite Hfile.
Qed.

Lemma add_email_to_thread_on_damaged_file_witness :
  "t1" ≠ "" ∧
  files (FS {["email_threads.json" := Malformed "{not json"]} []) !! "email_threads.json"
    = Some (Malformed "{not json") ∧
  files (JSONStorageProvider.add_email_to_thread "email_threads.json" 5 1709294400 "t1"
           Sample.A (FS {["email_threads.json" := Malformed "{not json"]} [])).2
    !! "email_threads.json" = Some (Doc {["t1" := [Sample.A]]}) ∧
  files (JSONStorageProvider.add_email_to_thread "email_threads.json" 5 1709294400 "t1"
           Sample.A (FS {["email_threads.json" := Malformed "{not json"]} [])).2
    !! "email_threads.json.backup_1709294400" = Some (Malformed "{not json").
Proof.
  assert (Hid : "t1" ≠ "") by discriminate.
  assert (Hfile : files (FS {["email_threads.json" := Malformed "{not json"]} [])
                    !! "email_threads.json" = Some (Malformed "{not json"))
    by reflexivity.
  split; [exact Hid |]. split; [exact Hfile |].
  destruct (add_email_to_thread_on_damaged_file 5 "email_threads.json" 1709294400 "t1"
              Sample.A (FS {["email_threads.json" := Malformed "{not json"]} [])
              "{not json" Hid) as [Hmalformed _].
  destruct (Hmalformed Hfile) as (_ & Hnew & Hbackup).
  split; [exact Hnew | exact Hbackup].
Defined.

(** [save_threads] hit by a fault during the write: it answers [False] and
    the thread file is as before. *)
Lemma save_threads_with_fault (file_path : string) (f : fault) (cleanup_fails : bool)
    (m : gmap string (list email)) (fs : fs_state) :
  during_write f = true →
  (JSONStorageProvider.save_threads_with file_path f cleanup_fails m fs).1 = false ∧
  files (JSONStorageProvider.save_threads_with file_path f cleanup_fails m fs).2 !! file_path
  = files fs !! file_path.
Proof.
  intros Hf. pose proof (temp_file_ne file_path) as Hne.
  assert (Hgen : ∀ fs0, files fs0 !! file_path = files fs !! file_path →
            (JSONStorageProvider.save_failed file_path cleanup_fails fs0).1 = false ∧
            files (JSONStorageProvider.save_failed file_path cleanup_fails fs0).2 !! file_path
            = files fs !! file_path).
  { intros fs0 Hfs0.
    destruct (save_failed_files file_path cleanup_fails fs0 file_path) as (H1 & H2 & _).
    split; [exact H1 |]. rewrite <- Hfs0. apply H2. done. }
  destruct f as [| |partial| |]; try discriminate Hf;
    unfold JSONStorageProvider.save_threads_with; apply Hgen;
    simpl; by rewrite ?lookup_insert_ne.
Qed.

Lemma file_threads_same_file (file_path : string) (fs fs' : fs_state) :
  files fs' !! file_path = files fs !! file_path →
  file_threads file_path fs' = file_threads file_path fs.
Proof. unfold file_threads. by intros ->. Qed.

(** Without a fault the two are the methods themselves. *)
Lemma add_email_to_thread_with_no_fault (file_path : string) (MAX_THREAD_HISTORY : nat)
    (now : Z) (thread_id : string) (e : email) (fs : fs_state) :
  JSONStorageProvider.add_email_to_thread_with
    file_path MAX_THREAD_HISTORY now NoFault false thread_id e fs
  = JSONStorageProvider.add_email_to_thread file_path MAX_THREAD_HISTORY now thread_id e fs.
Proof.
  unfold JSONStorageProvider.add_email_to_thread_with,
    JSONStorageProvider.add_email_to_thread.
  case_decide; [done |].
  destruct (JSONStorageProvider.load_threads file_path now fs) as [m fs1]. done.
Qed.

Lemma cleanup_old_threads_with_no_fault (file_path : string) (now : Z)
    (iso_days_ago : Z → option string) (days_old : Z) (fs : fs_state) :
  JSONStorageProvider.cleanup_old_threads_with
    file_path now iso_days_ago NoFault false days_old fs
  = JSONStorageProvider.cleanup_old_threads file_path now iso_days_ago days_old fs.
Proof. done. Qed.

(** X7.  When the [save_threads] inside an append or a cleanup is hit by
    an exception during the write, the append answers [False], the cleanup
    answers 0, and what [load_threads] returns afterwards is what it
    returned before: the record is not stored, no thread is removed. *)
Theorem failed_save_changes_nothing (file_path : string) (MAX_THREAD_HISTORY : nat)
    (now : Z) (iso_days_ago : Z → option string) (f : fault) (cleanup_fails : bool)
    (fs : fs_state) :
  during_write f = true →
  (∀ thread_id e,
     let r := JSONStorageProvider.add_email_to_thread_with
                file_path MAX_THREAD_HISTORY now f cleanup_fails thread_id e fs in
     r.1 = false ∧
     (JSONStorageProvider.load_threads file_path now r.2).1
     = (JSONStorageProvider.load_threads file_path now fs).1) ∧
  (∀ days_old,
     let r := JSONStorageProvider.cleanup_old_threads_with
                file_path now iso_days_ago f cleanup_fails days_old fs in
     r.1 = 0 ∧
     (JSONStorageProvider.load_threads file_path now r.2).1
     = (JSONStorageProvider.load_threads file_path now fs).1).
Proof.
  intros Hf.
  destruct (load_threads_file_threads file_path now fs) as [Hload Hview].
  split.
  - intros thread_id e r. subst r.
    unfold JSONStorageProvider.add_email_to_thread_with.
    case_decide; [done |].
    destruct (JSONStorageProvider.load_threads file_path now fs) as [m fs1].
    simpl in Hload, Hview.
    destruct (save_threads_with_fault file_path f cleanup_fails
                (append_and_trim MAX_THREAD_HISTORY thread_id e m) fs1 Hf) as [Hfalse Hsame].
    destruct (JSONStorageProvider.save_threads_with file_path f cleanup_fails _ fs1)
      as [ok fs2].
    simpl in Hfalse, Hsame. subst ok. cbn [fst snd]. split; [done |].
    rewrite (proj1 (load_threads_file_threads file_path now fs2)).
    rewrite (file_threads_same_file _ _ _ Hsame). by rewrite Hview.
  - intros days_old r. subst r.
    unfold JSONStorageProvider.cleanup_old_threads_with.
    destruct (JSONStorageProvider.load_threads file_path now fs) as [m fs1].
    simpl in Hload, Hview.
    assert (Hfs1 : (JSONStorageProvider.load_threads file_path now fs1).1 = m).
    { rewrite (proj1 (load_threads_file_threads file_path now fs1)). by rewrite Hview. }
    case_decide; [done |].
    destruct (iso_days_ago days_old) as [cutoff_iso|]; [| done].
    case_decide as Hpos; cbn [fst snd].
    2: { split; [| exact Hfs1]. apply Nat.nlt_ge in Hpos. by apply Nat.le_0_r. }
    match goal with
    | |- context [JSONStorageProvider.save_threads_with _ _ _ ?m' _] =>
      destruct (save_threads_with_fault file_path f cleanup_fails m' fs1 Hf)
        as [Hfalse Hsame];
      destruct (JSONStorageProvider.save_threads_with file_path f cleanup_fails m' fs1)
        as [ok fs2]
    end.
    simpl in Hfalse, Hsame. subst ok. cbn [fst snd]. split; [done |].
    rewrite (proj1 (load_threads_file_threads file_path now fs2)).
    rewrite (file_threads_same_file _ _ _ Hsame). by rewrite Hview.
Qed.

Lemma failed_save_changes_nothing_witness :
  during_write ReplaceFails = true ∧
  JSONStorageProvider.add_email_to_thread_with "email_threads.json" 5 0 ReplaceFails false
    "t1" Sample.B (FS {["email_threads.json" := Doc {["t1" := [Sample.A]]}]} [])
  = (false,
     FS {["email_threads.json" := Doc {["t1" := [Sample.A]]}]}
        [EvExists "email_threads.json"; EvGetsize "email_threads.json";
         EvRead "email_threads.json"; EvOpenW "email_threads.json.tmp";
         EvWrite "email_threads.json.tmp";
         EvReplace "email_threads.json.tmp" "email_threads.json";
         EvExists "email_threads.json.tmp"; EvRemove "email_threads.json.tmp"]) ∧
  (JSONStorageProvider.load_threads "email_threads.json" 0
     (JSONStorageProvider.add_email_to_thread_with "email_threads.json" 5 0 ReplaceFails false
        "t1" Sample.B (FS {["email_threads.json" := Doc {["t1" := [Sample.A]]}]} [])).2).1
  = {["t1" := [Sample.A]]}.
Proof.
  split; [reflexivity |]. split; [by vm_compute |].
  destruct (failed_save_changes_nothing "email_threads.json" 5 0 Sample.iso_days_ago
              ReplaceFails false
              (FS {["email_threads.json" := Doc {["t1" := [Sample.A]]}]} []) eq_refl)
    as [Hadd _].
  destruct (Hadd "t1" Sample.B) as [_ Hsame]. rewrite Hsame. reflexivity.
Defined.

(** ** A cleanup after a cleanup *)











(** ** The counters of [get_storage_stats] *)

Lemma count_emails_split (p : email → bool) (m : gmap string (list email)) :
  count_emails p m + count_emails (λ e, negb (p e)) m = count_emails (λ _, true) m.
Proof.
  unfold count_emails. induction (map_to_list m) as [|kv l IH]; [done |].
  rewrite !fmap_cons. cbn [sum_list sum_list_with]. rewrite <- IH.
  assert (Hone : length (filter (λ e, p e = true) kv.2)
                 + length (filter (λ e, negb (p e) = true) kv.2)
                 = length (filter (λ _ : email, true = true) kv.2)).
  { rewrite (filter_all (λ _ : email, true = true)) by (by apply Forall_true).
    rewrite length_filter_negb. pose proof (length_filter (λ e, p e = true) kv.2). lia. }
  unfold id. lia.
Qed.

Lemma count_threads_le (p : list email → bool) (m : gmap string (list email)) :
  count_threads p m ≤ size m.
Proof.
  unfold count_threads. rewrite <- (length_map_to_list m). apply length_filter.
Qed.

Lemma count_groups_le (p : list row → bool) (l : list row) :
  SQLiteStorageProvider.count_groups p l ≤ length (SQL.distinct_thread_ids l).
Proof. unfold SQLiteStorageProvider.count_groups. apply length_filter. Qed.

Lemma length_remove_dups {A} `{EqDecision A} (l : list A) :
  length (remove_dups l) ≤ length l.
Proof.
  induction l as [|x l IH]; [done |]. simpl.
  destruct (decide_rel (∈) x l); simpl; lia.
Qed.

(** X9.  Whatever is stored, the counters a provider reports agree with
    each other: the bot replies and the user emails add up to the emails,
    and neither the threads with more than one email nor the threads at the
    cap outnumber the threads.  On the table, where a thread is the rows
    that name it, there are moreover at least as many emails as threads. *)
Theorem get_storage_stats_consistent (MAX_THREAD_HISTORY : nat) (file_path : string)
    (now : Z) :
  (∀ fs,
     let s := (JSONStorageProvider.get_storage_stats file_path MAX_THREAD_HISTORY now fs).1 in
     bot_replies s + user_emails s = total_emails s ∧
     threads_with_history s ≤ total_threads s ∧
     threads_at_limit s ≤ total_threads s) ∧
  (∀ st,
     let s := (MockStorageProvider.get_storage_stats MAX_THREAD_HISTORY st).1 in
     bot_replies s + user_emails s = total_emails s ∧
     threads_with_history s ≤ total_threads s ∧
     threads_at_limit s ≤ total_threads s) ∧
  (∀ db,
     let s := (SQLiteStorageProvider.get_storage_stats MAX_THREAD_HISTORY db).1 in
     bot_replies s + user_emails s = total_emails s ∧
     threads_with_history s ≤ total_threads s ∧
     threads_at_limit s ≤ total_threads s ∧
     total_threads s ≤ total_emails s).
Proof.
  assert (Hmock : ∀ st,
     let s := (MockStorageProvider.get_storage_stats MAX_THREAD_HISTORY st).1 in
     bot_replies s + user_emails s = total_emails s ∧
     threads_with_history s ≤ total_threads s ∧
     threads_at_limit s ≤ total_threads s).
  { intros st. cbn. split_and!.
    - apply count_emails_split.
    - apply count_threads_le.
    - apply count_threads_le. }
  split_and!.
  - intros fs s. subst s.
    pose proof (stats_same_dict file_path MAX_THREAD_HISTORY now fs
                  (Mock (file_threads file_path fs) 0) eq_refl) as Heq.
    cbn [Calls.rounded] in Heq. injection Heq as ->.
    exact (Hmock (Mock (file_threads file_path fs) 0)).
  - exact Hmock.
  - intros db. cbn. split_and!.
    + pose proof (length_filter (λ r, row_is_bot_reply r = true) (rows db)). lia.
    + apply count_groups_le.
    + apply count_groups_le.
    + unfold SQL.distinct_thread_ids.
      etrans; [apply length_remove_dups |]. by rewrite length_fmap.
Qed.

(** ** The cap, call after call *)

Lemma within_cap_empty (MAX_THREAD_HISTORY : nat) : within_cap MAX_THREAD_HISTORY ∅.
Proof. intros t h Hl. by rewrite lookup_empty in Hl. Qed.

Lemma within_cap_append (MAX_THREAD_HISTORY : nat) (thread_id : string) (e : email)
    (m : gmap string (list email)) :
  1 ≤ MAX_THREAD_HISTORY → within_cap MAX_THREAD_HISTORY m →
  within_cap MAX_THREAD_HISTORY (append_and_trim MAX_THREAD_HISTORY thread_id e m).
Proof.
  intros HH Hm t h. rewrite append_and_trim_insert.
  destruct (decide (thread_id = t)) as [->|Hne].
  - rewrite lookup_insert_eq. intros [= <-]. split; [| by apply last_n_bound].
    pose proof (last_n_snoc_nonempty MAX_THREAD_HISTORY (default [] (m !! t)) e HH).
    destruct (Py.last_n _ _); [done | simpl; lia].
  - rewrite lookup_insert_ne by done. exact (Hm t h).
Qed.

Lemma within_cap_filter (MAX_THREAD_HISTORY : nat) (P : string * list email → Prop)
    `{∀ kv, Decision (P kv)} (m : gmap string (list email)) :
  within_cap MAX_THREAD_HISTORY m → within_cap MAX_THREAD_HISTORY (filter P m).
Proof. intros Hm t h [Hl _]%map_lookup_filter_Some. exact (Hm t h Hl). Qed.

Lemma sum_list_bounds (lo hi : nat) (l : list nat) :
  Forall (λ n, lo ≤ n ∧ n ≤ hi) l →
  lo * length l ≤ sum_list l ∧ sum_list l ≤ hi * length l.
Proof.
  induction 1 as [|n l [Hlo Hhi] _ [IHlo IHhi]]; simpl; [lia |]. nia.
Qed.

Lemma within_cap_count (MAX_THREAD_HISTORY : nat) (m : gmap string (list email)) :
  within_cap MAX_THREAD_HISTORY m →
  size m ≤ count_emails (λ _, true) m ∧
  count_emails (λ _, true) m ≤ MAX_THREAD_HISTORY * size m.
Proof.
  intros Hm. unfold count_emails. rewrite <- (length_map_to_list m).
  rewrite <- (length_fmap (λ kv : string * list email,
                 length (filter (λ _ : email, true = true) kv.2)) (map_to_list m)).
  pose proof (sum_list_bounds 1 MAX_THREAD_HISTORY
                ((λ kv : string * list email,
                    length (filter (λ _ : email, true = true) kv.2)) <$> map_to_list m))
    as Hsum.
  rewrite Nat.mul_1_l in Hsum. apply Hsum.
  apply Forall_fmap, Forall_forall. intros [t h] Hin%elem_of_map_to_list. simpl.
  rewrite filter_all by (by apply Forall_true). exact (Hm t h Hin).
Qed.

(** The reading methods of the JSON provider leave the threads of the file
    as they are. *)
Lemma json_get_thread_history_state (file_path : string) (now : Z) (t : string)
    (fs : fs_state) :
  file_threads file_path (JSONStorageProvider.get_thread_history file_path now t fs).2
  = file_threads file_path fs.
Proof.
  unfold JSONStorageProvider.get_thread_history. case_decide; [done |].
  pose proof (proj2 (load_threads_file_threads file_path now fs)) as Hview.
  by destruct (JSONStorageProvider.load_threads file_path now fs).
Qed.

Lemma json_get_storage_stats_state (file_path : string) (MAX_THREAD_HISTORY : nat) (now : Z)
    (fs : fs_state) :
  file_threads file_path
    (JSONStorageProvider.get_storage_stats file_path MAX_THREAD_HISTORY now fs).2
  = file_threads file_path fs.
Proof.
  unfold JSONStorageProvider.get_storage_stats.
  pose proof (proj2 (load_threads_file_threads file_path now fs)) as Hview.
  destruct (JSONStorageProvider.load_threads file_path now fs) as [m fs1].
  by case_decide.
Qed.

(** The rows of a thread once the oldest [k] have been deleted: as many
    fewer, whatever the timestamps. *)
Lemma delete_oldest_length (t : string) (k : nat) (l : list row) :
  NoDup (row_id <$> l) →
  length (SQL.where_thread t (SQLiteStorageProvider.delete_oldest t k l))
  = length (SQL.where_thread t l) - k.
Proof.
  intros Hnodup. unfold SQLiteStorageProvider.delete_oldest.
  rewrite where_thread_delete_same.
  set (g := SQL.where_thread t l).
  set (sorted := SQL.order_by SQL.by_timestamp g).
  assert (Hperm : sorted ≡ₚ g) by apply order_by_perm.
  rewrite <- (Permutation_length Hperm).
  rewrite <- (length_drop sorted k), <- (filter_out_prefix k sorted).
  - apply Permutation_length, filter_Permutation. by symmetry.
  - rewrite Hperm. by apply where_thread_nodup.
Qed.

Lemma sql_add_email_to_thread_db_ok (MAX_THREAD_HISTORY : nat) (thread_id : string)
    (e : email) (db : db_state) :
  db_ok db →
  db_ok (SQLiteStorageProvider.add_email_to_thread MAX_THREAD_HISTORY thread_id e db).2.
Proof.
  intros [Hnodup Hids]. unfold SQLiteStorageProvider.add_email_to_thread, SQL.execute_insert.
  case_decide; [done |]. destruct (SQL.bindable e); [| by split].
  set (new := SQL.row_of_email (S (last_rowid db)) thread_id e).
  assert (Hnodup' : NoDup (row_id <$> rows db ++ [new])).
  { rewrite fmap_app. apply NoDup_app. split_and!; [done | | repeat constructor; set_solver].
    intros i Hi ->%list_elem_of_singleton.
    apply list_elem_of_fmap in Hi as (r & Hr & Hin).
    eapply Forall_forall in Hids; [| exact Hin]. simpl in Hr. lia. }
  assert (Hids' : Forall (λ r, row_id r ≤ S (last_rowid db)) (rows db ++ [new])).
  { apply Forall_app. split; [| by repeat constructor].
    eapply Forall_impl; [exact Hids |]. simpl. lia. }
  case_decide; cbn [snd]; split; cbn [rows last_rowid SQL.insert SQL.connect];
    try done.
  - eapply sublist_NoDup; [exact Hnodup' |]. apply fmap_sublist, delete_oldest_sublist.
  - eapply forall_sublist; [| exact Hids']. apply delete_oldest_sublist.
Qed.

Lemma sql_add_email_to_thread_count (MAX_THREAD_HISTORY : nat) (thread_id : string)
    (e : email) (db : db_state) (t : string) :
  1 ≤ MAX_THREAD_HISTORY → db_ok db →
  length (SQL.where_thread t (rows db)) ≤ MAX_THREAD_HISTORY →
  length (SQL.where_thread t
            (rows (SQLiteStorageProvider.add_email_to_thread
                     MAX_THREAD_HISTORY thread_id e db).2)) ≤ MAX_THREAD_HISTORY.
Proof.
  intros HH Hok Hlen.
  destruct (decide (t = thread_id)) as [->|Hne];
    [| by rewrite sql_add_email_to_thread_other].
  pose proof (sql_add_email_to_thread_db_ok MAX_THREAD_HISTORY thread_id e db Hok) as Hok'.
  revert Hok'. unfold SQLiteStorageProvider.add_email_to_thread, SQL.execute_insert.
  case_decide; [done |]. destruct (SQL.bindable e); [| done].
  set (db1 := SQL.insert thread_id e (SQL.connect db)).
  case_decide as Hover; cbn [snd rows]; intros Hok'; [| lia].
  rewrite delete_oldest_length; [lia |].
  destruct Hok as [Hnodup Hids]. subst db1. unfold SQL.insert, SQL.connect. cbn [rows].
  rewrite fmap_app. apply NoDup_app. split_and!; [done | | repeat constructor; set_solver].
  intros i Hi ->%list_elem_of_singleton.
  apply list_elem_of_fmap in Hi as (r & Hr & Hin).
  eapply Forall_forall in Hids; [| exact Hin]. simpl in Hr. lia.
Qed.

Lemma sql_cleanup_old_threads_last_rowid (iso_days_ago : Z → option string) (days_old : Z)
    (db : db_state) :
  last_rowid (SQLiteStorageProvider.cleanup_old_threads iso_days_ago days_old db).2
  = last_rowid db.
Proof.
  unfold SQLiteStorageProvider.cleanup_old_threads.
  destruct (iso_days_ago days_old); [| done].
  by destruct (SQL.distinct_thread_ids _).
Qed.

Lemma sum_list_le (hi : nat) (l : list nat) :
  Forall (λ n, n ≤ hi) l → sum_list l ≤ hi * length l.
Proof. induction 1; simpl; [lia | nia]. Qed.

Lemma rows_count_le (MAX_THREAD_HISTORY : nat) (l : list row) :
  (∀ t, length (SQL.where_thread t l) ≤ MAX_THREAD_HISTORY) →
  length l ≤ MAX_THREAD_HISTORY * length (SQL.distinct_thread_ids l).
Proof.
  intros Hgroups.
  pose proof (sum_over_distinct_groups (λ _, True) l) as Hsum.
  rewrite (filter_all (λ _ : row, True)) in Hsum by (by apply Forall_true).
  rewrite <- Hsum.
  rewrite <- (length_fmap (λ t, length (filter (λ _ : row, True) (SQL.where_thread t l)))
                (SQL.distinct_thread_ids l)).
  apply sum_list_le, Forall_fmap, Forall_forall. intros t _. simpl.
  rewrite filter_all by (by apply Forall_true). apply Hgroups.
Qed.

Lemma sql_load_threads_within_cap (MAX_THREAD_HISTORY : nat) (db : db_state) :
  (∀ t, length (SQL.where_thread t (rows db)) ≤ MAX_THREAD_HISTORY) →
  within_cap MAX_THREAD_HISTORY (SQLiteStorageProvider.load_threads db).1.
Proof.
  intros Hgroups t h Hl.
  destruct (sql_load_threads_lookup db t) as [Hlookup Hnone].
  rewrite Hl in Hlookup. simpl in Hlookup.
  assert (Hlen : length h = length (SQL.where_thread t (rows db))).
  { rewrite Hlookup, length_fmap. apply Permutation_length, order_by_perm. }
  rewrite Hlen. split; [| apply Hgroups].
  destruct (SQL.where_thread t (rows db)) eqn:Hg; [| simpl; lia].
  rewrite (proj2 Hnone eq_refl) in Hl. discriminate Hl.
Qed.

Section Capped.

Variable MAX_THREAD_HISTORY : nat.
Variable now : Z.
Variable iso_days_ago : Z → option string.
Hypothesis cap_positive : 1 ≤ MAX_THREAD_HISTORY.

Lemma perform_capped (c : call) (s : storage) :
  capped MAX_THREAD_HISTORY s →
  respects_cap MAX_THREAD_HISTORY (Calls.perform MAX_THREAD_HISTORY now iso_days_ago c s).1 ∧
  capped MAX_THREAD_HISTORY (Calls.perform MAX_THREAD_HISTORY now iso_days_ago c s).2.
Proof.
  destruct s as [file_path fs|db|st]; intros Hs.
  - rewrite perform_json. simpl in Hs.
    destruct c as [now_iso t sender subject body uid is_bot_reply|t| |days_old|];
      cbn [fst snd respects_cap capped].
    + split; [done |]. destruct (decide (t = "")) as [->|Hid].
      * unfold JSONStorageProvider.add_email_to_thread. by rewrite decide_True.
      * rewrite (proj2 (json_add_email_to_thread_step file_path MAX_THREAD_HISTORY now
                          t _ fs Hid)).
        by apply within_cap_append.
    + rewrite json_get_thread_history_state. split; [| done].
      rewrite json_get_thread_history_file_threads. case_decide; [simpl; lia |].
      destruct (file_threads file_path fs !! t) as [h|] eqn:Hl; [| simpl; lia].
      exact (proj2 (Hs t h Hl)).
    + rewrite json_get_storage_stats_state. split; [| done].
      pose proof (stats_same_dict file_path MAX_THREAD_HISTORY now fs
                    (Mock (file_threads file_path fs) 0) eq_refl) as Heq.
      cbn [Calls.rounded] in Heq. injection Heq as ->.
      cbn. by apply within_cap_count.
    + split; [done |].
      rewrite (proj1 (json_cleanup_old_threads_spec file_path now iso_days_ago days_old fs)).
      by apply within_cap_filter.
    + destruct (load_threads_file_threads file_path now fs) as [-> ->]. by split.
  - rewrite perform_sqlite. destruct Hs as [Hok Hgroups].
    destruct c as [now_iso t sender subject body uid is_bot_reply|t| |days_old|];
      cbn [fst snd respects_cap capped].
    + split; [done |]. split; [by apply sql_add_email_to_thread_db_ok |].
      intros t'. by apply sql_add_email_to_thread_count.
    + unfold SQLiteStorageProvider.get_thread_history.
      case_decide; cbn [fst snd]; [by split; [simpl; lia |] |].
      split; [| by split].
      rewrite length_fmap, length_take. lia.
    + cbn. split; [| by split]. split.
      * unfold SQL.distinct_thread_ids.
        etrans; [apply length_remove_dups |]. by rewrite length_fmap.
      * by apply rows_count_le.
    + split; [done |].
      destruct (sql_cleanup_old_threads_spec iso_days_ago days_old db) as [Hrows _].
      pose proof (sql_cleanup_old_threads_last_rowid iso_days_ago days_old db) as Hlast.
      destruct Hok as [Hnodup Hids]. split; [split |].
      * rewrite Hrows. eapply sublist_NoDup; [exact Hnodup |].
        apply fmap_sublist, sublist_filter.
      * rewrite Hrows, Hlast. eapply forall_sublist; [| exact Hids]. apply sublist_filter.
      * intros t.
        pose proof (where_thread_filter_by_thread
                      (λ t', ¬ stale_at (iso_days_ago days_old) (rows db) t' = true)
                      t (rows db)) as Hwhere.
        cbv beta in Hwhere. rewrite <- Hrows in Hwhere. rewrite Hwhere.
        case_decide; [apply Hgroups | simpl; lia].
    + split; [by apply sql_load_threads_within_cap | by split].
  - rewrite perform_mock. simpl in Hs.
    destruct c as [now_iso t sender subject body uid is_bot_reply|t| |days_old|];
      cbn [fst snd respects_cap capped].
    + split; [done |].
      rewrite (proj2 (mock_add_email_to_thread_step MAX_THREAD_HISTORY t _ st)).
      by apply within_cap_append.
    + split; [| done]. unfold MockStorageProvider.get_thread_history. cbn [fst].
      destruct (threads st !! t) as [h|] eqn:Hl; [| simpl; lia].
      exact (proj2 (Hs t h Hl)).
    + split; [| done]. cbn. by apply within_cap_count.
    + split; [done |].
      rewrite (proj1 (mock_cleanup_old_threads_spec days_old st)).
      by apply within_cap_filter.
    + by split.
Qed.

End Capped.

Lemma empty_capped (MAX_THREAD_HISTORY : nat) (s : storage) :
  match s with
  | JSONStorage file_path fs => files fs !! file_path = None
  | SQLiteStorage db => rows db = []
  | MockStorage st => threads st = ∅
  end →
  capped MAX_THREAD_HISTORY s.
Proof.
  destruct s as [file_path fs|db|st]; simpl.
  - intros Hnone. unfold file_threads. rewrite Hnone. apply within_cap_empty.
  - intros Hempty. unfold db_ok. rewrite Hempty. simpl.
    split; [split; constructor |]. intros t. simpl. lia.
  - intros ->. apply within_cap_empty.
Qed.

(** X10.  The cap holds call after call.  Take any provider whose threads
    all hold between one and [MAX_THREAD_HISTORY] records -- an empty store
    is one -- and any sequence of calls of the module-level functions, with
    a cap of at least one.  Then every history returned is within the cap,
    every dict returned by [load_threads] has between one and
    [MAX_THREAD_HISTORY] records in each thread, and the counters returned
    satisfy [total_threads <= total_emails <= MAX_THREAD_HISTORY *
    total_threads].  On the table this needs nothing of the timestamps. *)
Theorem cap_kept_call_after_call (MAX_THREAD_HISTORY : nat) (now : Z)
    (iso_days_ago : Z → option string) (cs : list call) (s : storage) :
  1 ≤ MAX_THREAD_HISTORY →
  capped MAX_THREAD_HISTORY s →
  Forall (respects_cap MAX_THREAD_HISTORY)
         (Calls.run MAX_THREAD_HISTORY now iso_days_ago cs s).
Proof.
  intros HH. revert s.
  induction cs as [|c cs IH]; intros s Hs; cbn [Calls.run]; [constructor |].
  destruct (perform_capped MAX_THREAD_HISTORY now iso_days_ago HH c s Hs)
    as [Hanswer Hnext].
  destruct (Calls.perform MAX_THREAD_HISTORY now iso_days_ago c s) as [a s'].
  constructor; [exact Hanswer | by apply IH].
Qed.

Lemma cap_kept_call_after_call_witness :
  1 ≤ 2 ∧ capped 2 (SQLiteStorage Sample.empty_db) ∧
  Forall (respects_cap 2)
    (Calls.run 2 0 Sample.iso_days_ago
       [CallAdd "2024-03-01T12:59:58" "t1" "customer@test.com" "Product Question"
          "What are your specs?" (Some 101%Z) false;
        CallAdd "2024-03-01T12:00:05" "t1" "bot@company.com" "Re: Product Question"
          "Here are our specifications..." None true;
        CallAdd "2024-03-01T12:07:30" "t1" "customer@test.com" "Re: Product Question"
          "Thanks! What about pricing?" (Some 102%Z) false;
        CallHistory "t1"; CallStats; CallCleanup 30; CallLoad]
       (SQLiteStorage Sample.empty_db)).
Proof.
  assert (HH : 1 ≤ 2) by lia.
  assert (Hs : capped 2 (SQLiteStorage Sample.empty_db))
    by (split; [split; constructor | intros t; simpl; lia]).
  split; [exact HH |]. split; [exact Hs |].
  by apply cap_kept_call_after_call.
Defined.

(** ** Reading leaves no trace in later answers *)

Section SameContents.

Variable MAX_THREAD_HISTORY : nat.
Variable now : Z.
Variable iso_days_ago : Z → option string.

Lemma perform_same_contents (c : call) (s s' : storage) :
  same_contents s s' →
  (Calls.perform MAX_THREAD_HISTORY now iso_days_ago c s).1
  = (Calls.perform MAX_THREAD_HISTORY now iso_days_ago c s').1 ∧
  same_contents (Calls.perform MAX_THREAD_HISTORY now iso_days_ago c s).2
                (Calls.perform MAX_THREAD_HISTORY now iso_days_ago c s').2.
Proof.
  destruct s as [file_path fs|db|st], s' as [file_path' fs'|db'|st']; try done.
  - intros [<- Hsame]. rewrite !perform_json.
    destruct c as [now_iso t sender subject body uid is_bot_reply|t| |days_old|];
      cbn [fst snd same_contents].
    + destruct (decide (t = "")) as [->|Hid].
      * unfold JSONStorageProvider.add_email_to_thread. by rewrite !decide_True.
      * destruct (json_add_email_to_thread_step file_path MAX_THREAD_HISTORY now t
                    (ThreadManager.email_data now_iso sender subject body uid is_bot_reply)
                    fs Hid) as [-> ->].
        destruct (json_add_email_to_thread_step file_path MAX_THREAD_HISTORY now t
                    (ThreadManager.email_data now_iso sender subject body uid is_bot_reply)
                    fs' Hid) as [-> ->].
        by rewrite Hsame.
    + rewrite !json_get_thread_history_file_threads, !json_get_thread_history_state.
      by rewrite Hsame.
    + rewrite !json_get_storage_stats_state.
      pose proof (stats_same_dict file_path MAX_THREAD_HISTORY now fs
                    (Mock (file_threads file_path fs) 0) eq_refl) as Heq.
      pose proof (stats_same_dict file_path MAX_THREAD_HISTORY now fs'
                    (Mock (file_threads file_path fs) 0) Hsame) as Heq'.
      by rewrite Heq, Heq'.
    + destruct (json_cleanup_old_threads_spec file_path now iso_days_ago days_old fs)
        as [-> ->].
      destruct (json_cleanup_old_threads_spec file_path now iso_days_ago days_old fs')
        as [-> ->].
      by rewrite Hsame.
    + destruct (load_threads_file_threads file_path now fs) as [-> ->].
      destruct (load_threads_file_threads file_path now fs') as [-> ->].
      by rewrite Hsame.
  - destruct db as [l n k], db' as [l' n' k']. simpl. intros [<- <-].
    rewrite !perform_sqlite.
    destruct c as [now_iso t sender subject body uid is_bot_reply|t| |days_old|];
      cbn [fst snd same_contents].
    + unfold SQLiteStorageProvider.add_email_to_thread, SQL.execute_insert.
      case_decide; [done |]. destruct (SQL.bindable _); [| done].
      cbn [SQL.insert SQL.connect rows last_rowid connections].
      by case_decide.
    + unfold SQLiteStorageProvider.get_thread_history. by case_decide.
    + done.
    + unfold SQLiteStorageProvider.cleanup_old_threads.
      destruct (iso_days_ago days_old) as [cutoff_iso|]; [| done]. cbn [rows].
      by destruct (SQL.distinct_thread_ids _).
    + done.
  - destruct st as [m n], st' as [m' n']. simpl. intros <-.
    rewrite !perform_mock.
    by destruct c as [now_iso t sender subject body uid is_bot_reply|t| |days_old|].
Qed.

Lemma run_same_contents (cs : list call) (s s' : storage) :
  same_contents s s' →
  Calls.run MAX_THREAD_HISTORY now iso_days_ago cs s
  = Calls.run MAX_THREAD_HISTORY now iso_days_ago cs s'.
Proof.
  revert s s'. induction cs as [|c cs IH]; intros s s' Hsame; [done |].
  cbn [Calls.run].
  destruct (perform_same_contents c s s' Hsame) as [Hanswer Hnext].
  destruct (Calls.perform MAX_THREAD_HISTORY now iso_days_ago c s) as [a s1].
  destruct (Calls.perform MAX_THREAD_HISTORY now iso_days_ago c s') as [a' s1'].
  simpl in Hanswer, Hnext. subst a'. f_equal. by apply IH.
Qed.

Lemma read_same_contents (c : call) (s : storage) :
  match c with
  | CallHistory _ | CallStats | CallLoad => True
  | CallAdd _ _ _ _ _ _ _ | CallCleanup _ => False
  end →
  same_contents (Calls.perform MAX_THREAD_HISTORY now iso_days_ago c s).2 s.
Proof.
  destruct s as [file_path fs|db|st].
  - rewrite perform_json.
    destruct c as [now_iso t sender subject body uid is_bot_reply|t| |days_old|];
      try done; intros _; cbn [snd same_contents]; (split; [done |]).
    + apply json_get_thread_history_state.
    + apply json_get_storage_stats_state.
    + apply load_threads_file_threads.
  - rewrite perform_sqlite.
    destruct c as [now_iso t sender subject body uid is_bot_reply|t| |days_old|];
      try done; intros _; cbn [snd same_contents]; try done.
    unfold SQLiteStorageProvider.get_thread_history. by case_decide.
  - rewrite perform_mock.
    by destruct c as [now_iso t sender subject body uid is_bot_reply|t| |days_old|].
Qed.

End SameContents.

(** X11.  Reading leaves no trace in later answers.  Whatever the provider
    and whatever it stores, a call of [get_thread_history],
    [get_thread_stats] or [load_threads] changes none of the answers of the
    calls made after it: they are the answers the same calls would have got
    had the read not been made. *)
Theorem reads_leave_later_answers (MAX_THREAD_HISTORY : nat) (now : Z)
    (iso_days_ago : Z → option string) (cs : list call) (s : storage) :
  (∀ t,
     Calls.run MAX_THREAD_HISTORY now iso_days_ago cs
       (Calls.perform MAX_THREAD_HISTORY now iso_days_ago (CallHistory t) s).2
     = Calls.run MAX_THREAD_HISTORY now iso_days_ago cs s) ∧
  Calls.run MAX_THREAD_HISTORY now iso_days_ago cs
    (Calls.perform MAX_THREAD_HISTORY now iso_days_ago CallStats s).2
  = Calls.run MAX_THREAD_HISTORY now iso_days_ago cs s ∧
  Calls.run MAX_THREAD_HISTORY now iso_days_ago cs
    (Calls.perform MAX_THREAD_HISTORY now iso_days_ago CallLoad s).2
  = Calls.run MAX_THREAD_HISTORY now iso_days_ago cs s.
Proof.
  split_and!; [intros t | |]; apply run_same_contents;
    by apply read_same_contents.
Qed.

(** ** An append that is trimmed away at once *)

Lemma order_by_snoc_least (le : row → row → bool) (g : list row) (new : row) :
  Forall (λ r, le r new = false) g →
  ∃ rest, SQL.order_by le (g ++ [new]) = new :: rest.
Proof.
  unfold SQL.order_by. rewrite foldr_app. cbn [foldr SQL.insert_by].
  induction 1 as [|r g Hr _ [rest IH]]; cbn [foldr]; [by eexists |].
  rewrite IH. cbn [SQL.insert_by]. rewrite Hr. by eexists.
Qed.

(** X12.  On the SQLite provider, a record appended to a thread that is
    at the cap, with a timestamp older than those of all the rows the thread
    holds, is itself the row the trim deletes: when its uid is absent or a
    signed 64-bit integer the call answers [True] and the table holds the
    rows it held before.  With a uid outside that range the INSERT raises,
    the call answers [False], and the table holds the rows it held before as
    well. *)
Theorem sqlite_append_older_than_all (MAX_THREAD_HISTORY : nat) (thread_id : string)
    (e : email) (db : db_state) :
  thread_id ≠ "" → db_ok db →
  length (SQL.where_thread thread_id (rows db)) = MAX_THREAD_HISTORY →
  Forall (λ r, String.ltb (get_timestamp e) (row_timestamp r) = true)
         (SQL.where_thread thread_id (rows db)) →
  let r := SQLiteStorageProvider.add_email_to_thread MAX_THREAD_HISTORY thread_id e db in
  (SQL.bindable e = true → r.1 = true ∧ rows r.2 = rows db) ∧
  (SQL.bindable e = false → r.1 = false ∧ rows r.2 = rows db).
Proof.
  intros Hid [Hnodup Hids] Hfull Hnewer r. subst r.
  split; intros Hbind;
    [| by rewrite sql_add_email_to_thread_refused by done].
  unfold SQLiteStorageProvider.add_email_to_thread, SQL.execute_insert.
  rewrite decide_False by done. rewrite Hbind.
  set (new := SQL.row_of_email (S (last_rowid db)) thread_id e).
  assert (Hrows : rows (SQL.insert thread_id e (SQL.connect db)) = rows db ++ [new]) by done.
  assert (Hgroup : SQL.where_thread thread_id (rows db ++ [new])
                   = SQL.where_thread thread_id (rows db) ++ [new]).
  { rewrite where_thread_app. f_equal. unfold SQL.where_thread.
    by rewrite filter_cons_True. }
  rewrite Hrows, Hgroup, length_app, Hfull. cbn [length].
  rewrite decide_True by lia. cbn [fst snd rows]. split; [done |].
  replace (MAX_THREAD_HISTORY + 1 - MAX_THREAD_HISTORY) with 1 by lia.
  unfold SQLiteStorageProvider.delete_oldest. rewrite Hgroup.
  destruct (order_by_snoc_least SQL.by_timestamp
              (SQL.where_thread thread_id (rows db)) new) as [rest ->].
  { eapply Forall_impl; [exact Hnewer |]. intros r Hlt. simpl in *.
    unfold SQL.by_timestamp. rewrite ltb_negb_leb in Hlt.
    change (row_timestamp new) with (get_timestamp e).
    by destruct (String.leb (row_timestamp r) (get_timestamp e)). }
  cbn [take fmap list_fmap].
  rewrite filter_app, filter_cons, filter_nil.
  rewrite decide_False by (intros Hkeep; apply Hkeep; split; [done | set_solver]).
  rewrite app_nil_r. apply filter_all, Forall_forall. intros r Hr [_ Hin].
  apply list_elem_of_singleton in Hin.
  eapply Forall_forall in Hids; [| exact Hr]. simpl in Hin, Hids.
  change (row_id new) with (S (last_rowid db)) in Hin. lia.
Qed.

Lemma sqlite_append_older_than_all_witness :
  "t1" ≠ "" ∧ SQL.bindable Sample.A = true ∧
  SQL.bindable Sample.large_uid = false ∧
  ((SQLiteStorageProvider.add_email_to_thread 2 "t1" Sample.A
      (Appends.sqlite 2 [("t1", Sample.B); ("t1", Sample.C)] Sample.empty_db)).1 = true ∧
   rows (SQLiteStorageProvider.add_email_to_thread 2 "t1" Sample.A
           (Appends.sqlite 2 [("t1", Sample.B); ("t1", Sample.C)] Sample.empty_db)).2
   = rows (Appends.sqlite 2 [("t1", Sample.B); ("t1", Sample.C)] Sample.empty_db)) ∧
  ((SQLiteStorageProvider.add_email_to_thread 2 "t1" Sample.large_uid
      (Appends.sqlite 2 [("t1", Sample.B); ("t1", Sample.C)] Sample.empty_db)).1 = false ∧
   rows (SQLiteStorageProvider.add_email_to_thread 2 "t1" Sample.large_uid
           (Appends.sqlite 2 [("t1", Sample.B); ("t1", Sample.C)] Sample.empty_db)).2
   = rows (Appends.sqlite 2 [("t1", Sample.B); ("t1", Sample.C)] Sample.empty_db)).
Proof.
  assert (Hid : "t1" ≠ "") by discriminate.
  assert (HA : SQL.bindable Sample.A = true) by reflexivity.
  assert (HL : SQL.bindable Sample.large_uid = false) by reflexivity.
  assert (Hok : db_ok (Appends.sqlite 2 [("t1", Sample.B); ("t1", Sample.C)]
                         Sample.empty_db)).
  { split; apply (bool_decide_unpack _); by vm_compute. }
  split; [exact Hid |]. split; [exact HA |]. split; [exact HL |]. split.
  - apply (sqlite_append_older_than_all 2 "t1" Sample.A
             (Appends.sqlite 2 [("t1", Sample.B); ("t1", Sample.C)] Sample.empty_db)
             Hid Hok); [reflexivity | vm_compute; repeat constructor | exact HA].
  - apply (sqlite_append_older_than_all 2 "t1" Sample.large_uid
             (Appends.sqlite 2 [("t1", Sample.B); ("t1", Sample.C)] Sample.empty_db)
             Hid Hok); [reflexivity | vm_compute; repeat constructor | exact HL].
Defined.

(** ** An append that answers [False] and is stored *)

Lemma save_threads_with_getsize_fault (file_path : string) (cleanup_fails : bool)
    (m : gmap string (list email)) (fs : fs_state) :
  (JSONStorageProvider.save_threads_with file_path GetsizeFails cleanup_fails m fs).1 = false ∧
  file_threads file_path
    (JSONStorageProvider.save_threads_with file_path GetsizeFails cleanup_fails m fs).2 = m.
Proof.
  pose proof (temp_file_ne file_path) as Hne.
  unfold JSONStorageProvider.save_threads_with.
  match goal with
  | |- context [JSONStorageProvider.save_failed _ _ ?fs0] =>
    destruct (save_failed_files file_path cleanup_fails fs0 file_path)
      as (Hfalse & Hother & _)
  end.
  split; [exact Hfalse |]. unfold file_threads. rewrite Hother by done.
  simpl. unfold OS.move. simpl. rewrite lookup_insert_eq. by rewrite lookup_insert_eq.
Qed.

(** X13.  [False] from an append does not mean the record was not stored.
    When the exception comes after the rename (from the [os.path.getsize] of
    the new file), [add_email_to_thread] answers [False], and the thread
    file holds the threads with the record appended all the same. *)
Theorem add_email_to_thread_false_yet_stored (file_path : string)
    (MAX_THREAD_HISTORY : nat) (now : Z) (cleanup_fails : bool) (thread_id : string)
    (e : email) (fs : fs_state) :
  thread_id ≠ "" →
  let r := JSONStorageProvider.add_email_to_thread_with
             file_path MAX_THREAD_HISTORY now GetsizeFails cleanup_fails thread_id e fs in
  r.1 = false ∧
  (JSONStorageProvider.load_threads file_path now r.2).1
  = append_and_trim MAX_THREAD_HISTORY thread_id e
      (JSONStorageProvider.load_threads file_path now fs).1 ∧
  (JSONStorageProvider.get_thread_history file_path now thread_id r.2).1
  = Py.last_n MAX_THREAD_HISTORY
      ((JSONStorageProvider.get_thread_history file_path now thread_id fs).1 ++ [e]).
Proof.
  intros Hid r.
  assert (Hr : r.1 = false ∧
               file_threads file_path r.2
               = append_and_trim MAX_THREAD_HISTORY thread_id e (file_threads file_path fs)).
  { subst r. unfold JSONStorageProvider.add_email_to_thread_with.
    rewrite decide_False by done.
    pose proof (proj1 (load_threads_file_threads file_path now fs)) as Hload.
    destruct (JSONStorageProvider.load_threads file_path now fs) as [m fs1].
    simpl in Hload. subst m.
    destruct (save_threads_with_getsize_fault file_path cleanup_fails
                (append_and_trim MAX_THREAD_HISTORY thread_id e (file_threads file_path fs))
                fs1) as [Hfalse Hfile].
    destruct (JSONStorageProvider.save_threads_with _ _ _ _ _) as [ok fs2].
    simpl in Hfalse, Hfile. by subst ok. }
  destruct Hr as [Hfalse Hfile]. split; [exact Hfalse |].
  rewrite !(proj1 (load_threads_file_threads file_path now _)).
  split; [exact Hfile |].
  rewrite !json_get_thread_history_file_threads, !decide_False by done.
  rewrite Hfile, append_and_trim_lookup. by rewrite decide_True.
Qed.

Lemma add_email_to_thread_false_yet_stored_witness :
  "t1" ≠ "" ∧
  (JSONStorageProvider.add_email_to_thread_with "email_threads.json" 5 0 GetsizeFails false
     "t1" Sample.B (FS {["email_threads.json" := Doc {["t1" := [Sample.A]]}]} [])).1 = false ∧
  (JSONStorageProvider.get_thread_history "email_threads.json" 0 "t1"
     (JSONStorageProvider.add_email_to_thread_with "email_threads.json" 5 0 GetsizeFails false
        "t1" Sample.B (FS {["email_threads.json" := Doc {["t1" := [Sample.A]]}]} [])).2).1
  = [Sample.A; Sample.B].
Proof.
  assert (Hid : "t1" ≠ "") by discriminate.
  split; [exact Hid |].
  destruct (add_email_to_thread_false_yet_stored "email_threads.json" 5 0 false "t1"
              Sample.B (FS {["email_threads.json" := Doc {["t1" := [Sample.A]]}]} []) Hid)
    as (Hfalse & _ & Hhistory).
  split; [exact Hfalse |]. rewrite Hhistory. reflexivity.
Defined.

(** ** Reading the configuration *)

Lemma split_cons (sep : ascii) (s : string) :
  ∃ piece pieces, Config.split sep s = piece :: pieces.
Proof.
  induction s as [|c s (piece & pieces & IH)]; simpl; [by eexists _, _ |].
  destruct (Ascii.eqb c sep); [by eexists _, _ |]. rewrite IH. by eexists _, _.
Qed.

Lemma split_app (sep : ascii) (p q : string) :
  Config.split sep (p +:+ String sep q) = Config.split sep p ++ Config.split sep q.
Proof.
  induction p as [|c p IH]; simpl.
  - by rewrite Ascii.eqb_refl.
  - destruct (Ascii.eqb c sep); [by rewrite IH |].
    rewrite IH. by destruct (split_cons sep p) as (piece & pieces & ->).
Qed.

Lemma split_no_separator (sep : ascii) (s : string) :
  Forall (λ c, c ≠ sep) (list_ascii_of_string s) → Config.split sep s = [s].
Proof.
  induction s as [|c s IH]; simpl; [done |].
  intros [Hc Hs]%Forall_cons. rewrite (IH Hs).
  by destruct (Ascii.eqb_spec c sep).
Qed.

Lemma find_none (keys : list string) :
  foldl (λ value key, value ≫= (λ v, Config.subscript v key)) None keys = None.
Proof. by induction keys. Qed.

(** X14.  [Config.get] follows the dotted path one mapping at a time.  A
    path [p.q] is looked up by looking up [p] and then [q] in what was
    found, and a key without a dot is looked up in the mapping at hand: the
    default is returned when, and only when, a key on the way is missing or
    the value reached before it is no mapping.  A key that is there is
    returned as it is, be it [null].  After a configuration file that holds
    no document, or an empty one, every key gets its default. *)
Theorem get_follows_the_path (config_data default : yaml) :
  (∀ key_path,
     Config.get config_data key_path default
     = match Config.find config_data key_path with Some value => value | None => default end) ∧
  (∀ p q,
     Config.find config_data (p +:+ "." +:+ q)
     = Config.find config_data p ≫= (λ value, Config.find value q)) ∧
  (∀ key,
     Forall (λ c, c ≠ "."%char) (list_ascii_of_string key) →
     Config.find config_data key = Config.subscript config_data key) ∧
  (∀ loaded key_path,
     Config.truthy loaded = false →
     ∃ empty, Config._load_config (Config.ConfigYaml loaded) = inr empty ∧
              Config.get empty key_path default = default).
Proof.
  split; [done |]. split; [| split].
  - intros p q. unfold Config.find.
    change (p +:+ "." +:+ q) with (p +:+ String "."%char q).
    rewrite split_app, foldl_app.
    destruct (foldl _ (Some config_data) (Config.split "." p)) as [value|]; [done |].
    apply find_none.
  - intros key Hkey. unfold Config.find. by rewrite split_no_separator.
  - intros loaded key_path Hfalsy. exists (YMap ∅). simpl. rewrite Hfalsy.
    split; [done |]. unfold Config.get, Config.find.
    destruct (split_cons "." key_path) as (piece & pieces & ->). cbn [foldl].
    simpl. rewrite lookup_empty. by rewrite find_none.
Qed.

Lemma get_follows_the_path_witness :
  Forall (λ c, c ≠ "."%char) (list_ascii_of_string "threading") ∧
  Forall (λ c, c ≠ "."%char) (list_ascii_of_string "max_history") ∧
  Config.max_thread_history
    (YMap {["threading" := YMap {["max_history" := YInt 3]}]}) = YInt 3 ∧
  Config.max_thread_history (YMap {["threading" := YMap {["max_history" := YNull]}]}) = YNull ∧
  Config.max_thread_history (YMap {["threading" := YStr "max_history"]}) = YInt 5 ∧
  Config.truthy YNull = false ∧
  Config.get (YMap ∅) "threading.storage_file" (YStr "email_threads.json")
  = YStr "email_threads.json".
Proof.
  assert (H1 : Forall (λ c, c ≠ "."%char) (list_ascii_of_string "threading"))
    by (by repeat constructor).
  assert (H2 : Forall (λ c, c ≠ "."%char) (list_ascii_of_string "max_history"))
    by (by repeat constructor).
  split; [exact H1 |]. split; [exact H2 |].
  assert (Hget : ∀ config_data,
    Config.max_thread_history config_data
    = match Config.subscript config_data "threading"
            ≫= (λ value, Config.subscript value "max_history") with
      | Some value => value
      | None => YInt 5
      end).
  { intros config_data.
    destruct (get_follows_the_path config_data (YInt 5)) as (Hget & Hpath & Hkey & _).
    unfold Config.max_thread_history. rewrite Hget.
    change "threading.max_history" with ("threading" +:+ "." +:+ "max_history").
    rewrite Hpath, (Hkey _ H1).
    destruct (Config.subscript config_data "threading") as [value|]; [| done].
    simpl. destruct (get_follows_the_path value (YInt 5)) as (_ & _ & Hkey' & _).
    by rewrite (Hkey' _ H2). }
  rewrite !Hget. split_and!; [by vm_compute.. |].
  destruct (get_follows_the_path (YMap ∅) (YStr "email_threads.json"))
    as (_ & _ & _ & Hempty).
  destruct (Hempty YNull "threading.storage_file" eq_refl) as (empty & [= <-] & Hdefault).
  exact Hdefault.
Defined.

(** ** The pipeline: every result is counted once *)

Example strip_examples :
  Strip.strip ("  Re: offer " +:+ nl) = "Re: offer" ∧
  Strip.strip (String (ascii_of_nat 9) (String (ascii_of_nat 32) "")) = "" ∧
  Strip.strip (String (ascii_of_nat 194) (String (ascii_of_nat 160)
                 (String (ascii_of_nat 226) (String (ascii_of_nat 128)
                    (String (ascii_of_nat 131) "x y"))))) = "x y" ∧
  Strip.strip "" = "".
Proof. by vm_compute. Qed.

Lemma facade_add_email_to_thread_succeeds (MAX_THREAD_HISTORY : nat) (now : Z)
    (now_iso thread_id sender subject body : string) (uid : option Z) (is_bot_reply : bool)
    (s : storage) :
  thread_id ≠ "" →
  (provider_of s = SQLiteStorageProviderClass →
   SQL.bindable (ThreadManager.email_data now_iso sender subject body uid is_bot_reply) = true) →
  (ThreadManager.add_email_to_thread MAX_THREAD_HISTORY now now_iso thread_id
     sender subject body uid is_bot_reply s).1 = true.
Proof.
  intros Hid Hbind.
  destruct s as [file_path fs|db|st]; unfold ThreadManager.add_email_to_thread.
  - pose proof (proj1 (json_add_email_to_thread_step file_path MAX_THREAD_HISTORY now
                         thread_id
                         (ThreadManager.email_data now_iso sender subject body uid is_bot_reply)
                         fs Hid)) as Hok.
    by destruct (JSONStorageProvider.add_email_to_thread _ _ _ _ _ _).
  - unfold SQLiteStorageProvider.add_email_to_thread, SQL.execute_insert.
    rewrite decide_False by done. rewrite (Hbind eq_refl).
    by case_decide.
  - done.
Qed.

Lemma facade_add_email_to_thread_provider (MAX_THREAD_HISTORY : nat) (now : Z)
    (now_iso thread_id sender subject body : string) (uid : option Z) (is_bot_reply : bool)
    (s : storage) :
  provider_of (ThreadManager.add_email_to_thread MAX_THREAD_HISTORY now now_iso thread_id
                 sender subject body uid is_bot_reply s).2 = provider_of s.
Proof.
  destruct s as [file_path fs|db|st]; unfold ThreadManager.add_email_to_thread.
  - by destruct (JSONStorageProvider.add_email_to_thread _ _ _ _ _ _).
  - by destruct (SQLiteStorageProvider.add_email_to_thread _ _ _ _).
  - done.
Qed.

Lemma refusals_snoc (answers : list bool) (a : bool) :
  refusals (answers ++ [a]) = refusals answers + (if a then 0 else 1).
Proof.
  unfold refusals. rewrite filter_app, length_app. by destruct a.
Qed.

Lemma refusals_none (answers : list bool) :
  refusals answers = 0 ↔ Forall (λ a, a = true) answers.
Proof.
  unfold refusals. induction answers as [|[] answers IH].
  - by split; [constructor |].
  - rewrite filter_cons_False by done. rewrite IH. split; [by constructor |].
    by intros [_ ?]%Forall_cons.
  - rewrite filter_cons_True by done. split; [done |]. by intros [? _]%Forall_cons.
Qed.

Section Step5.

Variable MAX_THREAD_HISTORY : nat.
Variable now : Z.
Variable clock : nat → string.
Variable environ : gmap string string.
Variable results : list (Z * bool).

Lemma save_result_counts (st : Main.storage_loop) (result : Main.enhanced_result) :
  let st' := Main.save_result MAX_THREAD_HISTORY now clock environ results st result in
  Main.storage_successes st' + Main.storage_failures st'
  = S (Main.storage_successes st + Main.storage_failures st) ∧
  S (Main.calls_made st) ≤ Main.calls_made st' ∧
  Main.calls_made st' ≤ S (S (Main.calls_made st)) ∧
  (length (Main.answers st) = Main.calls_made st →
   length (Main.answers st') = Main.calls_made st') ∧
  Main.storage_failures st + refusals (Main.answers st')
  ≤ Main.storage_failures st' + refusals (Main.answers st) ∧
  (is_Some (Config.email_address environ) →
   Main.storage_failures st + refusals (Main.answers st')
   = Main.storage_failures st' + refusals (Main.answers st)) ∧
  provider_of (Main.storage_provider st') = provider_of (Main.storage_provider st) ∧
  (Main.result_thread_id result ≠ "" →
   (provider_of (Main.storage_provider st) = SQLiteStorageProviderClass →
    (- 2 ^ 63 ≤ Main.result_uid result < 2 ^ 63)%Z) →
   refusals (Main.answers st') = refusals (Main.answers st)).
Proof.
  unfold Main.save_result.
  pose proof (facade_add_email_to_thread_succeeds MAX_THREAD_HISTORY now
                (clock (Main.calls_made st)) (Main.result_thread_id result)
                (Main.result_sender result) (Main.result_subject result)
                (Main.result_body result) (Some (Main.result_uid result)) false
                (Main.storage_provider st)) as Horiginal.
  pose proof (facade_add_email_to_thread_provider MAX_THREAD_HISTORY now
                (clock (Main.calls_made st)) (Main.result_thread_id result)
                (Main.result_sender result) (Main.result_subject result)
                (Main.result_body result) (Some (Main.result_uid result)) false
                (Main.storage_provider st)) as Hkind.
  destruct (ThreadManager.add_email_to_thread _ _ _ _ _ _ _ _ _ (Main.storage_provider st))
    as [original_saved s1].
  simpl in Horiginal, Hkind.
  assert (Hbound : Main.result_thread_id result ≠ "" →
            (provider_of (Main.storage_provider st) = SQLiteStorageProviderClass →
             (- 2 ^ 63 ≤ Main.result_uid result < 2 ^ 63)%Z) →
            original_saved = true).
  { intros Hid Hrange. apply Horiginal; [done |]. intros Hsql.
    unfold SQL.bindable. cbn [uid ThreadManager.email_data].
    specialize (Hrange Hsql). apply andb_true_iff. split; [apply Z.leb_le | apply Z.ltb_lt]; lia. }
  clear Horiginal.
  destruct original_saved; cbn [negb].
  2: { cbn [Main.storage_successes Main.storage_failures Main.calls_made Main.answers
            Main.storage_provider].
       rewrite refusals_snoc, length_app. cbn [length].
       split_and!; [lia.. | intros _; lia | done |].
       intros Hid Hrange. by specialize (Hbound Hid Hrange). }
  clear Hbound.
  destruct (_ && _).
  - destruct (Config.email_address environ) as [bot_email|].
    2: { cbn [Main.storage_successes Main.storage_failures Main.calls_made Main.answers
              Main.storage_provider].
         rewrite refusals_snoc, length_app. cbn [length].
         split_and!; [lia.. | by intros [? ?] | done | intros _ _; lia]. }
    pose proof (facade_add_email_to_thread_succeeds MAX_THREAD_HISTORY now
                  (clock (S (Main.calls_made st))) (Main.result_thread_id result)
                  bot_email ("Re: " +:+ Strip.strip (Main.result_subject result))
                  (Main.result_reply result) None true s1) as Hreply.
    pose proof (facade_add_email_to_thread_provider MAX_THREAD_HISTORY now
                  (clock (S (Main.calls_made st))) (Main.result_thread_id result)
                  bot_email ("Re: " +:+ Strip.strip (Main.result_subject result))
                  (Main.result_reply result) None true s1) as Hkind'.
    destruct (ThreadManager.add_email_to_thread _ _ _ _ _ _ _ _ _ s1) as [reply_saved s2].
    simpl in Hreply, Hkind'.
    destruct reply_saved;
      cbn [Main.storage_successes Main.storage_failures Main.calls_made Main.answers
           Main.storage_provider];
      rewrite !refusals_snoc, !length_app; cbn [length];
      (split_and!; [lia.. | intros _; lia | congruence |]); [intros _ _; lia |].
    intros Hid _. by specialize (Hreply Hid (λ _, eq_refl)).
  - cbn [Main.storage_successes Main.storage_failures Main.calls_made Main.answers
         Main.storage_provider].
    rewrite refusals_snoc, length_app. cbn [length].
    split_and!; [lia.. | intros _; lia | done | intros _ _; lia].
Qed.

Lemma save_results_counts (enhanced_results : list Main.enhanced_result)
    (st : Main.storage_loop) :
  let st' := foldl (Main.save_result MAX_THREAD_HISTORY now clock environ results)
                   st enhanced_results in
  Main.storage_successes st' + Main.storage_failures st'
  = Main.storage_successes st + Main.storage_failures st + length enhanced_results ∧
  Main.calls_made st + length enhanced_results ≤ Main.calls_made st' ∧
  Main.calls_made st' ≤ Main.calls_made st + 2 * length enhanced_results ∧
  (length (Main.answers st) = Main.calls_made st →
   length (Main.answers st') = Main.calls_made st') ∧
  Main.storage_failures st + refusals (Main.answers st')
  ≤ Main.storage_failures st' + refusals (Main.answers st) ∧
  (is_Some (Config.email_address environ) →
   Main.storage_failures st + refusals (Main.answers st')
   = Main.storage_failures st' + refusals (Main.answers st)) ∧
  (Forall (λ result, Main.result_thread_id result ≠ "") enhanced_results →
   (provider_of (Main.storage_provider st) = SQLiteStorageProviderClass →
    Forall (λ result, (- 2 ^ 63 ≤ Main.result_uid result < 2 ^ 63)%Z) enhanced_results) →
   refusals (Main.answers st') = refusals (Main.answers st)).
Proof.
  revert st. induction enhanced_results as [|result rest IH]; intros st; cbn [foldl length].
  - split_and!; [lia.. | done | lia | intros _; lia | done].
  - destruct (save_result_counts st result)
      as (Hsum & Hlo & Hhi & Hlen & Hle & Heq & Hkind & Hnone).
    destruct (IH (Main.save_result MAX_THREAD_HISTORY now clock environ results st result))
      as (Hsum' & Hlo' & Hhi' & Hlen' & Hle' & Heq' & Hnone').
    split_and!; [lia.. | by intros ?; apply Hlen', Hlen | lia | |].
    + intros Henv. specialize (Heq Henv). specialize (Heq' Henv). lia.
    + intros [Hid Hrest]%Forall_cons Hrange. rewrite Hnone'.
      * apply Hnone; [done |]. intros Hsql. specialize (Hrange Hsql).
        by apply Forall_cons in Hrange as [? _].
      * done.
      * rewrite Hkind. intros Hsql. specialize (Hrange Hsql).
        by apply Forall_cons in Hrange as [_ ?].
Qed.

End Step5.

(** X15.  Step 5 of the pipeline counts every result once.  Whatever the
    provider stores and returns, when the loop ends the successes and the
    failures add up to the number of results, and [add_email_to_thread] has
    been called at least once and at most twice per result.  A failure is
    counted for every call that returned [False], so that no failure is
    counted only if every call returned [True]; and when the bot's address
    is in the environment and every call returned [True], nothing fails:
    every result is a success.  The calls do all return [True] when no
    thread id is empty, no operation on the file or the database raises
    (the providers are taken without such errors here) and, where the
    provider is the SQLite one, every uid is a signed 64-bit integer; a uid
    outside that range makes the SQLite provider return [False], and the
    result is counted as a failure. *)
Theorem save_to_thread_storage_counts_each_result (MAX_THREAD_HISTORY : nat) (now : Z)
    (clock : nat → string) (environ : gmap string string) (results : list (Z * bool))
    (enhanced_results : list Main.enhanced_result) (s : storage) :
  let st := Main.save_to_thread_storage MAX_THREAD_HISTORY now clock environ results
              enhanced_results s in
  Main.storage_successes st + Main.storage_failures st = length enhanced_results ∧
  length enhanced_results ≤ Main.calls_made st ∧
  Main.calls_made st ≤ 2 * length enhanced_results ∧
  length (Main.answers st) = Main.calls_made st ∧
  length (filter (λ a, a = false) (Main.answers st)) ≤ Main.storage_failures st ∧
  (Main.storage_failures st = 0 → Forall (λ a, a = true) (Main.answers st)) ∧
  (is_Some (Config.email_address environ) →
   Forall (λ a, a = true) (Main.answers st) →
   Main.storage_failures st = 0 ∧ Main.storage_successes st = length enhanced_results) ∧
  (Forall (λ result, Main.result_thread_id result ≠ "") enhanced_results →
   (provider_of s = SQLiteStorageProviderClass →
    Forall (λ result, (- 2 ^ 63 ≤ Main.result_uid result < 2 ^ 63)%Z) enhanced_results) →
   Forall (λ a, a = true) (Main.answers st)).
Proof.
  intros st. subst st. unfold Main.save_to_thread_storage.
  destruct (save_results_counts MAX_THREAD_HISTORY now clock environ results
              enhanced_results (Main.StorageLoop 0 0 0 [] s))
    as (Hsum & Hlo & Hhi & Hlen & Hle & Heq & Hnone).
  cbn [Main.storage_successes Main.storage_failures Main.calls_made Main.answers
       Main.storage_provider] in *.
  change (refusals []) with 0 in *. unfold refusals in Hle |- *.
  split_and!; [lia | lia | lia | by apply Hlen | lia | | |].
  - intros Hzero. apply refusals_none. unfold refusals. lia.
  - intros Henv Hall. apply refusals_none in Hall. specialize (Heq Henv). lia.
  - intros Hids Hrange. apply refusals_none. by apply Hnone.
Qed.

Lemma save_to_thread_storage_counts_each_result_witness :
  Forall (λ result, Main.result_thread_id result ≠ "")
         [PipelineSample.answered; PipelineSample.unanswered] ∧
  Forall (λ result, (- 2 ^ 63 ≤ Main.result_uid result < 2 ^ 63)%Z)
         [PipelineSample.answered; PipelineSample.unanswered] ∧
  is_Some (Config.email_address PipelineSample.environ) ∧
  Main.storage_failures
    (Main.save_to_thread_storage 5 0 PipelineSample.clock PipelineSample.environ
       PipelineSample.results [PipelineSample.answered; PipelineSample.unanswered]
       (SQLiteStorage Sample.empty_db)) = 0 ∧
  Main.storage_successes
    (Main.save_to_thread_storage 5 0 PipelineSample.clock PipelineSample.environ
       PipelineSample.results [PipelineSample.answered; PipelineSample.unanswered]
       (SQLiteStorage Sample.empty_db)) = 2.
Proof.
  assert (Hids : Forall (λ result, Main.result_thread_id result ≠ "")
                   [PipelineSample.answered; PipelineSample.unanswered])
    by (by repeat constructor).
  assert (Hrange : Forall (λ result, (- 2 ^ 63 ≤ Main.result_uid result < 2 ^ 63)%Z)
                     [PipelineSample.answered; PipelineSample.unanswered])
    by (repeat constructor; simpl; lia).
  assert (Henv : is_Some (Config.email_address PipelineSample.environ)) by (by eexists).
  split; [exact Hids |]. split; [exact Hrange |]. split; [exact Henv |].
  destruct (save_to_thread_storage_counts_each_result 5 0 PipelineSample.clock
              PipelineSample.environ PipelineSample.results
              [PipelineSample.answered; PipelineSample.unanswered]
              (SQLiteStorage Sample.empty_db)) as (_ & _ & _ & _ & _ & _ & Hall & Htrue).
  exact (Hall Henv (Htrue Hids (λ _, Hrange))).
Defined.

(** A message whose uid is 2 ^ 63 is stored by the JSON provider and refused
    by the SQLite provider, where the result is counted as a failure. *)
Example save_to_thread_storage_large_uid :
  let large :=
    Main.EnhancedResult "customer@test.com" "Product Question" "What are your specs?"
      (2 ^ 63) "t1" "" in
  let json :=
    Main.save_to_thread_storage 5 0 PipelineSample.clock PipelineSample.environ
      PipelineSample.results [large] (JSONStorage "email_threads.json" Sample.empty_fs) in
  let sqlite :=
    Main.save_to_thread_storage 5 0 PipelineSample.clock PipelineSample.environ
      PipelineSample.results [large] (SQLiteStorage Sample.empty_db) in
  (Main.storage_successes json, Main.storage_failures json, Main.answers json)
  = (1, 0, [true]) ∧
  (Main.storage_successes sqlite, Main.storage_failures sqlite, Main.answers sqlite)
  = (0, 1, [false]).
Proof. split; by vm_compute. Qed.

(** What the two sample results leave in memory: the question followed by
    the reply, whose subject is the stripped one with "Re: " before it, and
    the unanswered message alone. *)
Example save_to_thread_storage_sample :
  Main.save_to_thread_storage 5 0 PipelineSample.clock PipelineSample.environ
    PipelineSample.results [PipelineSample.answered; PipelineSample.unanswered]
    (MockStorage Sample.empty_mock)
  = Main.StorageLoop 2 0 3 [true; true; true]
      (MockStorage
         (Mock {["t1" :=
                   [Email (Some 101%Z) (Some "customer@test.com") (Some " Product Question ")
                      (Some "What are your specs?") (Some "2024-03-01T12:00:00") (Some false);
                    Email None (Some "bot@company.com") (Some "Re: Product Question")
                      (Some "Here are our specifications...") (Some "2024-03-01T12:00:01")
                      (Some true)];
                 "t2" :=
                   [Email (Some 102%Z) (Some "student@university.edu")
                      (Some "General information request")
                      (Some "Can you send me some basic information?")
                      (Some "2024-03-01T12:00:02") (Some false)]]} 3)).
Proof. by vm_compute. Qed.

(** ** The two ways of reading a thread *)

(** X16.  Reading one thread and reading them all agree.  On the JSON file
    and in memory, [get_thread_history] answers what [load_threads] holds
    for the thread (the empty list if it holds nothing; on the JSON file
    also for the empty thread id).  On the SQLite provider, whose two
    queries sort differently, it answers the first [MAX_THREAD_HISTORY]
    records of what [load_threads] holds for the thread. *)
Theorem get_thread_history_agrees_with_load_threads (MAX_THREAD_HISTORY : nat)
    (file_path : string) (now : Z) (t : string) :
  (∀ fs,
     (JSONStorageProvider.get_thread_history file_path now t fs).1
     = if decide (t = "") then []
       else default [] ((JSONStorageProvider.load_threads file_path now fs).1 !! t)) ∧
  (∀ db,
     (SQLiteStorageProvider.get_thread_history MAX_THREAD_HISTORY t db).1
     = if decide (t = "") then []
       else take MAX_THREAD_HISTORY
              (default [] ((SQLiteStorageProvider.load_threads db).1 !! t))) ∧
  (∀ st,
     (MockStorageProvider.get_thread_history t st).1
     = default [] ((MockStorageProvider.load_threads st).1 !! t)).
Proof.
  split_and!.
  - intros fs. rewrite json_get_thread_history_file_threads.
    by rewrite (proj1 (load_threads_file_threads file_path now fs)).
  - intros db. unfold SQLiteStorageProvider.get_thread_history.
    case_decide; [done |]. cbn [fst].
    rewrite (proj1 (sql_load_threads_lookup db t)). by rewrite fmap_take.
  - done.
Qed.

(** ** What the copies of the in-memory provider do protect *)

Lemma heap_ok_init : heap_ok MockHeap.init.
Proof. intros t l Hl. cbn in Hl. by rewrite lookup_empty in Hl. Qed.

Lemma heap_ok_add_email_to_thread (MAX_THREAD_HISTORY : nat) (thread_id : string)
    (e : email) (st : MockHeap.state) :
  heap_ok st →
  heap_ok (MockHeap.add_email_to_thread MAX_THREAD_HISTORY thread_id e st).2.
Proof.
  intros Hok. unfold MockHeap.add_email_to_thread.
  destruct (MockHeap.self_threads (MockHeap.tick st) !! thread_id) as [l|] eqn:Hl;
    cbn -[Py.last_n]; case_decide; cbn -[Py.last_n]; intros t l' Hl'.
  all: unfold MockHeap.bind_thread, MockHeap.list_append in *;
    cbn [MockHeap.self_threads MockHeap.next_ref] in *.
  all: try (destruct (decide (thread_id = t)) as [->|Hne];
            [rewrite lookup_insert_eq in Hl'; injection Hl' as <-; lia
            |rewrite !lookup_insert_ne in Hl' by done]).
  all: specialize (Hok t l' Hl'); lia.
Qed.

(** X17.  The list that [get_thread_history] returns is the caller's own.
    In a state where the lists of the store have been allocated -- the
    initial state is one, and [add_email_to_thread] keeps it so -- the
    returned reference is a new list object, which holds the records of the
    thread, and appending to it changes no thread of the store. *)
Theorem mock_returned_list_is_fresh (thread_id : string) (st : MockHeap.state) :
  heap_ok st →
  let r := MockHeap.get_thread_history thread_id st in
  MockHeap.read_list r.1 r.2 = MockHeap.stored_history thread_id st ∧
  (∀ t, MockHeap.stored_history t r.2 = MockHeap.stored_history t st) ∧
  (∀ d t, MockHeap.stored_history t (MockHeap.list_append r.1 d r.2)
          = MockHeap.stored_history t st).
Proof.
  intros Hok r. subst r. unfold MockHeap.get_thread_history, MockHeap.new_list.
  cbn [fst snd MockHeap.tick MockHeap.next_ref MockHeap.list_objects MockHeap.dict_objects
       MockHeap.self_threads].
  split_and!.
  - unfold MockHeap.read_list, MockHeap.stored_history. cbn. rewrite lookup_insert_eq.
    by destruct (MockHeap.self_threads st !! thread_id).
  - intros t. unfold MockHeap.stored_history, MockHeap.read_list. cbn.
    destruct (MockHeap.self_threads st !! t) as [l|] eqn:Hl; [| done].
    specialize (Hok t l Hl). by rewrite lookup_insert_ne by lia.
  - intros d t. unfold MockHeap.stored_history, MockHeap.read_list, MockHeap.list_append.
    cbn. destruct (MockHeap.self_threads st !! t) as [l|] eqn:Hl; [| done].
    specialize (Hok t l Hl). rewrite lookup_alter_ne by lia.
    by rewrite lookup_insert_ne by lia.
Qed.

Lemma mock_returned_list_is_fresh_witness :
  heap_ok (MockHeap.add_email_to_thread 5 "t1" Sample.A MockHeap.init).2 ∧
  MockHeap.stored_history "t1"
    (MockHeap.list_append
       (MockHeap.get_thread_history "t1"
          (MockHeap.add_email_to_thread 5 "t1" Sample.A MockHeap.init).2).1 1
       (MockHeap.get_thread_history "t1"
          (MockHeap.add_email_to_thread 5 "t1" Sample.A MockHeap.init).2).2)
  = [Sample.A].
Proof.
  assert (Hok : heap_ok (MockHeap.add_email_to_thread 5 "t1" Sample.A MockHeap.init).2).
  { apply heap_ok_add_email_to_thread, heap_ok_init. }
  split; [exact Hok |].
  destruct (mock_returned_list_is_fresh "t1" _ Hok) as (_ & _ & Happend).
  rewrite Happend. reflexivity.
Defined.

(** ** Timestamps in ISO format are ordered as the instants they stand for *)


















Lemma valid_spec (dt : Clock.datetime) :
  Datetime.valid dt = true →
  let '(y, m, d) := Clock.civil_from_days (Clock.day_number dt) in
  (1 ≤ y ≤ 9999 ∧ 1 ≤ m ≤ 12 ∧ 1 ≤ d ≤ 31 ∧
   0 ≤ Clock.second_of_day dt < 86400 ∧ 0 ≤ Clock.microsecond dt < 1000000)%Z.
Proof.
  unfold Datetime.valid.
  destruct (Clock.civil_from_days (Clock.day_number dt)) as [[y m] d].
  rewrite !andb_true_iff, !Z.leb_le, !Z.ltb_lt. lia.
Qed.

(** The day numbers of the years 1 to 9999. *)
Lemma civil_from_days_year (days : Z) :
  (1 ≤ (Clock.civil_from_days days).1.1 ≤ 9999 → -719468 ≤ days < 2932957)%Z.
Proof.
  unfold Clock.civil_from_days.
  set (z := (days + 719468)%Z).
  set (era := (z / 146097)%Z).
  set (doe := (z - era * 146097)%Z).
  set (yoe := ((doe - doe / 1460 + doe / 36524 - doe / 146096) / 365)%Z).
  set (doy := (doe - (365 * yoe + yoe / 4 - yoe / 100))%Z).
  set (mp := ((5 * doy + 2) / 153)%Z).
  set (c := (if (if mp <? 10 then mp + 3 else mp - 9) <=? 2 then 1 else 0)%Z).
  cbn [fst].
  assert (Hc : (0 ≤ c ≤ 1)%Z) by (subst c; destruct (_ <=? 2)%Z; lia).
  clearbody c.
  assert (Hdoe : (0 ≤ doe ≤ 146096)%Z).
  { subst doe era. pose proof (Z.mod_pos_bound z 146097 ltac:(lia)) as Hmod.
    rewrite Z.mod_eq in Hmod by lia. lia. }
  assert (Hyoe : (0 ≤ yoe ≤ 399)%Z).
  { subst yoe. clearbody doe.
    split; [apply Z.div_pos; [| lia] | apply Z.lt_succ_r, Z.div_lt_upper_bound; [lia |]].
    all: Z.to_euclidean_division_equations; lia. }
  intros Hy.
  assert ((0 ≤ era ≤ 24)%Z) by (clearbody yoe; lia).
  subst doe z. lia.
Qed.

(** Between two dates there are fewer days than a [timedelta] can hold:
    when [now] is a date and [now - timedelta(days=days_old)] is to be one,
    [timedelta(days=days_old)] does not raise. *)
Lemma timedelta_within_limit (now : Clock.datetime) (days_old : Z) :
  Datetime.valid now = true →
  Datetime.valid (Clock.minus_days now days_old) = true →
  (-999999999 ≤ days_old ≤ 999999999)%Z.
Proof.
  intros Hnow%valid_spec Hcut%valid_spec.
  pose proof (civil_from_days_year (Clock.day_number now)) as Hn.
  pose proof (civil_from_days_year (Clock.day_number (Clock.minus_days now days_old))) as Hc.
  destruct (Clock.civil_from_days (Clock.day_number now)) as [[y m] d].
  destruct (Clock.civil_from_days (Clock.day_number (Clock.minus_days now days_old)))
    as [[y' m'] d'].
  cbn [fst] in Hn, Hc. cbn [Clock.minus_days Clock.day_number] in Hc.
  lia.
Qed.








